(** * WebsiteDownloader: a shallow embedding of the download core

    The development follows the Python sources:

    - [utils/parser.py]        ([LogParser]):   classification of wget's log lines;
    - [utils/file_manager.py]  ([FileManager]): the storage sandbox and the retention sweep;
    - [core/engine.py]         ([WgetEngine]):  the supervised wget process;
    - [app.py]                 ([process_download]): the job that ties them together.

    Python values are modelled as follows.  A [str] is the list of its code
    points; an [int] is a [Z]; a [dict] is a [gmap]; an exception is a value of
    [exn] carried by [result]; the file system, the clock, the logging output
    and the child processes form the explicit state [World]. *)

From Stdlib Require Import ZArith NArith Ascii String DecimalString.
From stdpp Require Import gmap list strings.

Local Open Scope N_scope.

(** ** Python strings *)

Definition codepoint := N.
Definition pystr := list codepoint.

Fixpoint utf8_bytes (s : string) : list N :=
  match s with
  | EmptyString => []
  | String a s' => N_of_ascii a :: utf8_bytes s'
  end.

(** UTF-8 decoding of the bytes of a literal: [need] continuation bytes are
    still expected for the code point accumulated in [acc]. *)
Fixpoint utf8_decode (need : nat) (acc : N) (bs : list N) : pystr :=
  match bs with
  | [] => []
  | b :: bs' =>
      match need with
      | O =>
          if b <? 128 then b :: utf8_decode 0 0 bs'
          else if b <? 224 then utf8_decode 1 (b - 192) bs'
          else if b <? 240 then utf8_decode 2 (b - 224) bs'
          else utf8_decode 3 (b - 240) bs'
      | S n =>
          let acc' := acc * 64 + (b - 128) in
          match n with
          | O => acc' :: utf8_decode 0 0 bs'
          | S _ => utf8_decode n acc' bs'
          end
      end
  end.

(** [py "text"] is the Python string literal ["text"]. *)
Definition py (s : string) : pystr := utf8_decode 0 0 (utf8_bytes s).

(** The line feed, written ["\n"] in the sources. *)
Definition LF : codepoint := 10.

(** [str(n)] for an [int]. *)
Definition str_of_int (z : Z) : pystr :=
  py (NilZero.string_of_int (Z.to_int z)).

(** The Unicode tables the [re] module consults and that are too large to be
    written out: the decimal digits (category Nd, the class [\d]) and the
    simple lower-case mapping used by [re.IGNORECASE]. *)
Class UnicodeData := {
  unicode_isdecimal : codepoint -> bool;
  unicode_tolower : codepoint -> codepoint
}.

(** The tables restricted to Basic Latin: they agree with Unicode on every
    code point below 128 and treat the others as uncased non-digits. *)
Definition ascii_unicode : UnicodeData := {|
  unicode_isdecimal c := (48 <=? c) && (c <=? 57);
  unicode_tolower c := if (65 <=? c) && (c <=? 90) then c + 32 else c
|}.

Module Str.

(** [str.isspace] for one character (CPython's [_PyUnicode_IsWhitespace]). *)
Definition isspace (c : codepoint) : bool :=
  ((9 <=? c) && (c <=? 13)) || ((28 <=? c) && (c <=? 32))
  || (c =? 133) || (c =? 160) || (c =? 5760)
  || ((8192 <=? c) && (c <=? 8202))
  || (c =? 8232) || (c =? 8233) || (c =? 8239) || (c =? 8287) || (c =? 12288).

Fixpoint lstrip (s : pystr) : pystr :=
  match s with
  | c :: s' => if isspace c then lstrip s' else s
  | [] => []
  end.

Definition rstrip (s : pystr) : pystr := rev (lstrip (rev s)).

(** [s.strip()] *)
Definition strip (s : pystr) : pystr := rstrip (lstrip s).

(** [s.startswith(p)] *)
Fixpoint startswith (s p : pystr) {struct p} : bool :=
  match p, s with
  | [], _ => true
  | a :: p', b :: s' => (a =? b) && startswith s' p'
  | _ :: _, [] => false
  end.

(** [s.endswith(p)] *)
Definition endswith (s p : pystr) : bool := startswith (rev s) (rev p).

(** [sub in s] *)
Fixpoint contains (s sub : pystr) : bool :=
  startswith s sub ||
  match s with
  | [] => false
  | _ :: s' => contains s' sub
  end.

Fixpoint find_from (i : Z) (s sub : pystr) : Z :=
  if startswith s sub then i
  else match s with
       | [] => (-1)%Z
       | _ :: s' => find_from (i + 1)%Z s' sub
       end.

(** [s.find(sub)]: the lowest index of [sub] in [s], or -1. *)
Definition find (s sub : pystr) : Z := find_from 0%Z s sub.

(** A slice bound as Python clamps it for a sequence of length [len]. *)
Definition clamp (len i : Z) : Z :=
  if (i <? 0)%Z then Z.max (i + len) 0 else Z.min i len.

(** [s[a:b]] *)
Definition slice (s : pystr) (a b : Z) : pystr :=
  let len := Z.of_nat (length s) in
  let a' := clamp len a in
  let b' := clamp len b in
  take (Z.to_nat (b' - a')) (drop (Z.to_nat a') s).

(** [sep.join(l)] *)
Fixpoint join (sep : pystr) (l : list pystr) : pystr :=
  match l with
  | [] => []
  | [a] => a
  | a :: l' => a ++ sep ++ join sep l'
  end.

(** The loop of [s.split(sep)] for a non-empty [sep]: [skip] characters of a
    separator just found are still to be dropped, [cur] is the current
    piece, reversed. *)
Fixpoint split_loop (sep : pystr) (skip : nat) (cur : pystr) (s : pystr)
  : list pystr :=
  match s with
  | [] => [rev cur]
  | c :: s' =>
      match skip with
      | S k => split_loop sep k cur s'
      | O =>
          if startswith s sep
          then rev cur :: split_loop sep (length sep - 1) [] s'
          else split_loop sep 0 (c :: cur) s'
      end
  end.

End Str.

(** ** Exceptions *)

Inductive exn_class :=
| IndexError | ValueError | KeyError | AttributeError | TypeError | UnboundLocalError
| FileNotFoundError | NotADirectoryError | IsADirectoryError | PermissionError
| OSError | RuntimeError | TimeoutExpired | Exception.

(** An exception: its class and [str(e)]. *)
Record exn := Exn { exn_type : exn_class; exn_str : pystr }.

(** How a call ends: with a value, with an exception, or not at all. *)
Inductive result (A : Type) :=
| Ok (a : A)
| Raise (e : exn)
| Diverge.
Arguments Ok {A} a.
Arguments Raise {A} e.
Arguments Diverge {A}.

#[export] Instance result_ret : MRet result := fun A a => Ok a.
#[export] Instance result_bind : MBind result := fun A B f m =>
  match m with
  | Ok a => f a
  | Raise e => Raise e
  | Diverge => Diverge
  end.

(** [try: body  except: handler] for a computation without state. *)
Definition try_except {A} (body : result A) (handler : exn -> result A) : result A :=
  match body with
  | Ok a => Ok a
  | Raise e => handler e
  | Diverge => Diverge
  end.

Module Seq.

(** [s.split(sep)]; an empty separator is a [ValueError]. *)
Definition split (s sep : pystr) : result (list pystr) :=
  match sep with
  | [] => Raise (Exn ValueError (py "empty separator"))
  | _ :: _ => Ok (Str.split_loop sep 0 [] s)
  end.

(** [l[i]] with Python's negative indices; out of range is an [IndexError]. *)
Definition getitem {A} (l : list A) (i : Z) : result A :=
  let len := Z.of_nat (length l) in
  let j := if (i <? 0)%Z then (i + len)%Z else i in
  if (j <? 0)%Z then Raise (Exn IndexError (py "list index out of range"))
  else match l !! Z.to_nat j with
       | Some x => Ok x
       | None => Raise (Exn IndexError (py "list index out of range"))
       end.

End Seq.

(** ** Regular expressions (the [re] module) *)

Module Re.

(** What one pattern position accepts. *)
Inductive charclass :=
| Lit (c : codepoint)
    (** a literal character *)
| LitIgnoreCase (lo : codepoint) (fixes : list codepoint)
    (** a cased literal under [re.IGNORECASE]: the subject character is
        lower-cased and compared with [lo] and its equivalents [fixes] *)
| Dot
    (** [.]: anything but a line feed *)
| Digit
    (** [\d] *)
| Space.
    (** [\s] *)

Inductive regex :=
| Fail
| Eps
| Chr (k : charclass)
| Cat (r1 r2 : regex)
| Alt (r1 r2 : regex)
| Star (r : regex)
| Eol.
    (** [$]: the end of the subject, or just before a final line feed *)

Definition Plus (r : regex) : regex := Cat r (Star r).

Fixpoint lits (s : pystr) : regex :=
  match s with
  | [] => Eps
  | [c] => Chr (Lit c)
  | c :: s' => Cat (Chr (Lit c)) (lits s')
  end.

Definition is_ascii_upper (c : codepoint) : bool := (65 <=? c) && (c <=? 90).
Definition is_ascii_lower (c : codepoint) : bool := (97 <=? c) && (c <=? 122).

(** How [sre_compile] emits a literal of an ASCII pattern under
    [re.IGNORECASE]: an uncased character stays a literal, a letter is
    lower-cased; [i] also stands for the dotless i (U+0131), [s] for the
    long s (U+017F) and [k] has no further equivalent in the table. *)
Definition lit_ignorecase (c : codepoint) : charclass :=
  if is_ascii_upper c || is_ascii_lower c then
    let lo := if is_ascii_upper c then c + 32 else c in
    LitIgnoreCase lo (if lo =? 105 then [305] else if lo =? 115 then [383] else [])
  else Lit c.

Fixpoint lits_ignorecase (s : pystr) : regex :=
  match s with
  | [] => Eps
  | [c] => Chr (lit_ignorecase c)
  | c :: s' => Cat (Chr (lit_ignorecase c)) (lits_ignorecase s')
  end.

Section Matching.
Context {U : UnicodeData}.

Definition accepts (k : charclass) (c : codepoint) : bool :=
  match k with
  | Lit a => a =? c
  | LitIgnoreCase lo fixes =>
      let l := unicode_tolower c in
      (l =? lo) || existsb (N.eqb l) fixes
  | Dot => negb (c =? LF)
  | Digit => unicode_isdecimal c
  | Space => Str.isspace c
  end.

(** [nullable rest r]: [r] matches the empty string in front of the
    remaining subject [rest]. *)
Fixpoint nullable (rest : pystr) (r : regex) : bool :=
  match r with
  | Fail => false
  | Eps => true
  | Chr _ => false
  | Cat r1 r2 => nullable rest r1 && nullable rest r2
  | Alt r1 r2 => nullable rest r1 || nullable rest r2
  | Star _ => true
  | Eol => match rest with
           | [] => true
           | [c] => c =? LF
           | _ => false
           end
  end.

(** The derivative of [r] by the character [c] that heads the remaining
    subject [rest]. *)
Fixpoint deriv (rest : pystr) (c : codepoint) (r : regex) : regex :=
  match r with
  | Fail | Eps | Eol => Fail
  | Chr k => if accepts k c then Eps else Fail
  | Cat r1 r2 =>
      let d1 := match deriv rest c r1 with
                | Fail => Fail
                | d => Cat d r2
                end in
      if nullable rest r1 then Alt d1 (deriv rest c r2) else d1
  | Alt r1 r2 =>
      match deriv rest c r1, deriv rest c r2 with
      | Fail, d => d
      | d, Fail => d
      | d1, d2 => Alt d1 d2
      end
  | Star r1 =>
      match deriv rest c r1 with
      | Fail => Fail
      | d => Cat d (Star r1)
      end
  end.

(** [r] matches some prefix of [s] ([pattern.match(s)] is not [None]). *)
Fixpoint matches_prefix (s : pystr) (r : regex) {struct s} : bool :=
  nullable s r ||
  match s with
  | [] => false
  | c :: s' => matches_prefix s' (deriv s c r)
  end.

(** [pattern.search(s)] is not [None]: [r] matches at some position. *)
Fixpoint search (r : regex) (s : pystr) : bool :=
  matches_prefix s r ||
  match s with
  | [] => false
  | _ :: s' => search r s'
  end.

End Matching.

End Re.

(** ** utils/parser.py *)

Module LogParser.

(** The attributes of a [LogParser] object. *)
Record t := Build {
  downloaded_count : Z;
  error_count : Z;
  saved_pattern : Re.regex;
  ok_pattern : Re.regex;
  error_pattern : Re.regex
}.

Definition set_downloaded_count (self : t) (n : Z) : t :=
  Build n (error_count self) (saved_pattern self) (ok_pattern self) (error_pattern self).

Definition set_error_count (self : t) (n : Z) : t :=
  Build (downloaded_count self) n (saved_pattern self) (ok_pattern self) (error_pattern self).

(** [re.compile(r"‘.+’ saved \[\d+/\d+\]")] *)
Definition saved_re : Re.regex :=
  Re.Cat (Re.lits (py "‘"))
 (Re.Cat (Re.Plus (Re.Chr Re.Dot))
 (Re.Cat (Re.lits (py "’ saved ["))
 (Re.Cat (Re.Plus (Re.Chr Re.Digit))
 (Re.Cat (Re.lits (py "/"))
 (Re.Cat (Re.Plus (Re.Chr Re.Digit))
         (Re.lits (py "]"))))))).

(** [re.compile(r"\s200 OK$")] *)
Definition ok_re : Re.regex :=
  Re.Cat (Re.Chr Re.Space) (Re.Cat (Re.lits (py "200 OK")) Re.Eol).

(** [re.compile(r"(ERROR \d+|failed:|Not Found)", re.IGNORECASE)] *)
Definition error_re : Re.regex :=
  Re.Alt (Re.Cat (Re.lits_ignorecase (py "ERROR ")) (Re.Plus (Re.Chr Re.Digit)))
 (Re.Alt (Re.lits_ignorecase (py "failed:"))
         (Re.lits_ignorecase (py "Not Found"))).

(** [LogParser()] *)
Definition __init__ : t := {|
  downloaded_count := 0;
  error_count := 0;
  saved_pattern := saved_re;
  ok_pattern := ok_re;
  error_pattern := error_re
|}.

(** The body of the [try] of [_extract_filename]. *)
Definition extract_filename_body (line : pystr) : result pystr :=
  let start := Str.find line (py "‘") in
  let end_ := Str.find line (py "’") in
  if negb (start =? -1)%Z && negb (end_ =? -1)%Z then
    let full_path := Str.slice line (start + 1)%Z end_ in
    parts ← Seq.split full_path (py "/");
    Seq.getitem parts (-1)%Z
  else Ok (py "file").

Definition _extract_filename (self : t) (line : pystr) : result pystr :=
  try_except (extract_filename_body line) (fun _ => Ok (py "file")).

Definition _get_stats (self : t) : gmap string Z :=
  <["files" := downloaded_count self]> (<["errors" := error_count self]> ∅).

Definition reset (self : t) : t :=
  set_error_count (set_downloaded_count self 0%Z) 0%Z.

Section ProcessLine.
Context {U : UnicodeData}.

(** The [if]/[elif] chain of [process_line] on the stripped, non-empty
    line: the display text without its final line feed, and the object
    after the counter updates. *)
Definition classify (self : t) (line : pystr) : result (pystr * t) :=
  if Re.search (saved_pattern self) line then
    let self := set_downloaded_count self (downloaded_count self + 1)%Z in
    name ← _extract_filename self line;
    Ok (py "✅ FILE SAVED: " ++ name, self)
  else if Re.search (error_pattern self) line then
    let self := set_error_count self (error_count self + 1)%Z in
    Ok (py "❌ ERROR: " ++ line, self)
  else if Str.startswith line (py "Resolving ") then
    Ok (py "🔄 " ++ line, self)
  else if Str.startswith line (py "Connecting to ") then
    Ok (py "🔗 " ++ line, self)
  else if Str.contains line (py "200 OK") then
    Ok (py "⬇️  Response: 200 OK", self)
  else if Str.startswith line (py "Saving to:") then
    filename ← _extract_filename self line;
    Ok (py "💾 Saving: " ++ filename ++ py "...", self)
  else
    Ok (py "   " ++ line, self).

(** [parser.process_line(line)]: the returned pair and the object
    afterwards. *)
Definition process_line (self : t) (line : pystr)
  : result ((pystr * gmap string Z) * t) :=
  let line := Str.strip line in
  if bool_decide (line = []) then
    Ok ((py "", _get_stats self), self)
  else
    '(clean_log, self) ← classify self line;
    Ok ((clean_log ++ [LF], _get_stats self), self).

End ProcessLine.

End LogParser.

(** ** The world outside the program *)

(** An entry of the file system. *)
Inductive kind :=
| File
| Dir
| Symlink (target : pystr).

(** [st_mtime] is kept in whole seconds. *)
Record inode := Inode { i_kind : kind; st_mtime : Z }.

#[export] Instance kind_eq_dec : EqDecision kind.
Proof. solve_decision. Defined.
#[export] Instance inode_eq_dec : EqDecision inode.
Proof. solve_decision. Defined.

Inductive level := INFO | WARNING | ERROR.

Inductive signal := SIGTERM | SIGKILL.

Inductive status :=
| Running
| Exited (returncode : Z).

(** A child process: [out] are the lines it still writes to its stderr while
    it runs, [rest] is what is left in the pipe once it has exited, [code] is
    its exit status, [on_term] the status with which it exits within the grace
    period after a SIGTERM (None: it does not exit in time). *)
Record child (FS : Type) := Child {
  c_status : status;
  c_out : list pystr;
  c_rest : pystr;
  c_code : Z;
  c_writes : FS -> FS;
  c_on_term : option Z
}.
Arguments Child {FS}.
Arguments c_status {FS}.
Arguments c_out {FS}.
Arguments c_rest {FS}.
Arguments c_code {FS}.
Arguments c_writes {FS}.
Arguments c_on_term {FS}.

(** The file system maps each absolute, link-free path (the list of its
    components) to its entry; the root directory is implicit.  The system
    refuses to remove the entries in [w_immutable] ([PermissionError]). *)
Record World := {
  w_fs : gmap (list pystr) inode;
  w_immutable : gset (list pystr);
  w_cwd : list pystr;
  w_clock : Z;
  w_log : list (pystr * level * pystr);
  w_stdout : list pystr;
  w_launch : list pystr -> option (child (gmap (list pystr) inode));
  w_children : list (child (gmap (list pystr) inode));
  w_signals : list (nat * signal)
}.

Definition set_fs (w : World) fs : World :=
  {| w_fs := fs; w_immutable := w_immutable w; w_cwd := w_cwd w; w_clock := w_clock w;
     w_log := w_log w; w_stdout := w_stdout w; w_launch := w_launch w;
     w_children := w_children w; w_signals := w_signals w |}.

Definition set_log (w : World) l : World :=
  {| w_fs := w_fs w; w_immutable := w_immutable w; w_cwd := w_cwd w; w_clock := w_clock w;
     w_log := l; w_stdout := w_stdout w; w_launch := w_launch w;
     w_children := w_children w; w_signals := w_signals w |}.

Definition set_stdout (w : World) l : World :=
  {| w_fs := w_fs w; w_immutable := w_immutable w; w_cwd := w_cwd w; w_clock := w_clock w;
     w_log := w_log w; w_stdout := l; w_launch := w_launch w;
     w_children := w_children w; w_signals := w_signals w |}.

Definition set_children (w : World) cs : World :=
  {| w_fs := w_fs w; w_immutable := w_immutable w; w_cwd := w_cwd w; w_clock := w_clock w;
     w_log := w_log w; w_stdout := w_stdout w; w_launch := w_launch w;
     w_children := cs; w_signals := w_signals w |}.

Definition set_signals (w : World) sg : World :=
  {| w_fs := w_fs w; w_immutable := w_immutable w; w_cwd := w_cwd w; w_clock := w_clock w;
     w_log := w_log w; w_stdout := w_stdout w; w_launch := w_launch w;
     w_children := w_children w; w_signals := sg |}.

(** ** Effectful code: state, exceptions and the values of a generator

    A computation over the state [S] that yields values of [Y] on its way:
    the yielded values in order, the result or the exception raised, and the
    state afterwards.  A plain method is a generator that yields nothing. *)

Definition Gen (Y S A : Type) : Type := S -> list Y * result A * S.

Section GenMonad.
Context {Y S : Type}.

Definition gret {A} (a : A) : Gen Y S A := fun s => ([], Ok a, s).

Definition gbind {A B} (m : Gen Y S A) (f : A -> Gen Y S B) : Gen Y S B :=
  fun s =>
    match m s with
    | (ys, Ok a, s1) =>
        match f a s1 with
        | (ys', r, s2) => (ys ++ ys', r, s2)
        end
    | (ys, Raise e, s1) => (ys, Raise e, s1)
    | (ys, Diverge, s1) => (ys, Diverge, s1)
    end.

Definition raise {A} (e : exn) : Gen Y S A := fun s => ([], Raise e, s).

Definition yield (y : Y) : Gen Y S unit := fun s => ([y], Ok tt, s).

Definition get : Gen Y S S := fun s => ([], Ok s, s).
Definition put (s : S) : Gen Y S unit := fun _ => ([], Ok tt, s).
Definition gets {A} (f : S -> A) : Gen Y S A := fun s => ([], Ok (f s), s).
Definition modify (f : S -> S) : Gen Y S unit := fun s => ([], Ok tt, f s).

(** A pure computation that may raise. *)
Definition lift_result {A} (r : result A) : Gen Y S A := fun s => ([], r, s).

(** [try: body  except cls as e: handler e]; [caught] tells the exceptions
    the clause catches. *)
Definition try_catch {A} (caught : exn -> bool)
    (body : Gen Y S A) (handler : exn -> Gen Y S A) : Gen Y S A :=
  fun s =>
    match body s with
    | (ys, Ok a, s1) => (ys, Ok a, s1)
    | (ys, Raise e, s1) =>
        if caught e then
          match handler e s1 with
          | (ys', r, s2) => (ys ++ ys', r, s2)
          end
        else (ys, Raise e, s1)
    | (ys, Diverge, s1) => (ys, Diverge, s1)
    end.

(** [try: body  finally: fin] *)
Definition try_finally {A} (body : Gen Y S A) (fin : Gen Y S unit) : Gen Y S A :=
  fun s =>
    match body s with
    | (ys, Diverge, s1) => (ys, Diverge, s1)
    | (ys, r, s1) =>
        match fin s1 with
        | (ys', Ok _, s2) => (ys ++ ys', r, s2)
        | (ys', Raise e, s2) => (ys ++ ys', Raise e, s2)
        | (ys', Diverge, s2) => (ys ++ ys', Diverge, s2)
        end
    end.

End GenMonad.

#[export] Instance gen_ret {Y S} : MRet (Gen Y S) := fun A a => gret a.
#[export] Instance gen_bind {Y S} : MBind (Gen Y S) := fun A B f m => gbind m f.

(** [except Exception] and the bare [except]: every exception modelled here
    derives from [Exception]. *)
Definition any_exception (e : exn) : bool := true.

(** [except subprocess.TimeoutExpired] *)
Definition is_timeout_expired (e : exn) : bool :=
  match exn_type e with
  | TimeoutExpired => true
  | _ => false
  end.

(** Code that yields nothing. *)
Inductive void : Type := .
Definition IO (S A : Type) : Type := Gen void S A.

(** Running a method inside a generator: it yields nothing there. *)
Definition call {Y S A} (m : IO S A) : Gen Y S A :=
  fun s => match m s with (_, r, s1) => ([], r, s1) end.

(** Running code over a part of the state. *)
Definition zoom {Y S T A} (proj : S -> T) (inj : S -> T -> S) (m : Gen Y T A)
  : Gen Y S A :=
  fun s => match m (proj s) with (ys, r, t) => (ys, r, inj s t) end.

(** ** pathlib and os.path (POSIX flavour) *)

Module Path.

(** A [PurePosixPath]: its root (empty, ["/"] or ["//"]) and its other
    parts. *)
Record t := Build { root : pystr; parts : list pystr }.

#[export] Instance eq_dec : EqDecision t.
Proof. solve_decision. Defined.

(** The pieces of a path string between its slashes. *)
Definition components (s : pystr) : list pystr :=
  Str.split_loop (py "/") 0 [] s.

Definition is_trivial (c : pystr) : bool :=
  bool_decide (c = []) || bool_decide (c = py ".").

Definition root_of (s : pystr) : pystr :=
  if Str.startswith s (py "//") && negb (Str.startswith s (py "///")) then py "//"
  else if Str.startswith s (py "/") then py "/"
  else [].

(** [Path(s)]: empty and [.] components are dropped, [..] is kept. *)
Definition of_str (s : pystr) : t :=
  {| root := root_of s;
     parts := List.filter (fun c => negb (is_trivial c)) (components s) |}.

(** [str(p)] *)
Definition to_str (p : t) : pystr :=
  match root p, parts p with
  | [], [] => py "."
  | r, ps => r ++ Str.join (py "/") ps
  end.

(** [p.name] *)
Definition name (p : t) : pystr := List.last (parts p) [].

(** [p / other] *)
Definition joinpath (p : t) (other : pystr) : t :=
  let o := of_str other in
  match root o with
  | [] => {| root := root p; parts := parts p ++ parts o |}
  | _ :: _ => o
  end.

(** [p.parents]: the proper ancestors, nearest first. *)
Definition parents (p : t) : list t :=
  List.map (fun n => {| root := root p; parts := take n (parts p) |})
           (rev (seq 0 (length (parts p)))).

(** [a in l] *)
Definition member (a : t) (l : list t) : bool := bool_decide (a ∈ l).

(** [p.parent]; a path without parts is its own parent. *)
Definition parent (p : t) : t :=
  {| root := root p; parts := removelast (parts p) |}.

(** [p.absolute()] where the working directory is [cwd]: no link is
    resolved and no [..] is removed. *)
Definition absolute (cwd : list pystr) (p : t) : t :=
  match root p with
  | [] => {| root := py "/"; parts := cwd ++ parts p |}
  | _ :: _ => p
  end.

End Path.

(** [os.path.join(a, b)] *)
Definition os_path_join (a b : pystr) : pystr :=
  if Str.startswith b (py "/") then b
  else if bool_decide (a = []) || Str.startswith (rev a) (py "/") then a ++ b
  else a ++ py "/" ++ b.

(** ** The file system calls *)

Module FS.

Definition fs_t := gmap (list pystr) inode.

(** [lstat] of an absolute link-free path; the root always exists. *)
Definition entry (fs : gmap (list pystr) inode) (p : list pystr) : option inode :=
  match p with
  | [] => Some (Inode Dir 0)
  | _ :: _ => fs !! p
  end.

Definition ENOENT : exn := Exn FileNotFoundError (py "No such file or directory").
Definition ENOTDIR : exn := Exn NotADirectoryError (py "Not a directory").
Definition ELOOP : exn := Exn OSError (py "Too many levels of symbolic links").
Definition EISDIR : exn := Exn IsADirectoryError (py "Is a directory").
Definition EACCES : exn := Exn PermissionError (py "Permission denied").

(** [FileExistsError], a subclass of [OSError] that nothing here tells
    from it. *)
Definition EEXIST : exn := Exn OSError (py "File exists").

Inductive walked :=
| Done (p : list pystr)
| AtLink (dir : list pystr) (target : pystr) (rest : list pystr)
| Broken (e : exn).

(** Walks the components [rest] from the directory [cur] up to the first
    symbolic link.  In strict mode (the kernel's own lookup) a missing
    component or a file in the middle is an error; otherwise (as
    [os.path.realpath] does) the remaining components are kept as they are. *)
Fixpoint walk (strict : bool) (fs : gmap (list pystr) inode)
    (cur rest : list pystr) : walked :=
  match rest with
  | [] => Done cur
  | name :: rest' =>
      if Path.is_trivial name then walk strict fs cur rest'
      else if bool_decide (name = py "..") then walk strict fs (removelast cur) rest'
      else
        let p := cur ++ [name] in
        match fs !! p with
        | Some (Inode (Symlink target) _) => AtLink cur target rest'
        | Some (Inode Dir _) => walk strict fs p rest'
        | Some (Inode File _) =>
            if strict && negb (bool_decide (rest' = [])) then Broken ENOTDIR
            else walk strict fs p rest'
        | None => if strict then Broken ENOENT else walk strict fs p rest'
        end
  end.

(** Follows at most [fuel] symbolic links; more is reported as a loop. *)
Fixpoint follow (fuel : nat) (strict : bool) (fs : gmap (list pystr) inode)
    (cur rest : list pystr) : result (list pystr) :=
  match walk strict fs cur rest with
  | Done p => Ok p
  | Broken e => Raise e
  | AtLink dir target rest' =>
      match fuel with
      | O => Raise ELOOP
      | S n =>
          follow n strict fs
            (if Str.startswith target (py "/") then [] else dir)
            (Path.components target ++ rest')
      end
  end.

Definition MAXSYMLINKS : nat := 40.

(** Where the lookup of [p] starts in the world [w]. *)
Definition start (w : World) (p : Path.t) : list pystr :=
  match Path.root p with
  | [] => w_cwd w
  | _ :: _ => []
  end.

(** [os.path.realpath(p)] *)
Definition realpath (w : World) (p : Path.t) : result (list pystr) :=
  follow MAXSYMLINKS false (w_fs w) (start w p) (Path.parts p).

(** The kernel's lookup of [p], every link followed. *)
Definition lookup_path (w : World) (p : Path.t) : result (list pystr) :=
  follow MAXSYMLINKS true (w_fs w) (start w p) (Path.parts p).

(** [os.stat(p)] *)
Definition stat_at (w : World) (p : Path.t) : result inode :=
  q ← lookup_path w p;
  match entry (w_fs w) q with
  | Some i => Ok i
  | None => Raise ENOENT
  end.

(** The entry that a removal through [p] addresses: the directory holding
    it, resolved, and the link-free path of the entry itself. *)
Definition locate (w : World) (p : Path.t) : result (list pystr * list pystr) :=
  match List.last (Path.parts p) [] with
  | [] => Raise EISDIR
  | name =>
      if bool_decide (name = py "..") then Raise EISDIR
      else
        d ← follow MAXSYMLINKS true (w_fs w) (start w p) (removelast (Path.parts p));
        match entry (w_fs w) d with
        | Some (Inode Dir _) => Ok (d, d ++ [name])
        | Some _ => Raise ENOTDIR
        | None => Raise ENOENT
        end
  end.

(** [k] is an entry of the directory [d] whose name matches ["*" + suffix]. *)
Definition matches_star (d : list pystr) (suffix : pystr) (k : list pystr) : bool :=
  bool_decide (k = d ++ [List.last k []] ∧ k ≠ [])
  && Str.endswith (List.last k []) suffix.

(** Whether the path string [s] leads to an entry: the errors of the lookup
    mean that it does not. *)
Definition path_exists (w : World) (s : pystr) : bool :=
  match s with
  | [] => false
  | _ :: _ =>
      match follow MAXSYMLINKS true (w_fs w)
              (if Str.startswith s (py "/") then [] else w_cwd w)
              (Path.components s) with
      | Ok q => bool_decide (is_Some (entry (w_fs w) q))
      | _ => false
      end
  end.

(** [k] or something below it cannot be removed. *)
Definition blocked (w : World) (k : list pystr) : bool :=
  existsb (fun kv => bool_decide (k `prefix_of` kv.1)
                     && bool_decide (kv.1 ∈ w_immutable w))
          (map_to_list (w_fs w)).

Section Calls.
Context {Y : Type}.

(** [time.time()] *)
Definition time : Gen Y World Z := gets w_clock.

(** [logging.getLogger(name).log(lvl, msg)] *)
Definition log (name : pystr) (lvl : level) (msg : pystr) : Gen Y World unit :=
  modify (fun w => set_log w (w_log w ++ [(name, lvl, msg)])).

(** [print(msg)] *)
Definition print (msg : pystr) : Gen Y World unit :=
  modify (fun w => set_stdout w (w_stdout w ++ [msg])).

(** [p.resolve()]: a symbolic-link loop is a [RuntimeError]. *)
Definition resolve (p : Path.t) : Gen Y World Path.t :=
  w ← get;
  match realpath w p with
  | Ok q => mret (Path.Build (py "/") q)
  | _ => raise (Exn RuntimeError (py "Symlink loop from " ++ Path.to_str p))
  end.

(** [p.stat()] *)
Definition stat (p : Path.t) : Gen Y World inode :=
  w ← get; lift_result (stat_at w p).

(** [p.exists()]: the errors of the lookup mean that it does not. *)
Definition exists_ (p : Path.t) : Gen Y World bool :=
  w ← get;
  mret (match stat_at w p with Ok _ => true | _ => false end).

(** [p.is_dir()] *)
Definition is_dir (p : Path.t) : Gen Y World bool :=
  w ← get;
  mret (match stat_at w p with
        | Ok (Inode Dir _) => true
        | _ => false
        end).

(** [os.path.exists(s)] *)
Definition os_path_exists (s : pystr) : Gen Y World bool :=
  w ← get; mret (path_exists w s).

(** [p.unlink()] *)
Definition unlink (p : Path.t) : Gen Y World unit :=
  w ← get;
  '(d, k) ← lift_result (locate w p);
  match w_fs w !! k with
  | None => raise ENOENT
  | Some (Inode Dir _) => raise EISDIR
  | Some _ =>
      if bool_decide (k ∈ w_immutable w) then raise EACCES
      else put (set_fs w (delete k (w_fs w)))
  end.

(** [shutil.rmtree(p)]: refuses a symbolic link; removes what it can of
    the tree and raises if something in it cannot be removed. *)
Definition rmtree (p : Path.t) : Gen Y World unit :=
  w ← get;
  '(d, k) ← lift_result (locate w p);
  match w_fs w !! k with
  | None => raise ENOENT
  | Some (Inode (Symlink _) _) =>
      raise (Exn OSError (py "Cannot call rmtree on a symbolic link"))
  | Some (Inode File _) => raise ENOTDIR
  | Some (Inode Dir _) =>
      put (set_fs w (filter (fun kv => ¬ (k `prefix_of` kv.1) ∨ blocked w kv.1 = true)
                            (w_fs w)));;
      if blocked w k then raise EACCES else mret tt
  end.

(** [p.glob("*" + suffix)]: the entries of the directory [p] whose name
    ends with [suffix], in the order of the directory listing. *)
Definition glob_star (p : Path.t) (suffix : pystr) : Gen Y World (list Path.t) :=
  w ← get;
  match stat_at w p, lookup_path w p with
  | Ok (Inode Dir _), Ok d =>
      mret (omap (fun kv =>
                    if matches_star d suffix kv.1
                    then Some (Path.joinpath p (List.last kv.1 [])) else None)
                 (map_to_list (w_fs w)))
  | _, _ => mret []
  end.

(** [os.mkdir(p)]: the directory that is to hold the new one is looked
    up with every link followed; a name that is taken, by whatever kind of
    entry, is refused.  Creating an entry is never refused for lack of
    permission. *)
Definition mkdir (p : Path.t) : Gen Y World unit :=
  w ← get;
  match List.last (Path.parts p) [] with
  | [] => raise EEXIST
  | name =>
      d ← lift_result (follow MAXSYMLINKS true (w_fs w) (start w p)
                         (removelast (Path.parts p)));
      match entry (w_fs w) d with
      | Some (Inode Dir _) =>
          if Path.is_trivial name || bool_decide (name = py "..") then raise EEXIST
          else match w_fs w !! (d ++ [name]) with
               | Some _ => raise EEXIST
               | None =>
                   put (set_fs w (<[d ++ [name] := Inode Dir (w_clock w)]> (w_fs w)))
               end
      | Some _ => raise ENOTDIR
      | None => raise ENOENT
      end
  end.

(** [except FileNotFoundError] *)
Definition is_file_not_found (e : exn) : bool :=
  match exn_type e with
  | FileNotFoundError => true
  | _ => false
  end.

(** The [except OSError] clause of [Path.mkdir] with [exist_ok=True]:
    the error is dropped when the path is a directory. *)
Definition unless_is_dir (p : Path.t) (e : exn) : Gen Y World unit :=
  present ← is_dir p;
  if present : bool then mret tt else raise e.

(** [p.mkdir(parents=False, exist_ok=True)] *)
Definition mkdir_exist_ok (p : Path.t) : Gen Y World unit :=
  try_catch any_exception (mkdir p)
    (fun e => if is_file_not_found e then raise e else unless_is_dir p e).

(** [p.mkdir(parents=True, exist_ok=True)]; [depth] bounds the calls on
    the parents, one for each part of the path. *)
Fixpoint mkdir_parents (depth : nat) (p : Path.t) : Gen Y World unit :=
  try_catch any_exception (mkdir p)
    (fun e =>
       if is_file_not_found e then
         match depth, Path.parts p with
         | S depth', _ :: _ =>
             mkdir_parents depth' (Path.parent p);;
             mkdir_exist_ok p
         | _, _ => raise e
         end
       else unless_is_dir p e).

End Calls.

End FS.

(** [d[key]] for a dictionary with string keys. *)
Definition dict_getitem {V} (d : gmap string V) (key : string) : result V :=
  match d !! key with
  | Some v => Ok v
  | None => Raise (Exn KeyError (py key))
  end.

(** ** utils/file_manager.py *)

Module FileManager.

(** The attributes of a [FileManager]; [logger] is the name of its logger. *)
Record t := Build {
  root : Path.t;
  temp_dir : Path.t;
  zip_dir : Path.t;
  logger : pystr
}.

(** [FileManager(base_storage_path)] *)
Definition __init__ (base_storage_path : pystr) : t :=
  let root := Path.of_str base_storage_path in
  {| root := root;
     temp_dir := Path.joinpath root (py "temp_sites");
     zip_dir := Path.joinpath root (py "output_zips");
     logger := py "FileManager" |}.

(** [FileManager()] *)
Definition default : t := __init__ (py "storage").

(** The [for] loop of [cleanup_old_files] over the paths still to visit;
    it returns [count]. *)
Fixpoint sweep (self : t) (current_time age_seconds : Z)
    (files : list Path.t) (count : Z) : IO World Z :=
  match files with
  | [] => mret count
  | file_path :: files' =>
      st ← FS.stat file_path;
      let file_age := (current_time - st_mtime st)%Z in
      if (age_seconds <? file_age)%Z then
        count ← try_catch any_exception
          (FS.unlink file_path;;
           FS.log (logger self) INFO
             (py "Deleted expired file: " ++ Path.name file_path);;
           mret (count + 1)%Z)
          (fun e =>
             FS.log (logger self) ERROR
               (py "Failed to delete " ++ Path.name file_path ++ py ": " ++ exn_str e);;
             mret count);
        sweep self current_time age_seconds files' count
      else sweep self current_time age_seconds files' count
  end.

(** [fm.cleanup_old_files(max_age_minutes)] *)
Definition cleanup_old_files (self : t) (max_age_minutes : Z) : IO World unit :=
  present ← FS.exists_ (zip_dir self);
  if negb present then mret tt
  else
    current_time ← FS.time;
    let age_seconds := (max_age_minutes * 60)%Z in
    try_catch any_exception
      (files ← FS.glob_star (zip_dir self) (py ".zip");
       count ← sweep self current_time age_seconds files 0%Z;
       if (0 <? count)%Z then
         FS.print (py "[FileManager] Cleaned up " ++ str_of_int count
                     ++ py " expired ZIP files.")
       else mret tt)
      (fun e => FS.log (logger self) ERROR (py "Error during cleanup: " ++ exn_str e)).

(** [fm.clear_temp_folder(folder_path)] *)
Definition clear_temp_folder (self : t) (folder_path : pystr) : IO World unit :=
  let path := Path.of_str folder_path in
  try_catch any_exception
    (temp ← FS.resolve (temp_dir self);
     resolved ← FS.resolve path;
     if Path.member temp (Path.parents resolved) then
       present ← FS.exists_ path;
       if present : bool then
         is_dir ← FS.is_dir path;
         if is_dir : bool then
           FS.rmtree path;;
           FS.log (logger self) INFO (py "Removed temp folder: " ++ Path.name path)
         else mret tt
       else mret tt
     else
       FS.log (logger self) WARNING
         (py "Security Warning: Attempted to delete outside temp dir: " ++ Path.to_str path))
    (fun e =>
       FS.log (logger self) ERROR
         (py "Failed to clear temp folder " ++ Path.to_str path ++ py ": " ++ exn_str e)).

(** [fm.initialize()] *)
Definition initialize (self : t) : IO World unit :=
  FS.mkdir_parents (length (Path.parts (temp_dir self))) (temp_dir self);;
  FS.mkdir_parents (length (Path.parts (zip_dir self))) (zip_dir self);;
  w ← get;
  FS.log (logger self) INFO
    (py "Storage initialized at: " ++ Path.to_str (Path.absolute (w_cwd w) (root self))).

(** [fm.get_paths()] *)
Definition get_paths (self : t) : gmap string pystr :=
  <["root" := Path.to_str (root self)]>
    (<["temp" := Path.to_str (temp_dir self)]>
       (<["zip" := Path.to_str (zip_dir self)]> ∅)).

End FileManager.

(** ** subprocess *)

Module Subprocess.

Definition fs_t := gmap (list pystr) inode.

Definition child_at (w : World) (pid : nat) : option (child (gmap (list pystr) inode)) :=
  w_children w !! pid.

Definition set_child (w : World) (pid : nat) (c : child (gmap (list pystr) inode)) : World :=
  set_children w (<[pid := c]> (w_children w)).

(** The child leaves with the status [rc]. *)
Definition exited (c : child (gmap (list pystr) inode)) (rc : Z)
  : child (gmap (list pystr) inode) :=
  Child (Exited rc) [] (c_rest c) (c_code c) (c_writes c) (c_on_term c).

Section Calls.
Context {Y : Type}.

(** [subprocess.Popen(cmd, stdout=PIPE, stderr=PIPE, text=True, ...)]:
    the handle is the index of the child. *)
Definition Popen (cmd : list pystr) : Gen Y World nat :=
  w ← get;
  match w_launch w cmd with
  | None =>
      raise (Exn FileNotFoundError
               (py "No such file or directory: " ++ List.hd [] cmd))
  | Some c =>
      put (set_children w
             (w_children w ++
              [Child Running (c_out c) (c_rest c) (c_code c) (c_writes c) (c_on_term c)]));;
      mret (length (w_children w))
  end.

(** [process.stderr.readline()]: the next line the running child writes;
    with its last line (or at end of file) the child has done its work
    and exits. *)
Definition readline (pid : nat) : Gen Y World pystr :=
  w ← get;
  match child_at w pid with
  | None => raise (Exn ValueError (py "I/O operation on closed file"))
  | Some c =>
      match c_status c with
      | Exited _ => mret []
      | Running =>
          match c_out c with
          | line :: (_ :: _) as later =>
              put (set_child w pid
                     (Child Running later (c_rest c) (c_code c)
                            (c_writes c) (c_on_term c)));;
              mret line
          | last =>
              put (set_fs (set_child w pid (exited c (c_code c)))
                          (c_writes c (w_fs w)));;
              mret (List.hd [] last)
          end
      end
  end.

(** [process.stderr.read()]: what is left in the pipe. *)
Definition read (pid : nat) : Gen Y World pystr :=
  w ← get;
  match child_at w pid with
  | None => raise (Exn ValueError (py "I/O operation on closed file"))
  | Some c =>
      put (set_child w pid
             (Child (c_status c) (c_out c) [] (c_code c) (c_writes c) (c_on_term c)));;
      mret (c_rest c)
  end.

(** [process.poll()] *)
Definition poll (pid : nat) : Gen Y World (option Z) :=
  w ← get;
  mret (match child_at w pid with
        | Some c => match c_status c with
                    | Running => None
                    | Exited rc => Some rc
                    end
        | None => None
        end).

Definition send_signal (pid : nat) (sg : signal) : Gen Y World unit :=
  w ← get;
  match child_at w pid with
  | Some c =>
      match c_status c with
      | Running => put (set_signals w (w_signals w ++ [(pid, sg)]))
      | Exited _ => mret tt
      end
  | None => mret tt
  end.

(** [process.terminate()] *)
Definition terminate (pid : nat) : Gen Y World unit := send_signal pid SIGTERM.

(** [process.wait(timeout=2)] after a SIGTERM. *)
Definition wait (pid : nat) (timeout : Z) : Gen Y World Z :=
  w ← get;
  match child_at w pid with
  | None => raise (Exn ValueError (py "no such child"))
  | Some c =>
      match c_status c, c_on_term c with
      | Exited rc, _ => mret rc
      | Running, Some rc => put (set_child w pid (exited c rc));; mret rc
      | Running, None =>
          raise (Exn TimeoutExpired
                   (py "timed out after " ++ str_of_int timeout ++ py " seconds"))
      end
  end.

(** [process.kill()] *)
Definition kill (pid : nat) : Gen Y World unit :=
  send_signal pid SIGKILL;;
  w ← get;
  match child_at w pid with
  | Some c =>
      match c_status c with
      | Running => put (set_child w pid (exited c (-9)%Z))
      | Exited _ => mret tt
      end
  | None => mret tt
  end.

End Calls.

End Subprocess.

(** ** Library calls taken as parameters

    [urlparse url] is the pair [(netloc, path)] of
    [urllib.parse.urlparse(url)], or the [ValueError] it raises;
    [make_archive base_name root_dir base_dir] is
    [shutil.make_archive(base_name, 'zip', root_dir, base_dir)]. *)
Class Library := {
  urlparse : pystr -> result (pystr * pystr);
  make_archive : pystr -> pystr -> pystr -> IO World pystr
}.

(** ** core/engine.py *)

Module WgetEngine.

(** The attributes of a [WgetEngine]; [process] is the handle of the child. *)
Record t := Build {
  fm : FileManager.t;
  paths : gmap string pystr;
  base_dir : pystr;
  process : option nat;
  current_website_dir : option pystr
}.

Definition set_process (self : t) (p : option nat) : t :=
  Build (fm self) (paths self) (base_dir self) p (current_website_dir self).

Definition set_current_website_dir (self : t) (d : option pystr) : t :=
  Build (fm self) (paths self) (base_dir self) (process self) d.

(** [WgetEngine(file_manager)] *)
Definition __init__ (file_manager : FileManager.t) : result t :=
  let paths := FileManager.get_paths file_manager in
  base_dir ← dict_getitem paths "temp";
  Ok {| fm := file_manager; paths := paths; base_dir := base_dir;
        process := None; current_website_dir := None |}.

(** What [download] yields: [(log_line, completed_folder_path)]. *)
Definition item : Type := pystr * option pystr.

(** The state of a method call: the object and the world. *)
Definition state : Type := t * World.

Section Methods.
Context {L : Library} {Y : Type}.

Definition self_ : Gen Y state t := gets fst.
Definition set_self (f : t -> t) : Gen Y state unit :=
  modify (fun s => (f s.1, s.2)).

(** A call on the world. *)
Definition os {A} (m : Gen Y World A) : Gen Y state A :=
  zoom snd (fun s w => (s.1, w)) m.

(** [self.process.<attr>]: [None] has no attributes. *)
Definition the_process : Gen Y state nat :=
  self ← self_;
  match process self with
  | Some pid => mret pid
  | None =>
      raise (Exn AttributeError (py "'NoneType' object has no attribute 'stderr'"))
  end.

(** [self.current_website_dir] where a path is required. *)
Definition the_dir : Gen Y state pystr :=
  self ← self_;
  match current_website_dir self with
  | Some dir => mret dir
  | None =>
      raise (Exn TypeError
               (py "stat: path should be string, bytes, os.PathLike or integer, not NoneType"))
  end.

(** [engine._get_domain_from_url(url)] *)
Definition _get_domain_from_url (url : pystr) : result pystr :=
  '(netloc, path) ← urlparse url;
  domain ← match netloc with
           | _ :: _ => Ok netloc
           | [] => segments ← Seq.split path (py "/"); Seq.getitem segments 0%Z
           end;
  hostport ← Seq.split domain (py ":");
  Seq.getitem hostport 0%Z.

(** [engine.cleanup_partial_files()] *)
Definition cleanup_partial_files : Gen Y state unit :=
  self ← self_;
  match current_website_dir self with
  | Some ((_ :: _) as dir) => os (call (FileManager.clear_temp_folder (fm self) dir))
  | _ => mret tt
  end.

(** [engine.stop()] *)
Definition stop : Gen Y state unit :=
  self ← self_;
  match process self with
  | None => mret tt
  | Some pid =>
      rc ← os (Subprocess.poll pid);
      match rc with
      | Some _ => mret tt
      | None =>
          try_finally
            (try_catch is_timeout_expired
               (pid ← the_process; os (Subprocess.terminate pid);;
                pid ← the_process; os (Subprocess.wait pid 2%Z);;
                mret tt)
               (fun _ => pid ← the_process; os (Subprocess.kill pid)))
            (set_self (fun self => set_process self None);;
             cleanup_partial_files)
      end
  end.

End Methods.

Section Download.
Context {L : Library}.

(** [str(return_code)] inside an f-string. *)
Definition str_of_code (rc : option Z) : pystr :=
  match rc with
  | Some n => str_of_int n
  | None => py "None"
  end.

(** The [while True] loop that streams stderr; [fuel] bounds the number
    of its iterations. *)
Fixpoint stream (fuel : nat) : Gen item state unit :=
  match fuel with
  | O => fun s => ([], Diverge, s)
  | S fuel' =>
      pid ← the_process;
      line ← os (Subprocess.readline pid);
      match line with
      | _ :: _ => yield (line, None)
      | [] => mret tt
      end;;
      pid ← the_process;
      rc ← os (Subprocess.poll pid);
      match rc with
      | Some _ =>
          pid ← the_process;
          remaining ← os (Subprocess.read pid);
          match remaining with
          | _ :: _ => yield (remaining, None)
          | [] => mret tt
          end
      | None => stream fuel'
      end
  end.

(** The number of lines the child [pid] still writes. *)
Definition pending (w : World) (pid : nat) : nat :=
  match Subprocess.child_at w pid with
  | Some c => length (c_out c)
  | None => 0
  end.

(** Step 6 of [download]: the verdict once the stream has ended. *)
Definition conclude : Gen item state unit :=
  pid ← the_process;
  return_code ← os (Subprocess.poll pid);
  self ← self_;
  present ← (if bool_decide (return_code = Some 0%Z)
             then dir ← the_dir; os (FS.os_path_exists dir)
             else mret false);
  if present : bool then
    yield (LF :: py "[Engine] Download completed successfully." ++ [LF],
           current_website_dir self)
  else
    yield (LF :: py "[Engine] Error: Process exited with code "
              ++ str_of_code return_code ++ py "." ++ [LF], None);;
    cleanup_partial_files.

(** [engine.download(url)], run until the generator is exhausted. *)
Definition download (url : pystr) : Gen item state unit :=
  (* 1. the target path *)
  domain ← lift_result (_get_domain_from_url url);
  self ← self_;
  let dir := os_path_join (base_dir self) domain in
  set_self (fun self => set_current_website_dir self (Some dir));;
  (* 2. stale data *)
  present ← os (FS.os_path_exists dir);
  (if present : bool then
     yield (py "[Engine] Cleaning old directory: " ++ domain ++ py "..." ++ [LF], None);;
     os (call (FileManager.clear_temp_folder (fm self) dir))
   else mret tt);;
  (* 3. the command *)
  let cmd := [py "wget"; py "-m"; py "-k"; py "-E"; py "-p"; py "-np";
              py "--no-if-modified-since"; py "-P"; base_dir self; url] in
  yield (py "[Engine] Starting download for: " ++ domain ++ [LF], None);;
  yield (py "[Engine] Command: " ++ Str.join (py " ") cmd ++ [LF], None);;
  try_finally
    (try_catch any_exception
       ((* 4. the process *)
        pid ← os (Subprocess.Popen cmd);
        set_self (fun self => set_process self (Some pid));;
        (* 5. its output *)
        w ← gets snd;
        stream (S (pending w pid));;
        (* 6. the verdict *)
        conclude)
       (fun e =>
          yield (LF :: py "[Engine] Critical Exception: " ++ exn_str e ++ [LF], None);;
          cleanup_partial_files))
    (set_self (fun self => set_process self None)).

End Download.

End WgetEngine.

(** ** os.path on strings *)

Definition SLASH : codepoint := 47.

Fixpoint lstrip_slashes (s : pystr) : pystr :=
  match s with
  | c :: s' => if c =? SLASH then lstrip_slashes s' else s
  | [] => []
  end.

Fixpoint until_slash (s : pystr) : pystr :=
  match s with
  | c :: s' => if c =? SLASH then [] else c :: until_slash s'
  | [] => []
  end.

Fixpoint from_slash (s : pystr) : pystr :=
  match s with
  | c :: s' => if c =? SLASH then s else from_slash s'
  | [] => []
  end.

(** [os.path.basename(p)]: what follows the last slash. *)
Definition os_path_basename (p : pystr) : pystr := rev (until_slash (rev p)).

(** [os.path.dirname(p)]: what precedes the last slash, without trailing
    slashes unless it consists of slashes only. *)
Definition os_path_dirname (p : pystr) : pystr :=
  let head := rev (from_slash (rev p)) in
  match lstrip_slashes head with
  | [] => head
  | _ :: _ => rev (lstrip_slashes (rev head))
  end.

(** The loop of [os.path.normpath] over the components; [acc] holds the
    components kept so far, last first. *)
Fixpoint normpath_loop (rooted : bool) (acc comps : list pystr) : list pystr :=
  match comps with
  | [] => rev acc
  | comp :: comps' =>
      if Path.is_trivial comp then normpath_loop rooted acc comps'
      else if negb (bool_decide (comp = py ".."))
              || (negb rooted && bool_decide (acc = []))
              || bool_decide (List.hd [] acc = py ".." ∧ acc ≠ [])
      then normpath_loop rooted (comp :: acc) comps'
      else normpath_loop rooted (List.tl acc) comps'
  end.

(** [os.path.normpath(p)] *)
Definition os_path_normpath (p : pystr) : pystr :=
  let slashes := Path.root_of p in
  let body := Str.join (py "/")
                (normpath_loop (negb (bool_decide (slashes = []))) [] (Path.components p)) in
  match slashes ++ body with
  | [] => py "."
  | s => s
  end.

(** ** core/zipper.py *)

Module ZipEngine.

Record t := Build {
  fm : FileManager.t;
  paths : gmap string pystr;
  output_dir : pystr
}.

(** [ZipEngine(file_manager)] *)
Definition __init__ (file_manager : FileManager.t) : result t :=
  let paths := FileManager.get_paths file_manager in
  output_dir ← dict_getitem paths "zip";
  Ok {| fm := file_manager; paths := paths; output_dir := output_dir |}.

Section Methods.
Context {L : Library}.

(** [zipper.compress(source_dir)] *)
Definition compress (self : t) (source_dir : pystr) : IO World pystr :=
  present ← FS.os_path_exists source_dir;
  if negb present then
    raise (Exn FileNotFoundError (py "Source directory not found: " ++ source_dir))
  else
    let base_name := os_path_basename (os_path_normpath source_dir) in
    let output_base_path := os_path_join (output_dir self) base_name in
    taken ← FS.os_path_exists (output_base_path ++ py ".zip");
    output_base_path ←
      (if taken : bool then
         timestamp ← FS.time;
         mret (output_base_path ++ py "_" ++ str_of_int timestamp)
       else mret output_base_path);
    try_catch any_exception
      (let parent_dir := os_path_dirname source_dir in
       let target_folder_name := os_path_basename source_dir in
       make_archive output_base_path parent_dir target_folder_name)
      (fun e => raise (Exn Exception (py "Compression failed: " ++ exn_str e))).

End Methods.

End ZipEngine.

(** ** app.py *)

Module App.

(** One progress update: (log text, files, errors, archive, status). *)
Definition update : Type := pystr * Z * Z * option pystr * pystr.

(** The local variables of [process_download] that outlive a statement. *)
Record frame := Frame {
  engine : WgetEngine.t;
  parser : LogParser.t;
  full_log : pystr;
  stats : option (gmap string Z);
  downloaded_folder : option pystr
}.

Definition state : Type := frame * World.

Definition set_engine (f : frame) e : frame :=
  Frame e (parser f) (full_log f) (stats f) (downloaded_folder f).
Definition set_parser (f : frame) p : frame :=
  Frame (engine f) p (full_log f) (stats f) (downloaded_folder f).
Definition set_full_log (f : frame) l : frame :=
  Frame (engine f) (parser f) l (stats f) (downloaded_folder f).
Definition set_stats (f : frame) st : frame :=
  Frame (engine f) (parser f) (full_log f) st (downloaded_folder f).
Definition set_downloaded_folder (f : frame) d : frame :=
  Frame (engine f) (parser f) (full_log f) (stats f) d.

Section ProcessDownload.
Context {U : UnicodeData} {L : Library}.

Definition local {A} (f : frame -> A) : Gen update state A := gets (fun s => f s.1).
Definition assign (f : frame -> frame) : Gen update state unit :=
  modify (fun s => (f s.1, s.2)).

(** A call on the world. *)
Definition os {A} (m : IO World A) : Gen update state A :=
  zoom snd (fun s w => (s.1, w)) (call m).

(** A method call on the engine. *)
Definition on_engine {Y A} (m : Gen Y WgetEngine.state A) : Gen Y state A :=
  zoom (fun s => (engine s.1, s.2)) (fun s ew => (set_engine s.1 ew.1, ew.2)) m.

(** [stats[key]]; [stats] is unbound until the loop has run once. *)
Definition stats_item (key : string) : Gen update state Z :=
  st ← local stats;
  match st with
  | Some d => lift_result (dict_getitem d key)
  | None =>
      raise (Exn UnboundLocalError
               (py "cannot access local variable 'stats' where it is not associated with a value"))
  end.

(** The body of the [for] loop over the items of [engine.download]. *)
Definition on_item (it : WgetEngine.item) : Gen update state unit :=
  let '(raw_line, folder_path) := it in
  p ← local parser;
  '((clean_line, st), p') ← lift_result (LogParser.process_line p raw_line);
  assign (fun f => set_stats (set_parser f p') (Some st));;
  match clean_line with
  | _ :: _ => assign (fun f => set_full_log f (full_log f ++ clean_line))
  | [] => mret tt
  end;;
  match folder_path with
  | Some (_ :: _) => assign (fun f => set_downloaded_folder f folder_path)
  | _ => mret tt
  end;;
  log ← local full_log;
  files ← stats_item "files";
  errors ← stats_item "errors";
  yield (log, files, errors, None, py "⬇️ Downloading...").

(** [for item in gen: body item].  The generator is run to its end and
    the body then runs on each item in turn: the body of the one loop of
    this program uses only local variables that the generator does not
    touch.  An exception of the generator is raised after the items
    yielded before it have been handled. *)
Definition for_in {I} (gen : Gen I state unit) (body : I -> Gen update state unit)
  : Gen update state unit :=
  fun s =>
    match gen s with
    | (items, r, s1) =>
        match foldr (fun it k => body it;; k) (mret tt) items s1 with
        | (ys, Ok _, s2) => (ys, r, s2)
        | (ys, bad, s2) => (ys, bad, s2)
        end
    end.

(** Phase 2 of [process_download]. *)
Definition after_download (zipper : ZipEngine.t) : Gen update state unit :=
  folder ← local downloaded_folder;
  match folder with
  | Some ((_ :: _) as downloaded) =>
      assign (fun f => set_full_log f
                (full_log f ++ LF :: py "📦 Compressing files... This may take a moment." ++ [LF]));;
      log ← local full_log; files ← stats_item "files"; errors ← stats_item "errors";
      yield (log, files, errors, None, py "📦 Compressing...");;
      try_catch any_exception
        (zip_path ← os (ZipEngine.compress zipper downloaded);
         assign (fun f => set_full_log f
                   (full_log f ++ LF :: py "✅ Compression Complete! File ready: "
                      ++ zip_path ++ [LF]));;
         os (FileManager.clear_temp_folder FileManager.default downloaded);;
         log ← local full_log; files ← stats_item "files"; errors ← stats_item "errors";
         yield (log, files, errors, Some zip_path, py "✅ Done!"))
        (fun z_err =>
           assign (fun f => set_full_log f
                     (full_log f ++ LF :: py "❌ Compression Error: " ++ exn_str z_err ++ [LF]));;
           log ← local full_log; files ← stats_item "files"; errors ← stats_item "errors";
           yield (log, files, errors, None, py "❌ Error"))
  | _ =>
      assign (fun f => set_full_log f
                (full_log f ++ LF :: py "❌ Download failed or directory empty." ++ [LF]));;
      log ← local full_log; files ← stats_item "files"; errors ← stats_item "errors";
      yield (log, files, errors, None, py "❌ Failed")
  end.

(** The part of [process_download] that runs once the URL is accepted
    and the objects are built. *)
Definition run_job (url : pystr) (zipper : ZipEngine.t) : Gen update state unit :=
  yield (py "🚀 Initializing download engine..." ++ [LF], 0%Z, 0%Z, None, py "Starting...");;
  try_finally
    (try_catch any_exception
       (assign (fun f => set_downloaded_folder f None);;
        for_in (on_engine (WgetEngine.download url)) on_item;;
        after_download zipper)
       (fun e =>
          assign (fun f => set_full_log f
                    (full_log f ++ LF :: py "❌ Critical Application Error: "
                       ++ exn_str e ++ [LF]));;
          log ← local full_log;
          yield (log, 0%Z, 0%Z, None, py "❌ Error")))
    (on_engine WgetEngine.stop).

(** [process_download(url)], run until the generator is exhausted: the
    updates it yields, how it ends, and the world afterwards. *)
Definition process_download (url : pystr) : Gen update World unit :=
  if negb (Str.startswith url (py "http")) then
    yield (py "❌ Error: Please enter a valid URL (http/https).",
           0%Z, 0%Z, None, py "Invalid URL")
  else
    let fm := FileManager.default in
    engine ← lift_result (WgetEngine.__init__ fm);
    zipper ← lift_result (ZipEngine.__init__ fm);
    let parser := LogParser.__init__ in
    zoom (fun w => (Frame engine parser [] None None, w)) (fun _ s => s.2)
         (run_job url zipper).

End ProcessDownload.

(** What the module does when it is loaded: [global_fm = FileManager()],
    [global_fm.initialize()], [global_fm.cleanup_old_files(max_age_minutes=60)]. *)
Definition startup : IO World unit :=
  let global_fm := FileManager.default in
  FileManager.initialize global_fm;;
  FileManager.cleanup_old_files global_fm 60%Z.

End App.

(** ** Notions used to state the properties *)

(** [i] is the position of the first [c] in [l]. *)
Definition first_index (l : pystr) (c : codepoint) (i : nat) : Prop :=
  l !! i = Some c ∧ ∀ k, (k < i)%nat → l !! k ≠ Some c.

(** The calls a client makes on one [LogParser]. *)
Inductive parser_call :=
| ProcessLine (line : pystr)
| Reset.

Section ParserRuns.
Context {U : UnicodeData}.

Definition parser_step (self : LogParser.t) (c : parser_call) : result LogParser.t :=
  match c with
  | ProcessLine line => '(_, self') ← LogParser.process_line self line; Ok self'
  | Reset => Ok (LogParser.reset self)
  end.

Fixpoint parser_run (self : LogParser.t) (calls : list parser_call) : result LogParser.t :=
  match calls with
  | [] => Ok self
  | c :: calls' => self' ← parser_step self c; parser_run self' calls'
  end.

(** The parser objects a program can hold: built by [LogParser()] and
    used through the methods only. *)
Definition parser_reachable (self : LogParser.t) : Prop :=
  ∃ calls, parser_run LogParser.__init__ calls = Ok self.

End ParserRuns.

(** The delimiters of [_extract_filename] and their code points. *)
Definition LQUOTE : codepoint := 8216.
Definition RQUOTE : codepoint := 8217.

(** [m] comes back from every state, with a value or with an exception. *)
Definition comes_back {Y S A} (m : Gen Y S A) : Prop :=
  ∀ s, (m s).1.2 ≠ Diverge.

(** What the loop of [download] yields for a child that writes the lines
    [out] and leaves [rest] in the pipe: every piece that is not empty. *)
Definition stream_items (out : list pystr) (rest : pystr) : list WgetEngine.item :=
  List.map (fun line => (line, None))
           (List.filter (fun line => negb (bool_decide (line = []))) (out ++ [rest])).

(** The world once the output of the child [pid] is exhausted: the child
    has exited with its code and has written its files, the pipe is empty. *)
Definition after_stream (w : World) (pid : nat) (c : child (gmap (list pystr) inode))
  : World :=
  set_fs
    (set_children w
       (<[pid := Child (Exited (c_code c)) [] [] (c_code c) (c_writes c) (c_on_term c)]>
          (w_children w)))
    (c_writes c (w_fs w)).

(** The command that [download] runs. *)
Definition wget_command (base_dir url : pystr) : list pystr :=
  [py "wget"; py "-m"; py "-k"; py "-E"; py "-p"; py "-np";
   py "--no-if-modified-since"; py "-P"; base_dir; url].

(** The names an entry of a directory can have. *)
Definition valid_name (name : pystr) : Prop :=
  name ≠ [] ∧ name ≠ py "." ∧ name ≠ py ".." ∧ SLASH ∉ name.

(** The sweep removes the entry [i] found at [k]: it is a regular file of
    the directory [d] whose name ends in [.zip], it was modified more than
    [max_age_minutes] ago, and the system lets it go. *)
Definition swept (w : World) (d : list pystr) (max_age_minutes : Z)
    (k : list pystr) (i : inode) : bool :=
  FS.matches_star d (py ".zip") k
  && bool_decide (i_kind i = File)
  && (max_age_minutes * 60 <? w_clock w - st_mtime i)%Z
  && bool_decide (k ∉ w_immutable w).



(** ** A concrete library and a concrete world, for the examples

    [basic_urlparse] splits a URL into scheme, [//netloc] and path as
    [urlparse] does for a URL without query, fragment or parameters;
    [basic_make_archive] creates the archive as one file stamped with the
    current time. *)

Definition is_scheme_char (c : codepoint) : bool :=
  Re.is_ascii_lower c || Re.is_ascii_upper c || ((48 <=? c) && (c <=? 57))
  || (c =? 43) || (c =? 45) || (c =? 46).

Definition basic_urlparse (url : pystr) : result (pystr * pystr) :=
  let i := Str.find url (py ":") in
  let scheme := Str.slice url 0%Z i in
  let rest :=
    if (0 <? i)%Z
       && match url with
          | c :: _ => Re.is_ascii_lower c || Re.is_ascii_upper c
          | [] => false
          end
       && forallb is_scheme_char scheme
    then Str.slice url (i + 1)%Z (Z.of_nat (length url))
    else url in
  if Str.startswith rest (py "//") then
    let after := drop 2 rest in
    Ok (until_slash after, from_slash after)
  else Ok ([], rest).

Definition basic_make_archive (base_name root_dir base_dir : pystr) : IO World pystr :=
  let zip_path := base_name ++ py ".zip" in
  w ← get;
  '(d, k) ← lift_result (FS.locate w (Path.of_str zip_path));
  put (set_fs w (<[k := Inode File (w_clock w)]> (w_fs w)));;
  mret zip_path.

Definition basic_library : Library := {|
  urlparse := basic_urlparse;
  make_archive := basic_make_archive
|}.

(** A file system from a list of absolute paths. *)
Definition fs_of (l : list (string * kind * Z)) : gmap (list pystr) inode :=
  list_to_map (List.map (fun '(p, k, t) => (Path.parts (Path.of_str (py p)), Inode k t)) l).

(** The storage of the application, run from [/app] at time 10000: an
    archive made 30 minutes ago, one made 90 minutes ago, the mirror of an
    earlier job, and a link that leaves the storage. *)
Definition example_fs : gmap (list pystr) inode :=
  fs_of [("/app", Dir, 0%Z); ("/app/storage", Dir, 0%Z);
         ("/app/storage/temp_sites", Dir, 0%Z);
         ("/app/storage/output_zips", Dir, 0%Z);
         ("/app/storage/output_zips/new.zip", File, 8200%Z);
         ("/app/storage/output_zips/old.zip", File, 4600%Z);
         ("/app/storage/temp_sites/httpbin.org", Dir, 0%Z);
         ("/app/storage/temp_sites/httpbin.org/index.html", File, 0%Z);
         ("/app/storage/temp_sites/evil", Symlink (py "/etc"), 0%Z);
         ("/etc", Dir, 0%Z); ("/etc/passwd", File, 0%Z)]%string.

(** A wget that reports one missing page, leaves a partial mirror of
    [example.com] and exits with code 8. *)
Definition failing_wget : child (gmap (list pystr) inode) :=
  Child Running [py "2024-01-01 ERROR 404: Not Found." ++ [LF]] [] 8
    (fun fs => <[ [py "app"; py "storage"; py "temp_sites"; py "example.com"]
                  := Inode Dir 10000 ]> fs)
    (Some (-15)%Z).

(** A wget that saves one page of [example.com] and exits with code 0. *)
Definition working_wget : child (gmap (list pystr) inode) :=
  Child Running [py "Saving to: ‘./site/index.html’" ++ [LF];
                 py "‘./site/index.html’ saved [512/512]" ++ [LF]] [] 0
    (fun fs => <[ [py "app"; py "storage"; py "temp_sites"; py "example.com"]
                  := Inode Dir 10000 ]> fs)
    (Some (-15)%Z).

(** A wget that takes [httpbin.org] for [http://httpbin.org], saves its
    front page and exits with code 0. *)
Definition httpbin_wget : child (gmap (list pystr) inode) :=
  Child Running [py "Saving to: ‘storage/temp_sites/httpbin.org/index.html’" ++ [LF];
                 py "‘storage/temp_sites/httpbin.org/index.html’ saved [9593/9593]" ++ [LF]]
    [] 0
    (fun fs =>
       <[ [py "app"; py "storage"; py "temp_sites"; py "httpbin.org"; py "index.html"]
          := Inode File 10000 ]>
         (<[ [py "app"; py "storage"; py "temp_sites"; py "httpbin.org"]
             := Inode Dir 10000 ]> fs))
    (Some (-15)%Z).

Definition example_world (wget : option (child (gmap (list pystr) inode))) : World := {|
  w_fs := example_fs;
  w_immutable := ∅;
  w_cwd := [py "app"];
  w_clock := 10000;
  w_log := [];
  w_stdout := [];
  w_launch := fun _ => wget;
  w_children := [];
  w_signals := []
|}.

(** The engine that [WgetEngine(FileManager())] builds. *)
Definition example_engine : WgetEngine.t := {|
  WgetEngine.fm := FileManager.default;
  WgetEngine.paths := FileManager.get_paths FileManager.default;
  WgetEngine.base_dir := py "storage/temp_sites";
  WgetEngine.process := None;
  WgetEngine.current_website_dir := None
|}.

(** The job of the application for the input [httpbin.org], where wget
    is [httpbin_wget]. *)
Definition httpbin_job : list App.update * result unit * World :=
  App.process_download (U := ascii_unicode) (L := basic_library)
    (py "httpbin.org") (example_world (Some httpbin_wget)).

(** The parts of an update. *)
Definition update_files (u : App.update) : Z := u.1.1.1.2.
Definition update_errors (u : App.update) : Z := u.1.1.2.
Definition update_status (u : App.update) : pystr := u.2.

(** ** Notions used to state further properties *)

(** [w'] is [w] apart from its file system and its log. *)
Definition same_but_fs_log (w w' : World) : Prop :=
  w_immutable w' = w_immutable w ∧ w_cwd w' = w_cwd w ∧ w_clock w' = w_clock w ∧
  w_stdout w' = w_stdout w ∧ w_launch w' = w_launch w ∧
  w_children w' = w_children w ∧ w_signals w' = w_signals w.

(** What [rmtree] leaves of the file system when it is given the directory
    [k]: the entries outside it and those it cannot remove. *)
Definition rmtree_fs (w : World) (k : list pystr) : gmap (list pystr) inode :=
  filter (fun kv => ¬ (k `prefix_of` kv.1) ∨ FS.blocked w kv.1 = true) (w_fs w).

(** [w'] is [w] apart from its log and its standard output and from
    entries that are gone: entries that are no directories and whose name
    ends in [.zip]. *)
Definition only_zip_removed (w w' : World) : Prop :=
  w_immutable w' = w_immutable w ∧ w_cwd w' = w_cwd w ∧ w_clock w' = w_clock w ∧
  w_launch w' = w_launch w ∧ w_children w' = w_children w ∧
  w_signals w' = w_signals w ∧
  ∀ k, w_fs w' !! k ≠ w_fs w !! k →
    w_fs w' !! k = None ∧
    ∃ i, w_fs w !! k = Some i ∧ i_kind i ≠ Dir ∧
         Str.endswith (List.last k []) (py ".zip") = true.






(** [w'] is [w] apart from its log and from new entries, which are
    directories made at the time of [w]. *)
Definition only_dirs_added (w w' : World) : Prop :=
  w_immutable w' = w_immutable w ∧ w_cwd w' = w_cwd w ∧ w_clock w' = w_clock w ∧
  w_stdout w' = w_stdout w ∧ w_launch w' = w_launch w ∧
  w_children w' = w_children w ∧ w_signals w' = w_signals w ∧
  (∀ k i, w_fs w !! k = Some i → w_fs w' !! k = Some i) ∧
  (∀ k i, w_fs w' !! k = Some i →
          w_fs w !! k = Some i ∨ (w_fs w !! k = None ∧ i = Inode Dir (w_clock w))).

(** [p] leads to a directory. *)
Definition is_directory (w : World) (p : Path.t) : Prop :=
  ∃ m, FS.stat_at w p = Ok (Inode Dir m).


(** The archiver that [ZipEngine(FileManager())] builds. *)
Definition example_zipper : ZipEngine.t := {|
  ZipEngine.fm := FileManager.default;
  ZipEngine.paths := FileManager.get_paths FileManager.default;
  ZipEngine.output_dir := py "storage/output_zips"
|}.

(** The example world while a wget that heeds SIGTERM runs as child 0,
    and the engine that holds it. *)
Definition running_world : World :=
  set_children (example_world None) [failing_wget].

Definition running_engine : WgetEngine.t :=
  WgetEngine.set_process example_engine (Some 0%nat).

(** A machine on which nothing but the working directory exists yet. *)
Definition bare_world : World := {|
  w_fs := fs_of [("/app", Dir, 0%Z)]%string;
  w_immutable := ∅;
  w_cwd := [py "app"];
  w_clock := 10000;
  w_log := [];
  w_stdout := [];
  w_launch := fun _ => None;
  w_children := [];
  w_signals := []
|}.


(** ** Proof steps for effectful code *)

(** Unfolds the plumbing of the generator monad, and nothing else. *)
Ltac gen_simpl :=
  unfold mbind, mret, gen_bind, gen_ret, try_catch, try_finally, gbind, gret,
    get, put, gets, modify, raise, yield, lift_result, call, zoom, any_exception;
  cbv beta iota; cbn [fst snd app].

Ltac gen_simpl_in H :=
  unfold mbind, mret, gen_bind, gen_ret, try_catch, try_finally, gbind, gret,
    get, put, gets, modify, raise, yield, lift_result, call, zoom, any_exception in H;
  cbv beta iota in H; cbn [fst snd app] in H.

(** Record projections of the world and of the engine. *)
Ltac rec_simpl :=
  cbn [w_fs w_immutable w_cwd w_clock w_log w_stdout w_launch w_children w_signals
       set_fs set_log set_stdout set_children set_signals
       c_status c_out c_rest c_code c_writes c_on_term
       WgetEngine.fm WgetEngine.paths WgetEngine.base_dir WgetEngine.process
       WgetEngine.current_website_dir WgetEngine.set_process
       WgetEngine.set_current_website_dir fst snd app].

(** The methods of the engine and of [subprocess], opened. *)
Ltac engine_unfold :=
  unfold WgetEngine.stop, WgetEngine.the_process, WgetEngine.the_dir, WgetEngine.self_,
    WgetEngine.set_self, WgetEngine.os,
    Subprocess.poll, Subprocess.terminate, Subprocess.kill, Subprocess.wait,
    Subprocess.send_signal, Subprocess.read, Subprocess.readline,
    Subprocess.child_at, Subprocess.set_child, Subprocess.exited.

(** Evaluation as far as the known facts allow. *)
Ltac gen_eval := repeat progress (gen_simpl; rec_simpl).

(** * Properties *)

(** ** Strings *)

Section StringFacts.

Lemma py_lquote : py "‘" = [LQUOTE].
Proof. reflexivity. Qed.

Lemma py_rquote : py "’" = [RQUOTE].
Proof. reflexivity. Qed.

Lemma py_slash : py "/" = [SLASH].
Proof. reflexivity. Qed.

Lemma startswith_single (s : pystr) (c : codepoint) :
  Str.startswith s [c] = match s with b :: _ => c =? b | [] => false end.
Proof. destruct s as [|b s]; simpl; [done|]. by rewrite andb_true_r. Qed.

Lemma find_from_absent (s : pystr) (c : codepoint) (i0 : Z) :
  c ∉ s → Str.find_from i0 s [c] = (-1)%Z.
Proof.
  revert i0. induction s as [|b s IH]; intros i0 Hc; simpl; [done|].
  rewrite andb_true_r. destruct (N.eqb_spec c b) as [->|Hne].
  - exfalso. apply Hc. left.
  - apply IH. intros Hin. apply Hc. by right.
Qed.

Lemma find_from_first (s : pystr) (c : codepoint) (i0 : Z) (i : nat) :
  first_index s c i → Str.find_from i0 s [c] = (i0 + Z.of_nat i)%Z.
Proof.
  revert i0 i. induction s as [|b s IH]; intros i0 i [Hi Hlt]; [done|].
  simpl. rewrite andb_true_r. destruct (N.eqb_spec c b) as [->|Hne].
  - destruct i as [|i]; [lia|]. exfalso. apply (Hlt 0%nat); [lia|done].
  - destruct i as [|i]; [simpl in Hi; congruence|].
    rewrite (IH (i0 + 1)%Z i); [lia|]. split; [done|].
    intros k Hk. apply (Hlt (S k)). lia.
Qed.

Lemma first_index_exists (s : pystr) (c : codepoint) :
  c ∈ s → ∃ i, first_index s c i.
Proof.
  induction s as [|b s IH]; intros Hin; [by apply elem_of_nil in Hin|].
  destruct (decide (c = b)) as [->|Hne].
  - exists 0%nat. split; [done|]. lia.
  - apply elem_of_cons in Hin as [?|Hin]; [done|].
    destruct (IH Hin) as [i [Hi Hlt]]. exists (S i). split; [done|].
    intros [|k] Hk; simpl; [congruence|]. apply Hlt. lia.
Qed.

Lemma first_index_elem (s : pystr) (c : codepoint) (i : nat) :
  first_index s c i → c ∈ s ∧ (i < length s)%nat.
Proof.
  intros [Hi _]. split; [by eapply list_elem_of_lookup_2|by eapply lookup_lt_Some].
Qed.

(** [s[i+1:j]] for two positions of [s]. *)
Lemma slice_between (s : pystr) (i j : nat) :
  (i < length s)%nat → (j < length s)%nat →
  Str.slice s (Z.of_nat i + 1) (Z.of_nat j) = take (j - (i + 1)) (drop (i + 1) s).
Proof.
  intros Hi Hj. unfold Str.slice, Str.clamp.
  destruct (Z.ltb_spec (Z.of_nat i + 1) 0); [lia|].
  destruct (Z.ltb_spec (Z.of_nat j) 0); [lia|].
  f_equal; [|f_equal]; lia.
Qed.

(** The last piece of a split at one character: what follows the last
    occurrence of the separator. *)
Lemma split_loop_last (c : codepoint) (s cur : pystr) :
  ∃ name, last (Str.split_loop [c] 0 cur s) = Some name ∧
    (((c ∉ s) ∧ name = rev cur ++ s) ∨ ((c ∉ name) ∧ ∃ pre, s = pre ++ c :: name)).
Proof.
  revert cur. induction s as [|b s IH]; intros cur.
  - exists (rev cur). split; [done|]. left.
    split; [apply not_elem_of_nil|by rewrite app_nil_r].
  - cbn [Str.split_loop]. rewrite startswith_single.
    destruct (N.eqb_spec c b) as [->|Hne].
    + destruct (IH []) as (name & Hlast & Hname). exists name. split.
      * simpl. rewrite last_cons, Hlast. done.
      * right. destruct Hname as [[Hno ->]|[Hno [pre ->]]].
        -- split; [done|]. by exists [].
        -- split; [done|]. by exists (b :: pre).
    + destruct (IH (b :: cur)) as (name & Hlast & Hname). exists name. split; [done|].
      destruct Hname as [[Hno ->]|[Hno [pre ->]]].
      * left. split.
        -- intros [?|?]%elem_of_cons; done.
        -- simpl. by rewrite <- app_assoc.
      * right. split; [done|]. by exists (b :: pre).
Qed.

Lemma getitem_last {A} (l : list A) (x : A) :
  last l = Some x → Seq.getitem l (-1)%Z = Ok x.
Proof.
  intros Hl. unfold Seq.getitem. simpl.
  assert (length l ≠ 0%nat) by (destruct l; [done|simpl; lia]).
  destruct (Z.ltb_spec (-1 + Z.of_nat (length l)) 0); [lia|].
  rewrite last_lookup in Hl.
  replace (Z.to_nat (-1 + Z.of_nat (length l))) with (pred (length l)) by lia.
  by rewrite Hl.
Qed.

End StringFacts.

(** ** utils/parser.py *)

Section ParserFacts.
Context {U : UnicodeData}.

Local Abbreviation dc := LogParser.downloaded_count.
Local Abbreviation ec := LogParser.error_count.

(** The [try] block of [_extract_filename] never raises: the split of a
    string is never empty, so its last piece exists. *)
Lemma extract_filename_body_spec (line : pystr) :
  ∃ name, LogParser.extract_filename_body line = Ok name ∧
    (((LQUOTE ∉ line) ∨ (RQUOTE ∉ line)) → name = py "file") ∧
    (∀ i j, first_index line LQUOTE i → first_index line RQUOTE j →
       let between := take (j - (i + 1)) (drop (i + 1) line) in
       (SLASH ∉ name) ∧ (between = name ∨ ∃ pre, between = pre ++ SLASH :: name)).
Proof.
  unfold LogParser.extract_filename_body. rewrite py_lquote, py_rquote.
  unfold Str.find.
  destruct (decide (LQUOTE ∈ line)) as [Hl|Hl]; cycle 1.
  { rewrite (find_from_absent _ _ _ Hl). simpl. eexists. split; [done|].
    split; [done|]. intros i j [Hi _]%first_index_elem. done. }
  destruct (decide (RQUOTE ∈ line)) as [Hr|Hr]; cycle 1.
  { rewrite (find_from_absent _ RQUOTE _ Hr). rewrite andb_false_r.
    eexists. split; [done|]. split; [done|].
    intros i j _ [Hj _]%first_index_elem. done. }
  destruct (first_index_exists _ _ Hl) as [i Hi].
  destruct (first_index_exists _ _ Hr) as [j Hj].
  rewrite (find_from_first _ _ 0 _ Hi), (find_from_first _ _ 0 _ Hj).
  destruct (Z.eqb_spec (0 + Z.of_nat i) (-1)); [lia|].
  destruct (Z.eqb_spec (0 + Z.of_nat j) (-1)); [lia|]. cbn [negb andb].
  rewrite !Z.add_0_l, slice_between
    by (by eapply first_index_elem).
  rewrite py_slash. cbn [Seq.split mbind result_bind].
  destruct (split_loop_last SLASH (take (j - (i + 1)) (drop (i + 1) line)) [])
    as (name & Hlast & Hname).
  exists name. split; [by apply getitem_last|]. split.
  { intros [?|?]; done. }
  intros i' j' Hi' Hj'.
  assert (i' = i) as ->.
  { pose proof (find_from_first _ _ 0 _ Hi'). pose proof (find_from_first _ _ 0 _ Hi). lia. }
  assert (j' = j) as ->.
  { pose proof (find_from_first _ _ 0 _ Hj'). pose proof (find_from_first _ _ 0 _ Hj). lia. }
  simpl. destruct Hname as [[Hno ->]|[Hno [pre Hpre]]].
  - split; [done|]. by left.
  - split; [done|]. right. by exists pre.
Qed.

(** [_extract_filename] returns: what its [try] block raises, if anything,
    is caught. *)
Lemma extract_filename_returns (self : LogParser.t) (line : pystr) :
  ∃ name, LogParser._extract_filename self line = Ok name.
Proof.
  destruct (extract_filename_body_spec line) as (name & Hbody & _).
  exists name. unfold LogParser._extract_filename. by rewrite Hbody.
Qed.


(** The display text of a line that matches neither counting pattern. *)
Lemma classify_other (self : LogParser.t) (s : pystr) :
  Re.search (LogParser.saved_pattern self) s = false →
  Re.search (LogParser.error_pattern self) s = false →
  ∃ text, LogParser.classify self s = Ok (text, self) ∧
    text =
      if Str.startswith s (py "Resolving ") then py "🔄 " ++ s
      else if Str.startswith s (py "Connecting to ") then py "🔗 " ++ s
      else if Str.contains s (py "200 OK") then py "⬇️  Response: 200 OK"
      else if Str.startswith s (py "Saving to:") then
        match LogParser._extract_filename self s with
        | Ok filename => py "💾 Saving: " ++ filename ++ py "..."
        | _ => []
        end
      else py "   " ++ s.
Proof.
  intros Hsaved Herror. unfold LogParser.classify. rewrite Hsaved, Herror.
  destruct (Str.startswith s (py "Resolving ")); [by eexists|].
  destruct (Str.startswith s (py "Connecting to ")); [by eexists|].
  destruct (Str.contains s (py "200 OK")); [by eexists|].
  destruct (Str.startswith s (py "Saving to:")); [|by eexists].
  destruct (extract_filename_returns self s) as (name & ->). by eexists.
Qed.

(** What [process_line] makes of a line that is not blank, rule by rule in
    the order of the code. *)
Lemma process_line_cases (self : LogParser.t) (line : pystr) :
  Str.strip line ≠ [] →
  ∃ text self',
    LogParser.process_line self line
      = Ok ((text ++ [LF], LogParser._get_stats self'), self') ∧
    (dc self' = dc self ∨ ec self' = ec self) ∧
    if Re.search (LogParser.saved_pattern self) (Str.strip line) then
      (∃ name, LogParser._extract_filename self (Str.strip line) = Ok name ∧
               text = py "✅ FILE SAVED: " ++ name) ∧
      dc self' = (dc self + 1)%Z ∧ ec self' = ec self
    else if Re.search (LogParser.error_pattern self) (Str.strip line) then
      text = py "❌ ERROR: " ++ Str.strip line ∧
      dc self' = dc self ∧ ec self' = (ec self + 1)%Z
    else
      LogParser.classify self (Str.strip line) = Ok (text, self) ∧
      self' = self ∧
      text =
        if Str.startswith (Str.strip line) (py "Resolving ") then
          py "🔄 " ++ Str.strip line
        else if Str.startswith (Str.strip line) (py "Connecting to ") then
          py "🔗 " ++ Str.strip line
        else if Str.contains (Str.strip line) (py "200 OK") then
          py "⬇️  Response: 200 OK"
        else if Str.startswith (Str.strip line) (py "Saving to:") then
          match LogParser._extract_filename self (Str.strip line) with
          | Ok filename => py "💾 Saving: " ++ filename ++ py "..."
          | _ => []
          end
        else py "   " ++ Str.strip line.
Proof.
  intros Hline. unfold LogParser.process_line.
  rewrite bool_decide_eq_false_2 by done.
  destruct (Re.search (LogParser.saved_pattern self) (Str.strip line)) eqn:Hsaved.
  { unfold LogParser.classify. rewrite Hsaved.
    destruct (extract_filename_returns
                (LogParser.set_downloaded_count self (dc self + 1)%Z) (Str.strip line))
      as (name & Hname).
    rewrite Hname. eexists _, _. split; [reflexivity|].
    split; [by right|]. split; [|done]. exists name. split; [|done].
    exact Hname. }
  destruct (Re.search (LogParser.error_pattern self) (Str.strip line)) eqn:Herror.
  { unfold LogParser.classify. rewrite Hsaved, Herror.
    eexists _, _. split; [reflexivity|]. split; [by left|done]. }
  destruct (classify_other self _ Hsaved Herror) as (text & Hcl & Htext).
  rewrite Hcl. exists text, self. split; [reflexivity|]. split; [by left|done].
Qed.

(** C4. On a line that is not blank the rules apply in a fixed order and the
    first that matches decides: the file-saved pattern (even when an error
    marker matches too) adds one to [downloaded_count] only; otherwise an
    error marker adds one to [error_count] only; otherwise an informational
    prefix or the raw rule formats the line and no counter moves.  At most
    one counter changes. *)
Theorem process_line_first_match_wins (self : LogParser.t) (line : pystr) :
  Str.strip line ≠ [] →
  ∃ text self',
    LogParser.process_line self line
      = Ok ((text ++ [LF], LogParser._get_stats self'), self') ∧
    (dc self' = dc self ∨ ec self' = ec self) ∧
    (Re.search (LogParser.saved_pattern self) (Str.strip line) = true →
       (∃ name, LogParser._extract_filename self (Str.strip line) = Ok name ∧
                text = py "✅ FILE SAVED: " ++ name) ∧
       dc self' = (dc self + 1)%Z ∧ ec self' = ec self) ∧
    (Re.search (LogParser.saved_pattern self) (Str.strip line) = false →
     Re.search (LogParser.error_pattern self) (Str.strip line) = true →
       text = py "❌ ERROR: " ++ Str.strip line ∧
       dc self' = dc self ∧ ec self' = (ec self + 1)%Z) ∧
    (Re.search (LogParser.saved_pattern self) (Str.strip line) = false →
     Re.search (LogParser.error_pattern self) (Str.strip line) = false →
       self' = self ∧
       text =
         if Str.startswith (Str.strip line) (py "Resolving ") then
           py "🔄 " ++ Str.strip line
         else if Str.startswith (Str.strip line) (py "Connecting to ") then
           py "🔗 " ++ Str.strip line
         else if Str.contains (Str.strip line) (py "200 OK") then
           py "⬇️  Response: 200 OK"
         else if Str.startswith (Str.strip line) (py "Saving to:") then
           match LogParser._extract_filename self (Str.strip line) with
           | Ok filename => py "💾 Saving: " ++ filename ++ py "..."
           | _ => []
           end
         else py "   " ++ Str.strip line).
Proof.
  intros Hline.
  destruct (process_line_cases self line Hline) as (text & self' & Hrun & Hone & Hcase).
  exists text, self'. split; [exact Hrun|]. split; [exact Hone|].
  destruct (Re.search (LogParser.saved_pattern self) (Str.strip line)).
  { split; [done|]. split; intros; done. }
  destruct (Re.search (LogParser.error_pattern self) (Str.strip line)).
  { split; [done|]. split; [done|]. intros; done. }
  split; [done|]. split; [done|]. intros _ _. by destruct Hcase as (_ & ? & ?).
Qed.

(** [process_line] always returns, and leaves the patterns alone. *)
Lemma process_line_returns (self : LogParser.t) (line : pystr) :
  ∃ text self',
    LogParser.process_line self line = Ok ((text, LogParser._get_stats self'), self') ∧
    LogParser.saved_pattern self' = LogParser.saved_pattern self ∧
    LogParser.ok_pattern self' = LogParser.ok_pattern self ∧
    LogParser.error_pattern self' = LogParser.error_pattern self ∧
    (dc self <= dc self' <= dc self + 1)%Z ∧ (ec self <= ec self' <= ec self + 1)%Z.
Proof.
  destruct (decide (Str.strip line = [])) as [Hblank|Hline].
  { unfold LogParser.process_line. rewrite bool_decide_eq_true_2 by done.
    eexists _, _. split; [reflexivity|]. repeat split; lia. }
  destruct (process_line_cases self line Hline)
    as (text & self' & Hrun & _ & Hcase).
  exists (text ++ [LF]), self'. split; [done|].
  destruct (Re.search (LogParser.saved_pattern self) (Str.strip line)) eqn:Hsaved.
  { destruct Hcase as ((name & Hname & _) & Hdc & Hec).
    unfold LogParser.process_line, LogParser.classify in Hrun.
    rewrite bool_decide_eq_false_2, Hsaved in Hrun by done.
    destruct (extract_filename_returns
                (LogParser.set_downloaded_count self (dc self + 1)%Z) (Str.strip line))
      as (name' & Hname').
    rewrite Hname' in Hrun. cbn [mbind result_bind] in Hrun.
    assert (self' = LogParser.set_downloaded_count self (dc self + 1)%Z) as ->
      by congruence.
    repeat split; simpl; lia. }
  destruct (Re.search (LogParser.error_pattern self) (Str.strip line)) eqn:Herror.
  { destruct Hcase as (_ & Hdc & Hec).
    unfold LogParser.process_line, LogParser.classify in Hrun.
    rewrite bool_decide_eq_false_2, Hsaved, Herror in Hrun by done.
    cbn [mbind result_bind] in Hrun.
    assert (self' = LogParser.set_error_count self (ec self + 1)%Z) as ->
      by congruence.
    repeat split; simpl; lia. }
  destruct Hcase as (_ & -> & _). repeat split; lia.
Qed.

(** C10. The snapshot that [process_line] returns is taken after the line
    has been counted: it holds the counters of the object as the call leaves
    them, so one more file after a file-saved line, one more error after an
    error line, and the unchanged counters after a blank or non-counting
    line. *)
Theorem process_line_stats_snapshot (self : LogParser.t) (line : pystr) :
  ∃ text st self',
    LogParser.process_line self line = Ok ((text, st), self') ∧
    st !! "files" = Some (dc self') ∧ st !! "errors" = Some (ec self') ∧
    (Str.strip line ≠ [] →
     Re.search (LogParser.saved_pattern self) (Str.strip line) = true →
     st !! "files" = Some (dc self + 1)%Z ∧ st !! "errors" = Some (ec self)) ∧
    (Str.strip line ≠ [] →
     Re.search (LogParser.saved_pattern self) (Str.strip line) = false →
     Re.search (LogParser.error_pattern self) (Str.strip line) = true →
     st !! "files" = Some (dc self) ∧ st !! "errors" = Some (ec self + 1)%Z) ∧
    (Str.strip line = [] ∨
     (Re.search (LogParser.saved_pattern self) (Str.strip line) = false ∧
      Re.search (LogParser.error_pattern self) (Str.strip line) = false) →
     st = LogParser._get_stats self).
Proof.
  assert (Hget : ∀ p : LogParser.t,
             LogParser._get_stats p !! "files" = Some (dc p) ∧
             LogParser._get_stats p !! "errors" = Some (ec p)).
  { intros p. unfold LogParser._get_stats. split; by simplify_map_eq. }
  destruct (decide (Str.strip line = [])) as [Hblank|Hline].
  { unfold LogParser.process_line. rewrite bool_decide_eq_true_2 by done.
    eexists _, _, _. split; [reflexivity|].
    split; [apply Hget|]. split; [apply Hget|]. repeat split; done. }
  destruct (process_line_cases self line Hline)
    as (text & self' & Hrun & _ & Hcase).
  exists (text ++ [LF]), (LogParser._get_stats self'), self'. split; [done|].
  split; [apply Hget|]. split; [apply Hget|].
  destruct (Hget self') as [Hf He]. rewrite Hf, He.
  destruct (Re.search (LogParser.saved_pattern self) (Str.strip line)).
  { destruct Hcase as (_ & -> & ->). repeat split; try done.
    intros [?|[? _]]; done. }
  destruct (Re.search (LogParser.error_pattern self) (Str.strip line)).
  { destruct Hcase as (_ & -> & ->). repeat split; try done.
    intros [?|[_ ?]]; done. }
  destruct Hcase as (_ & -> & _). repeat split; done.
Qed.

(** A run of calls always returns, and keeps the patterns of the object. *)
Lemma parser_run_returns (self : LogParser.t) (calls : list parser_call) :
  ∃ self', parser_run self calls = Ok self' ∧
    LogParser.saved_pattern self' = LogParser.saved_pattern self ∧
    LogParser.ok_pattern self' = LogParser.ok_pattern self ∧
    LogParser.error_pattern self' = LogParser.error_pattern self ∧
    (Reset ∉ calls → (dc self <= dc self')%Z ∧ (ec self <= ec self')%Z).
Proof.
  revert self. induction calls as [|c calls IH]; intros self.
  { exists self. repeat split; lia. }
  destruct c as [line|].
  - destruct (process_line_returns self line)
      as (text & self1 & Hrun & Hs & Ho & He & Hdc & Hec).
    destruct (IH self1) as (self' & Hrun' & Hs' & Ho' & He' & Hmono).
    exists self'. cbn [parser_run parser_step]. rewrite Hrun. cbn. rewrite Hrun'.
    split; [done|]. repeat split; try congruence.
    + assert (Reset ∉ calls) as Hno by (intros ?; apply H; by right).
      destruct (Hmono Hno). lia.
    + assert (Reset ∉ calls) as Hno by (intros ?; apply H; by right).
      destruct (Hmono Hno). lia.
  - destruct (IH (LogParser.reset self)) as (self' & Hrun' & Hs' & Ho' & He' & _).
    exists self'. cbn [parser_run parser_step]. cbn. rewrite Hrun'.
    split; [done|]. repeat split; try done.
    all: exfalso; apply H; left.
Qed.

(** C8. No call of [process_line] lowers a counter, so along any run of
    calls without [reset] both counters only grow; [reset] is what sets them
    to zero. *)
Theorem counters_monotone :
  (∀ (self : LogParser.t) (line : pystr),
     ∃ out self', LogParser.process_line self line = Ok (out, self') ∧
       (dc self <= dc self')%Z ∧ (ec self <= ec self')%Z) ∧
  (∀ (self : LogParser.t) (before after : list parser_call),
     Reset ∉ after →
     ∃ self1 self2,
       parser_run self before = Ok self1 ∧
       parser_run self (before ++ after) = Ok self2 ∧
       (dc self1 <= dc self2)%Z ∧ (ec self1 <= ec self2)%Z) ∧
  (∀ self : LogParser.t,
     dc (LogParser.reset self) = 0%Z ∧ ec (LogParser.reset self) = 0%Z).
Proof.
  split; [|split].
  - intros self line.
    destruct (process_line_returns self line) as (text & self' & Hrun & _ & _ & _ & ? & ?).
    eexists _, self'. split; [done|]. lia.
  - intros self before after Hno.
    destruct (parser_run_returns self before) as (self1 & Hrun1 & _).
    destruct (parser_run_returns self1 after) as (self2 & Hrun2 & _ & _ & _ & Hmono).
    exists self1, self2. split; [done|]. split; [|by apply Hmono].
    clear Hmono Hno. revert self Hrun1.
    induction before as [|c before IH]; intros self Hrun1.
    + simpl in Hrun1. by injection Hrun1 as ->.
    + cbn [parser_run app] in *. destruct (parser_step self c); try done.
      cbn in *. by apply IH.
  - done.
Qed.

(** A reachable parser holds the patterns that [LogParser()] compiled. *)
Lemma parser_reachable_patterns (self : LogParser.t) :
  parser_reachable self →
  self = LogParser.Build (dc self) (ec self)
           LogParser.saved_re LogParser.ok_re LogParser.error_re.
Proof.
  intros [calls Hrun].
  destruct (parser_run_returns LogParser.__init__ calls) as (self' & Hrun' & Hs & Ho & He & _).
  rewrite Hrun in Hrun'. injection Hrun' as <-.
  destruct self; simpl in *. by subst.
Qed.

(** C9. What [process_line] returns is determined by the line and the
    counters of the parser: two parsers of the program fed the same line
    give the same display text and the same change of each counter, and when
    their counters agree also the same snapshot and the same state
    afterwards. *)
Theorem process_line_deterministic (p1 p2 : LogParser.t) (line : pystr) :
  parser_reachable p1 → parser_reachable p2 →
  ∃ text st1 st2 p1' p2',
    LogParser.process_line p1 line = Ok ((text, st1), p1') ∧
    LogParser.process_line p2 line = Ok ((text, st2), p2') ∧
    (dc p1' - dc p1 = dc p2' - dc p2)%Z ∧
    (ec p1' - ec p1 = ec p2' - ec p2)%Z ∧
    (dc p1 = dc p2 → ec p1 = ec p2 → st1 = st2 ∧ p1' = p2').
Proof.
  intros H1%parser_reachable_patterns H2%parser_reachable_patterns.
  destruct (decide (Str.strip line = [])) as [Hblank|Hline].
  { unfold LogParser.process_line. rewrite !bool_decide_eq_true_2 by done.
    eexists _, _, _, _, _. split; [reflexivity|]. split; [reflexivity|].
    split; [lia|]. split; [lia|]. intros Hd He.
    rewrite H1, H2. simpl. rewrite Hd, He. done. }
  destruct (process_line_cases p1 line Hline)
    as (text1 & p1' & Hrun1 & _ & Hcase1).
  destruct (process_line_cases p2 line Hline)
    as (text2 & p2' & Hrun2 & _ & Hcase2).
  destruct (process_line_returns p1 line) as (? & q1 & Hq1 & Hs1 & Ho1 & He1 & _).
  destruct (process_line_returns p2 line) as (? & q2 & Hq2 & Hs2 & Ho2 & He2 & _).
  assert (q1 = p1') as -> by congruence.
  assert (q2 = p2') as -> by congruence.
  clear Hq1 Hq2.
  assert (Hp1 : LogParser.saved_pattern p1 = LogParser.saved_re ∧
                LogParser.error_pattern p1 = LogParser.error_re ∧
                LogParser.ok_pattern p1 = LogParser.ok_re) by (by rewrite H1).
  assert (Hp2 : LogParser.saved_pattern p2 = LogParser.saved_re ∧
                LogParser.error_pattern p2 = LogParser.error_re ∧
                LogParser.ok_pattern p2 = LogParser.ok_re) by (by rewrite H2).
  destruct Hp1 as (Hsv1 & Her1 & Hok1). destruct Hp2 as (Hsv2 & Her2 & Hok2).
  rewrite Hsv1, Her1 in Hcase1. rewrite Hsv2, Her2 in Hcase2.
  assert (Hstate : dc p1' = dc p2' → ec p1' = ec p2' → p1' = p2').
  { intros Hd He. destruct p1', p2'; simpl in *. congruence. }
  assert (Htext : text1 = text2 ∧ (dc p1' - dc p1 = dc p2' - dc p2)%Z ∧
                  (ec p1' - ec p1 = ec p2' - ec p2)%Z).
  { destruct (Re.search LogParser.saved_re (Str.strip line)).
    { destruct Hcase1 as ((n1 & Hn1 & ->) & -> & ->).
      destruct Hcase2 as ((n2 & Hn2 & ->) & -> & ->).
      unfold LogParser._extract_filename in Hn1, Hn2. rewrite Hn1 in Hn2.
      injection Hn2 as ->. split; [done|]. lia. }
    destruct (Re.search LogParser.error_re (Str.strip line)).
    { destruct Hcase1 as (-> & -> & ->). destruct Hcase2 as (-> & -> & ->).
      split; [done|]. lia. }
    destruct Hcase1 as (_ & -> & ->). destruct Hcase2 as (_ & -> & ->).
    split; [|lia]. unfold LogParser._extract_filename. done. }
  destruct Htext as (<- & Hd & He).
  eexists _, _, _, p1', p2'. split; [exact Hrun1|]. split; [exact Hrun2|].
  split; [done|]. split; [done|]. intros Hd0 He0.
  assert (p1' = p2') as -> by (apply Hstate; lia). done.
Qed.

End ParserFacts.
(** ** Effectful code *)

(** A method yields nothing: there is no value it could yield. *)
Lemma io_no_yield (ys : list void) : ys = [].
Proof. by destruct ys as [|[] ?]. Qed.

Section ComesBack.
Context {Y S : Type}.

Lemma comes_back_ret {A} (a : A) : comes_back (Y := Y) (S := S) (mret a).
Proof. by intros s. Qed.

Lemma comes_back_bind {A B} (m : Gen Y S A) (f : A → Gen Y S B) :
  comes_back m → (∀ a, comes_back (f a)) → comes_back (m ≫= f).
Proof.
  intros Hm Hf s. specialize (Hm s). gen_simpl.
  destruct (m s) as [[ys [a| |]] s1]; simpl in *; try done.
  specialize (Hf a s1). by destruct (f a s1) as [[ys' r] s2].
Qed.


Lemma comes_back_try_finally {A} (body : Gen Y S A) fin :
  comes_back body → comes_back fin → comes_back (try_finally body fin).
Proof.
  intros Hm Hf s. specialize (Hm s). gen_simpl.
  destruct (body s) as [[ys [a|e|]] s1]; simpl in *; try done.
  all: specialize (Hf s1); by destruct (fin s1) as [[ys' [|?|]] s2].
Qed.

Lemma comes_back_zoom {T A} (proj : S → T) inj (m : Gen Y T A) :
  comes_back m → comes_back (zoom proj inj m).
Proof.
  intros Hm s. specialize (Hm (proj s)). gen_simpl.
  by destruct (m (proj s)) as [[ys r] t].
Qed.

Lemma comes_back_call {A} (m : IO S A) : comes_back m → comes_back (call (Y := Y) m).
Proof.
  intros Hm s. specialize (Hm s). gen_simpl. by destruct (m s) as [[ys r] t].
Qed.

Lemma comes_back_lift {A} (r : result A) : r ≠ Diverge → comes_back (Y:=Y) (S:=S) (lift_result r).
Proof. by intros Hr s. Qed.

End ComesBack.


(** A [try] whose handler catches everything and returns: the whole
    statement returns. *)
Lemma try_catch_all_returns {S} (body : IO S unit) (handler : exn → IO S unit) :
  comes_back body → (∀ e s, ∃ s', handler e s = ([], Ok tt, s')) →
  ∀ s, ∃ s', try_catch any_exception body handler s = ([], Ok tt, s').
Proof.
  intros Hbody Hhandler s. specialize (Hbody s). unfold try_catch.
  destruct (body s) as [[ys [[]|e|]] s1]; cbn [fst snd any_exception] in *.
  - rewrite (io_no_yield ys). by eexists.
  - destruct (Hhandler e s1) as [s2 ->]. rewrite (io_no_yield ys). by eexists.
  - done.
Qed.

(** ** pathlib *)

Section PathFacts.

(** [a in p.parents] compares components: it holds exactly when [p] is [a]
    followed by at least one more component. *)
Lemma member_parents (r : pystr) (a p : list pystr) :
  Path.member (Path.Build r a) (Path.parents (Path.Build r p)) = true ↔
  ∃ below, below ≠ [] ∧ p = a ++ below.
Proof.
  unfold Path.member, Path.parents. rewrite bool_decide_eq_true. cbn [Path.parts Path.root].
  rewrite list_elem_of_In, in_map_iff. split.
  - intros (n & Heq & Hn). rewrite <- in_rev, in_seq in Hn.
    injection Heq as <-. exists (drop n p). split.
    + intros Hnil. apply (f_equal length) in Hnil. rewrite length_drop in Hnil.
      simpl in Hnil. lia.
    + by rewrite take_drop.
  - intros (below & Hne & ->). exists (length a). split.
    + by rewrite take_app_length.
    + rewrite <- in_rev, in_seq, length_app.
      destruct below; [done|]. simpl. lia.
Qed.

End PathFacts.

(** ** utils/file_manager.py *)

Section FileManagerFacts.

(** The lookups of the model end: they give a path or an error. *)
Lemma follow_comes_back fuel strict fs cur rest :
  FS.follow fuel strict fs cur rest ≠ Diverge.
Proof.
  revert cur rest. induction fuel as [|fuel IH]; intros cur rest; simpl;
    destruct (FS.walk strict fs cur rest); try done.
Qed.

Lemma locate_comes_back w p : FS.locate w p ≠ Diverge.
Proof.
  unfold FS.locate. destruct (List.last _ _); [done|].
  case_bool_decide; [done|].
  pose proof (follow_comes_back FS.MAXSYMLINKS true (w_fs w) (FS.start w p)
                (removelast (Path.parts p))) as Hf.
  destruct (FS.follow _ _ _ _ _); try done. unfold mbind, result_bind.
  by repeat case_match.
Qed.

Section Primitives.
Context {Y : Type}.

Lemma resolve_comes_back p : comes_back (FS.resolve (Y:=Y) p).
Proof. intros w. unfold FS.resolve. gen_simpl. by destruct (FS.realpath w p). Qed.

Lemma exists_comes_back p : comes_back (FS.exists_ (Y:=Y) p).
Proof. by intros w. Qed.

Lemma is_dir_comes_back p : comes_back (FS.is_dir (Y:=Y) p).
Proof. by intros w. Qed.

Lemma log_comes_back n l m : comes_back (FS.log (Y:=Y) n l m).
Proof. by intros w. Qed.

Lemma rmtree_comes_back p : comes_back (FS.rmtree (Y:=Y) p).
Proof.
  intros w. unfold FS.rmtree. gen_simpl.
  pose proof (locate_comes_back w p).
  destruct (FS.locate w p) as [[d k]| |]; try done.
  destruct (w_fs w !! k) as [[[] ?]|]; try done.
  cbn [fst snd]. by destruct (FS.blocked w k).
Qed.

End Primitives.


Lemma resolve_ok {Y} (w : World) (p : Path.t) (q : list pystr) :
  FS.realpath w p = Ok q →
  FS.resolve (Y := Y) p w = ([], Ok (Path.Build (py "/") q), w).
Proof. intros H. unfold FS.resolve. gen_simpl. by rewrite H. Qed.

(** [clear_temp_folder] returns normally whatever the path and the world:
    every exception of its body is caught and logged. *)
Lemma clear_temp_folder_returns (self : FileManager.t) (folder_path : pystr) (w : World) :
  ∃ w', FileManager.clear_temp_folder self folder_path w = ([], Ok tt, w').
Proof.
  unfold FileManager.clear_temp_folder. apply try_catch_all_returns.
  - apply comes_back_bind; [apply resolve_comes_back|intros temp].
    apply comes_back_bind; [apply resolve_comes_back|intros resolved].
    destruct (Path.member _ _); [|apply log_comes_back].
    apply comes_back_bind; [apply exists_comes_back|intros []]; [|apply comes_back_ret].
    apply comes_back_bind; [apply is_dir_comes_back|intros []]; [|apply comes_back_ret].
    apply comes_back_bind; [apply rmtree_comes_back|intros _]. apply log_comes_back.
  - intros e s. by eexists.
Qed.

(** C1. When the resolved path does not have the resolved temp directory as
    a proper ancestor, [clear_temp_folder] returns normally and the world
    afterwards is the world before with one more log record, the security
    warning: the file system is unchanged.  The test compares the components
    of the two resolved paths. *)
Theorem clear_temp_folder_outside
    (self : FileManager.t) (folder_path : pystr) (w : World)
    (temp target : list pystr) :
  FS.realpath w (FileManager.temp_dir self) = Ok temp →
  FS.realpath w (Path.of_str folder_path) = Ok target →
  ¬ (∃ below, below ≠ [] ∧ target = temp ++ below) →
  FileManager.clear_temp_folder self folder_path w =
    ([], Ok tt,
     set_log w (w_log w ++
       [(FileManager.logger self, WARNING,
         py "Security Warning: Attempted to delete outside temp dir: "
           ++ Path.to_str (Path.of_str folder_path))])).
Proof.
  intros Htemp Htarget Houtside. unfold FileManager.clear_temp_folder.
  gen_simpl.
  rewrite (resolve_ok _ _ _ Htemp). gen_simpl. rewrite (resolve_ok _ _ _ Htarget).
  gen_simpl.
  destruct (Path.member _ _) eqn:Hmem.
  { apply member_parents in Hmem. done. }
  reflexivity.
Qed.

End FileManagerFacts.

(** ** Lookups in the file system *)

Section WalkFacts.

Lemma valid_name_not_trivial (n : pystr) :
  valid_name n → Path.is_trivial n = false ∧ bool_decide (n = py "..") = false.
Proof.
  intros (H1 & H2 & H3 & _). unfold Path.is_trivial.
  by rewrite !bool_decide_eq_false_2.
Qed.

(** One more component after a walk that ended in a directory. *)
Lemma walk_snoc_done (fs : gmap (list pystr) inode) (n : pystr) (d : list pystr)
    (k : kind) (m m' : Z) (rest : list pystr) :
  valid_name n →
  FS.entry fs d = Some (Inode Dir m) →
  fs !! (d ++ [n]) = Some (Inode k m') → (∀ t, k ≠ Symlink t) →
  ∀ cur, FS.walk true fs cur rest = FS.Done d →
         FS.walk true fs cur (rest ++ [n]) = FS.Done (d ++ [n]).
Proof.
  intros Hn Hd Hk Hnolink. destruct (valid_name_not_trivial n Hn) as [Ht Hdd].
  induction rest as [|x rest IH]; intros cur Hwalk.
  - simpl in Hwalk. injection Hwalk as ->. cbn [app FS.walk].
    rewrite Ht, Hdd, Hk. destruct k as [| |t]; [done|done|by specialize (Hnolink t)].
  - cbn [app FS.walk] in *.
    destruct (Path.is_trivial x); [by apply IH|].
    destruct (bool_decide (x = py "..")); [by apply IH|].
    destruct (fs !! (cur ++ [x])) as [[[| |t] mx]|] eqn:Hx; try done.
    + cbn [andb] in *. destruct rest as [|y rest]; cbn [app] in *.
      * simpl in Hwalk. injection Hwalk as <-.
        destruct cur; simpl in *; congruence.
      * by rewrite bool_decide_eq_false_2 in Hwalk.
    + by apply IH.
Qed.

(** One more component after a walk that stopped at a link. *)
Lemma walk_snoc_link (fs : gmap (list pystr) inode) (n : pystr)
    (dir : list pystr) (t : pystr) (rest' rest : list pystr) :
  ∀ cur, FS.walk true fs cur rest = FS.AtLink dir t rest' →
         FS.walk true fs cur (rest ++ [n]) = FS.AtLink dir t (rest' ++ [n]).
Proof.
  induction rest as [|x rest IH]; intros cur Hwalk; [done|].
  cbn [app FS.walk] in *.
  destruct (Path.is_trivial x); [by apply IH|].
  destruct (bool_decide (x = py "..")); [by apply IH|].
  destruct (fs !! (cur ++ [x])) as [[[| |t'] mx]|] eqn:Hx; try done.
  - cbn [andb] in *. destruct rest as [|y rest]; [done|].
    by rewrite bool_decide_eq_false_2 in Hwalk.
  - by apply IH.
  - by injection Hwalk as -> -> ->.
Qed.

Lemma follow_snoc (fs : gmap (list pystr) inode) (n : pystr) (d : list pystr)
    (k : kind) (m m' : Z) :
  valid_name n →
  FS.entry fs d = Some (Inode Dir m) →
  fs !! (d ++ [n]) = Some (Inode k m') → (∀ t, k ≠ Symlink t) →
  ∀ fuel cur rest, FS.follow fuel true fs cur rest = Ok d →
                   FS.follow fuel true fs cur (rest ++ [n]) = Ok (d ++ [n]).
Proof.
  intros Hn Hd Hk Hnolink.
  induction fuel as [|fuel IH]; intros cur rest Hfollow; cbn [FS.follow] in *.
  - destruct (FS.walk true fs cur rest) as [p|dir t rest'|e] eqn:Hwalk; try done.
    injection Hfollow as ->. by erewrite walk_snoc_done.
  - destruct (FS.walk true fs cur rest) as [p|dir t rest'|e] eqn:Hwalk; try done.
    + injection Hfollow as ->. by erewrite walk_snoc_done.
    + erewrite walk_snoc_link by done. rewrite app_assoc. by apply IH.
Qed.



End WalkFacts.

(** ** The retention sweep *)

Section GlobFacts.

Lemma split_loop_no_sep (c : codepoint) (s cur : pystr) :
  c ∉ s → Str.split_loop [c] 0 cur s = [rev cur ++ s].
Proof.
  revert cur. induction s as [|b s IH]; intros cur Hc.
  - by rewrite app_nil_r.
  - cbn [Str.split_loop]. rewrite startswith_single.
    destruct (N.eqb_spec c b) as [->|Hne]; [by destruct Hc; left|].
    rewrite IH by (intros ?; apply Hc; by right).
    simpl. by rewrite <- app_assoc.
Qed.

Lemma endswith_zip_name (n : pystr) :
  Str.endswith n (py ".zip") = true →
  n ≠ [] ∧ n ≠ py "." ∧ n ≠ py "..".
Proof. intros H. repeat split; intros ->; by vm_compute in H. Qed.



End GlobFacts.

Section SweepFacts.

Variables (self : FileManager.t) (d : list pystr) (m : Z) (max_age_minutes : Z).

Local Abbreviation zd := (FileManager.zip_dir self).



Lemma swept_frame (w : World) fs lg k i :
  swept (set_log (set_fs w fs) lg) d max_age_minutes k i = swept w d max_age_minutes k i.
Proof. reflexivity. Qed.

Lemma swept_frame_log (w : World) lg k i :
  swept (set_log w lg) d max_age_minutes k i = swept w d max_age_minutes k i.
Proof. reflexivity. Qed.







End SweepFacts.

(** ** core/engine.py *)

Section EngineFacts.
Context {Y : Type}.

Lemma cleanup_partial_files_returns (self : WgetEngine.t) (w : World) :
  ∃ w', WgetEngine.cleanup_partial_files (Y := Y) (self, w) = ([], Ok tt, (self, w')) ∧
    match WgetEngine.current_website_dir self with
    | Some ((_ :: _) as dir) =>
        FileManager.clear_temp_folder (WgetEngine.fm self) dir w = ([], Ok tt, w')
    | _ => w' = w
    end.
Proof.
  unfold WgetEngine.cleanup_partial_files, WgetEngine.self_, WgetEngine.os. gen_simpl.
  destruct (WgetEngine.current_website_dir self) as [[|c dir]|]; try by eexists.
  destruct (clear_temp_folder_returns (WgetEngine.fm self) (c :: dir) w) as [w' Hw'].
  exists w'. gen_eval. rewrite Hw'. done.
Qed.

Lemma stop_noop (self : WgetEngine.t) (w : World) :
  (WgetEngine.process self = None ∨
   ∃ pid c rc, WgetEngine.process self = Some pid ∧
               Subprocess.child_at w pid = Some c ∧ c_status c = Exited rc) →
  WgetEngine.stop (Y := Y) (self, w) = ([], Ok tt, (self, w)).
Proof.
  engine_unfold.
  intros [Hp|(pid & c & rc & Hp & Hc & Hst)]; gen_eval; rewrite Hp; gen_eval; [done|].
  rewrite Hc, Hst. done.
Qed.

Lemma stop_clears (self : WgetEngine.t) (w : World) (pid : nat) :
  WgetEngine.process self = Some pid →
  (∀ c rc, Subprocess.child_at w pid = Some c → c_status c ≠ Exited rc) →
  ∃ r w', WgetEngine.stop (Y := Y) (self, w)
          = ([], r, (WgetEngine.set_process self None, w')) ∧ r ≠ Diverge.
Proof.
  intros Hproc Hrun.
  assert (Hfin : ∀ w1, ∃ w2,
    WgetEngine.cleanup_partial_files (Y := Y) (WgetEngine.set_process self None, w1)
    = ([], Ok tt, (WgetEngine.set_process self None, w2))).
  { intros w1.
    destruct (cleanup_partial_files_returns (WgetEngine.set_process self None) w1)
      as (w2 & Hw2 & _). by exists w2. }
  engine_unfold. unfold Subprocess.child_at in Hrun.
  gen_eval. rewrite Hproc. gen_eval.
  destruct (w_children w !! pid) as [[st out rest code wr ot]|] eqn:Hc.
  - destruct st as [|rc]; [|by specialize (Hrun _ rc eq_refl)].
    destruct ot as [rc|].
    all: repeat progress (gen_eval; rewrite ?Hproc, ?Hc;
                          cbn [is_timeout_expired exn_type]).
    all: match goal with |- context [WgetEngine.cleanup_partial_files (_, ?w1)] =>
           destruct (Hfin w1) as [w2 ->] end.
    all: gen_eval; by eexists _, _.
  - repeat progress (gen_eval; rewrite ?Hproc, ?Hc;
                     cbn [is_timeout_expired exn_type]).
    match goal with |- context [WgetEngine.cleanup_partial_files (_, ?w1)] =>
      destruct (Hfin w1) as [w2 ->] end.
    gen_eval. by eexists _, _.
Qed.

(** C7. A second [stop], or a [stop] once the process has ended, does
    nothing: it returns normally and leaves the engine and the world (the
    signals sent, the log, the files) exactly as they are. *)
Theorem stop_idempotent :
  (∀ s : WgetEngine.state,
     ∃ ys r s1, WgetEngine.stop (Y := Y) s = (ys, r, s1) ∧ r ≠ Diverge ∧
                WgetEngine.stop (Y := Y) s1 = ([], Ok tt, s1)) ∧
  (∀ (self : WgetEngine.t) (w : World),
     (WgetEngine.process self = None ∨
      ∃ pid c rc, WgetEngine.process self = Some pid ∧
                  Subprocess.child_at w pid = Some c ∧ c_status c = Exited rc) →
     WgetEngine.stop (Y := Y) (self, w) = ([], Ok tt, (self, w))).
Proof.
  split; [|apply stop_noop].
  intros [self w].
  destruct (WgetEngine.process self) as [pid|] eqn:Hproc; cycle 1.
  { exists [], (Ok tt), (self, w). rewrite stop_noop by (by left). done. }
  destruct (Subprocess.child_at w pid) as [c|] eqn:Hc.
  - destruct (c_status c) as [|rc] eqn:Hst.
    + destruct (stop_clears self w pid Hproc) as (r & w' & Hstop & Hr).
      { intros c' rc' Hc'. congruence. }
      eexists _, _, _. split; [exact Hstop|]. split; [done|].
      apply stop_noop. by left.
    + exists [], (Ok tt), (self, w).
      rewrite stop_noop by (right; by exists pid, c, rc). done.
  - destruct (stop_clears self w pid Hproc) as (r & w' & Hstop & Hr).
    { intros c' rc' Hc'. congruence. }
    eexists _, _, _. split; [exact Hstop|]. split; [done|].
    apply stop_noop. by left.
Qed.

End EngineFacts.

Section DownloadFacts.
Context {L : Library}.

(** The loop of [download] ends: with the child's lines as fuel it reads
    them all, yields those that are not empty and leaves the child exited. *)
Lemma stream_spec (out : list pystr) :
  ∀ (self : WgetEngine.t) (w : World) (pid : nat) rest code wr ot,
  WgetEngine.process self = Some pid →
  w_children w !! pid = Some (Child Running out rest code wr ot) →
  WgetEngine.stream (S (length out)) (self, w) =
    (stream_items out rest, Ok tt,
     (self, after_stream w pid (Child Running out rest code wr ot))).
Proof.
  induction out as [|line out IH]; intros self w pid rest code wr ot Hproc Hc.
  - pose proof (lookup_lt_Some _ _ _ Hc) as Hlt.
    cbn [WgetEngine.stream length]. engine_unfold.
    repeat progress (gen_eval; cbn [hd tl];
                     rewrite ?Hproc, ?Hc, ?list_lookup_insert_eq by done).
    unfold stream_items, after_stream. cbn [app List.filter List.map].
    rewrite ?list_insert_insert_eq.
    destruct rest; gen_eval; cbn; done.
  - pose proof (lookup_lt_Some _ _ _ Hc) as Hlt.
    change (S (length (line :: out))) with (S (S (length out))).
    remember (S (length out)) as n eqn:Hn.
    cbn [WgetEngine.stream]. engine_unfold.
    destruct out as [|line2 out].
    + destruct line as [|ch line].
      all: repeat progress (gen_eval; cbn [hd tl];
                            rewrite ?Hproc, ?Hc, ?list_lookup_insert_eq by done).
      all: unfold stream_items, after_stream; rec_simpl; rewrite ?list_insert_insert_eq.
      all: destruct rest; gen_eval; done.
    + destruct line as [|ch line].
      all: repeat progress (gen_eval; cbn [hd tl];
                            rewrite ?Hproc, ?Hc, ?list_lookup_insert_eq by done).
      all: subst n; erewrite IH; [|done|rec_simpl; by apply list_lookup_insert_eq].
      all: unfold stream_items, after_stream; rec_simpl; rewrite ?list_insert_insert_eq.
      all: done.
Qed.

(** Step 6 of [download] in a state where the child has exited. *)
Lemma conclude_spec (self : WgetEngine.t) (w w3 : World) (pid : nat)
    (c : child (gmap (list pystr) inode)) (rc : Z) (dir : pystr) :
  WgetEngine.process self = Some pid →
  w_children w !! pid = Some c → c_status c = Exited rc →
  WgetEngine.current_website_dir self = Some dir → dir ≠ [] →
  FileManager.clear_temp_folder (WgetEngine.fm self) dir w = ([], Ok tt, w3) →
  WgetEngine.conclude (self, w) =
    if bool_decide (rc = 0%Z) && FS.path_exists w dir
    then ([(LF :: py "[Engine] Download completed successfully." ++ [LF], Some dir)],
          Ok tt, (self, w))
    else ([(LF :: py "[Engine] Error: Process exited with code "
               ++ str_of_int rc ++ py "." ++ [LF], None)],
          Ok tt, (self, w3)).
Proof.
  intros Hproc Hc Hst Hdir Hne Hclear.
  unfold WgetEngine.conclude, WgetEngine.cleanup_partial_files, FS.os_path_exists.
  engine_unfold.
  repeat progress (gen_eval; rewrite ?Hproc, ?Hc, ?Hst, ?Hdir).
  destruct (decide (rc = 0%Z)) as [->|Hrc].
  - rewrite !bool_decide_eq_true_2 by done.
    repeat progress (gen_eval; rewrite ?Hproc, ?Hc, ?Hst, ?Hdir).
    cbn [andb]. destruct (FS.path_exists w dir).
    + repeat progress (gen_eval; rewrite ?Hproc, ?Hc, ?Hst, ?Hdir). done.
    + repeat progress (gen_eval; rewrite ?Hproc, ?Hc, ?Hst, ?Hdir).
      destruct dir as [|ch d]; [done|].
      repeat progress (gen_eval; rewrite ?Hclear). done.
  - rewrite !bool_decide_eq_false_2 by congruence.
    repeat progress (gen_eval; rewrite ?Hproc, ?Hc, ?Hst, ?Hdir).
    destruct dir as [|ch d]; [done|].
    repeat progress (gen_eval; rewrite ?Hclear). done.
Qed.

Lemma os_path_join_nonempty (a b : pystr) : a ≠ [] → ∃ ch d, os_path_join a b = ch :: d.
Proof.
  intros Ha. unfold os_path_join.
  destruct (Str.startswith b (py "/")) eqn:Hb.
  { destruct b; [done|]. by eexists _, _. }
  destruct a as [|ch a]; [done|].
  destruct (_ || _); by eexists _, _.
Qed.

(** C2. Once the output of the child is exhausted, [download] hands the
    target directory to its caller (its last item carries the directory)
    exactly when the exit code is 0 and the directory exists; in every other
    case its last item carries no directory and the world is what
    [clear_temp_folder] makes of it for the target directory.  No earlier
    item carries a directory. *)
Theorem download_verdict (url : pystr) (self : WgetEngine.t) (w : World)
    (domain : pystr) (c : child (gmap (list pystr) inode)) :
  WgetEngine._get_domain_from_url url = Ok domain →
  WgetEngine.base_dir self ≠ [] →
  let dir := os_path_join (WgetEngine.base_dir self) domain in
  let w1 := if FS.path_exists w dir
            then (FileManager.clear_temp_folder (WgetEngine.fm self) dir w).2
            else w in
  w_launch w1 (wget_command (WgetEngine.base_dir self) url) = Some c →
  let pid := length (w_children w1) in
  let running := Child Running (c_out c) (c_rest c) (c_code c) (c_writes c) (c_on_term c) in
  let w2 := after_stream (set_children w1 (w_children w1 ++ [running])) pid running in
  let self' := WgetEngine.set_process
                 (WgetEngine.set_current_website_dir self (Some dir)) None in
  let items :=
    (if FS.path_exists w dir
     then [(py "[Engine] Cleaning old directory: " ++ domain ++ py "..." ++ [LF], None)]
     else [])
    ++ [(py "[Engine] Starting download for: " ++ domain ++ [LF], None);
        (py "[Engine] Command: "
           ++ Str.join (py " ") (wget_command (WgetEngine.base_dir self) url) ++ [LF],
         None)]
    ++ stream_items (c_out c) (c_rest c) in
  Forall (λ it : WgetEngine.item, it.2 = None) items ∧
  WgetEngine.download url (self, w) =
      if bool_decide (c_code c = 0%Z) && FS.path_exists w2 dir
      then (items ++ [(LF :: py "[Engine] Download completed successfully." ++ [LF],
                       Some dir)],
            Ok tt, (self', w2))
      else (items ++ [(LF :: py "[Engine] Error: Process exited with code "
                          ++ str_of_int (c_code c) ++ py "." ++ [LF], None)],
            Ok tt,
            (self', (FileManager.clear_temp_folder (WgetEngine.fm self) dir w2).2)).
Proof.
  intros Hdom Hbase dir w1 Hlaunch pid running w2 self' items.
  split.
  { unfold items, stream_items. rewrite !Forall_app. split; [|split].
    - destruct (FS.path_exists w dir); repeat constructor.
    - repeat constructor.
    - apply Forall_forall. intros it Hit. apply list_elem_of_In, in_map_iff in Hit.
      by destruct Hit as (line & <- & _). }
  destruct (os_path_join_nonempty _ domain Hbase) as (ch & d & Hdir).
  assert (Hw1 : ∃ w1', w1 = w1' ∧
            (FS.path_exists w dir = true →
             FileManager.clear_temp_folder (WgetEngine.fm self) dir w = ([], Ok tt, w1')) ∧
            (FS.path_exists w dir = false → w1' = w)).
  { unfold w1. destruct (FS.path_exists w dir).
    - destruct (clear_temp_folder_returns (WgetEngine.fm self) dir w) as [w1' Hw1'].
      exists w1'. rewrite Hw1'. done.
    - by exists w. }
  destruct Hw1 as (w1' & Hw1 & Hclean & Hkeep). clearbody w1. subst w1.
  unfold wget_command in Hlaunch.
  assert (Hpid : (w_children w1' ++ [running]) !! pid = Some running).
  { unfold pid. by apply list_lookup_middle. }
  assert (Hlt : (pid < length (w_children w1' ++ [running]))%nat).
  { unfold pid. rewrite length_app. simpl. lia. }
  destruct (clear_temp_folder_returns (WgetEngine.fm self) dir w2) as [w3 Hw3].
  rewrite Hw3. cbn [snd].
  unfold WgetEngine.download.
  unfold lift_result at 1. gen_simpl. rewrite Hdom. gen_simpl.
  unfold WgetEngine.self_ at 1, WgetEngine.set_self at 1, WgetEngine.os at 1,
    FS.os_path_exists at 1.
  gen_eval. fold dir.
  destruct (FS.path_exists w dir) eqn:Hex.
  1: specialize (Hclean eq_refl); unfold WgetEngine.os at 1; gen_eval; rewrite Hclean.
  2: specialize (Hkeep eq_refl); subst w1'.
  all: gen_eval.
  all: unfold WgetEngine.os at 1, Subprocess.Popen; gen_eval; rewrite Hlaunch; gen_eval.
  all: fold running; fold pid.
  all: unfold WgetEngine.set_self at 1, WgetEngine.pending, Subprocess.child_at; gen_eval.
  all: rewrite Hpid; fold running.
  all: erewrite stream_spec; [|rec_simpl; reflexivity|rec_simpl; exact Hpid].
  all: erewrite (conclude_spec _ _ w3 pid _ (c_code c) dir);
    [|rec_simpl; reflexivity
     |unfold after_stream; rec_simpl; by apply list_lookup_insert_eq
     |reflexivity|rec_simpl; reflexivity|unfold dir; by rewrite Hdir|exact Hw3].
  all: change (after_stream _ pid _) with w2.
  all: destruct (bool_decide (c_code c = 0%Z) && FS.path_exists w2 dir).
  all: unfold WgetEngine.set_self; gen_eval.
  all: rewrite ?app_nil_r.
  all: unfold items; rewrite ?Hex; reflexivity.
Qed.

End DownloadFacts.

(** ** app.py *)

Section AppFacts.
Context {U : UnicodeData} {L : Library}.

(** The guard of [process_download]: an input that does not start with
    [http] gets the one update that reports it, and nothing else happens. *)
Lemma process_download_rejects (url : pystr) (w : World) :
  Str.startswith url (py "http") = false →
  App.process_download url w =
    ([(py "❌ Error: Please enter a valid URL (http/https).", 0%Z, 0%Z, None,
       py "Invalid URL")],
     Ok tt, w).
Proof.
  intros Hguard. unfold App.process_download. rewrite Hguard. reflexivity.
Qed.

(** The guard compares the first characters of the input with [http]. *)
Lemma startswith_take (s p : pystr) :
  Str.startswith s p = true ↔ take (length p) s = p.
Proof.
  revert s. induction p as [|a p IH]; intros [|b s]; cbn; try done.
  rewrite andb_true_iff, IH, N.eqb_eq. split.
  - by intros [-> ->].
  - intros [= -> Htake]. by rewrite Htake.
Qed.

End AppFacts.

(** C3, at the input [httpbin.org].  The input starts with neither
    [http://] nor [https://], and the job is not refused: wget is started
    and runs to its end, the mirror of the earlier job is removed, an
    archive is created, one file is counted and the last update reads
    [✅ Done!]. *)
Theorem process_download_httpbin :
  Str.startswith (py "httpbin.org") (py "http://") = false ∧
  Str.startswith (py "httpbin.org") (py "https://") = false ∧
  httpbin_job.1.2 = Ok tt ∧
  update_status <$> head httpbin_job.1.1 = Some (py "Starting...") ∧
  update_status <$> last httpbin_job.1.1 = Some (py "✅ Done!") ∧
  update_files <$> last httpbin_job.1.1 = Some 1%Z ∧
  c_status <$> w_children httpbin_job.2 = [Exited 0%Z] ∧
  example_fs !! [py "app"; py "storage"; py "output_zips"; py "httpbin.org.zip"] = None ∧
  w_fs httpbin_job.2 !! [py "app"; py "storage"; py "output_zips"; py "httpbin.org.zip"]
    = Some (Inode File 10000) ∧
  example_fs !! [py "app"; py "storage"; py "temp_sites"; py "httpbin.org"]
    = Some (Inode Dir 0) ∧
  w_fs httpbin_job.2 !! [py "app"; py "storage"; py "temp_sites"; py "httpbin.org"] = None.
Proof.
  repeat split; vm_compute; reflexivity.
Qed.

(** ** The theorems at work on concrete inputs *)

(** A line that carries both a saved file and an error marker counts as a
    saved file. *)
Lemma process_line_first_match_wins_witness :
  Str.strip (py "  ‘a/b.html’ saved [10/10] after ERROR 503  ") ≠ [] ∧
  ∃ text self',
    LogParser.process_line (U := ascii_unicode) LogParser.__init__
      (py "  ‘a/b.html’ saved [10/10] after ERROR 503  ")
      = Ok ((text ++ [LF], LogParser._get_stats self'), self') ∧
    text = py "✅ FILE SAVED: b.html" ∧
    LogParser.downloaded_count self' = 1%Z ∧ LogParser.error_count self' = 0%Z.
Proof.
  assert (H : Str.strip (py "  ‘a/b.html’ saved [10/10] after ERROR 503  ") ≠ [])
    by (vm_compute; discriminate).
  split; [exact H|].
  destruct (process_line_first_match_wins (U := ascii_unicode) LogParser.__init__ _ H)
    as (text & self' & Hrun & _ & Hcase).
  exists text, self'. split; [exact Hrun|].
  assert (Hs : Re.search (U := ascii_unicode) (LogParser.saved_pattern LogParser.__init__)
            (Str.strip (py "  ‘a/b.html’ saved [10/10] after ERROR 503  ")) = true)
    by (vm_compute; reflexivity).
  destruct Hcase as (Hcase & _). destruct (Hcase Hs) as ((name & Hname & Htext) & Hd & He).
  split; [|split; [exact Hd|exact He]].
  rewrite Htext. vm_compute in Hname. injection Hname as <-. reflexivity.
Defined.

(** A fresh parser and one that has counted a file format an error line
    alike and count it alike. *)
Lemma process_line_deterministic_witness :
  parser_reachable (U := ascii_unicode) LogParser.__init__ ∧
  parser_reachable (U := ascii_unicode)
    (LogParser.Build 1 0 LogParser.saved_re LogParser.ok_re LogParser.error_re) ∧
  ∃ text st1 st2 p1' p2',
    LogParser.process_line (U := ascii_unicode) LogParser.__init__
      (py "HTTP request sent, awaiting response... 404 Not Found") = Ok ((text, st1), p1') ∧
    LogParser.process_line (U := ascii_unicode)
      (LogParser.Build 1 0 LogParser.saved_re LogParser.ok_re LogParser.error_re)
      (py "HTTP request sent, awaiting response... 404 Not Found") = Ok ((text, st2), p2') ∧
    (LogParser.error_count p1' - 0 = LogParser.error_count p2' - 0)%Z.
Proof.
  assert (H1 : parser_reachable (U := ascii_unicode) LogParser.__init__)
    by (exists []; reflexivity).
  assert (H2 : parser_reachable (U := ascii_unicode)
                 (LogParser.Build 1 0 LogParser.saved_re LogParser.ok_re LogParser.error_re))
    by (exists [ProcessLine (py "‘x’ saved [1/1]")]; vm_compute; reflexivity).
  split; [exact H1|]. split; [exact H2|].
  destruct (process_line_deterministic (U := ascii_unicode) _ _
              (py "HTTP request sent, awaiting response... 404 Not Found") H1 H2)
    as (text & st1 & st2 & p1' & p2' & Hr1 & Hr2 & _ & He & _).
  exists text, st1, st2, p1', p2'. split; [exact Hr1|]. split; [exact Hr2|exact He].
Defined.

(** A path that climbs out of the temporary directory is refused. *)
Lemma clear_temp_folder_outside_witness :
  FS.realpath (example_world None) (FileManager.temp_dir FileManager.default)
    = Ok [py "app"; py "storage"; py "temp_sites"] ∧
  FS.realpath (example_world None) (Path.of_str (py "storage/temp_sites/../../../etc"))
    = Ok [py "etc"] ∧
  FileManager.clear_temp_folder FileManager.default
    (py "storage/temp_sites/../../../etc") (example_world None) =
  ([], Ok tt,
   set_log (example_world None)
     [(py "FileManager", WARNING,
       py "Security Warning: Attempted to delete outside temp dir: storage/temp_sites/../../../etc")]).
Proof.
  assert (H1 : FS.realpath (example_world None) (FileManager.temp_dir FileManager.default)
               = Ok [py "app"; py "storage"; py "temp_sites"])
    by (vm_compute; reflexivity).
  assert (H2 : FS.realpath (example_world None)
                 (Path.of_str (py "storage/temp_sites/../../../etc")) = Ok [py "etc"])
    by (vm_compute; reflexivity).
  split; [exact H1|]. split; [exact H2|].
  apply (clear_temp_folder_outside FileManager.default
           (py "storage/temp_sites/../../../etc") (example_world None) _ _ H1 H2).
  intros (below & _ & Heq). vm_compute in Heq. discriminate Heq.
Defined.


(** A wget that exits with code 8 ends the download with an error, and the
    partial mirror is removed. *)
Lemma download_verdict_witness :
  WgetEngine._get_domain_from_url (L := basic_library) (py "https://example.com:8080/x")
    = Ok (py "example.com") ∧
  WgetEngine.base_dir example_engine ≠ [] ∧
  w_launch
    (if FS.path_exists (example_world (Some failing_wget))
          (os_path_join (WgetEngine.base_dir example_engine) (py "example.com"))
     then (FileManager.clear_temp_folder (WgetEngine.fm example_engine)
             (os_path_join (WgetEngine.base_dir example_engine) (py "example.com"))
             (example_world (Some failing_wget))).2
     else example_world (Some failing_wget))
    (wget_command (WgetEngine.base_dir example_engine) (py "https://example.com:8080/x"))
    = Some failing_wget ∧
  ∃ items self' w',
    WgetEngine.download (L := basic_library) (py "https://example.com:8080/x")
      (example_engine, example_world (Some failing_wget))
    = (items ++ [(LF :: py "[Engine] Error: Process exited with code 8." ++ [LF], None)],
       Ok tt, (self', w')) ∧
    WgetEngine.process self' = None ∧
    w_fs w' !! [py "app"; py "storage"; py "temp_sites"; py "example.com"] = None.
Proof.
  assert (H1 : WgetEngine._get_domain_from_url (L := basic_library)
                 (py "https://example.com:8080/x") = Ok (py "example.com"))
    by (vm_compute; reflexivity).
  assert (H2 : WgetEngine.base_dir example_engine ≠ []) by discriminate.
  assert (H3 : w_launch
    (if FS.path_exists (example_world (Some failing_wget))
          (os_path_join (WgetEngine.base_dir example_engine) (py "example.com"))
     then (FileManager.clear_temp_folder (WgetEngine.fm example_engine)
             (os_path_join (WgetEngine.base_dir example_engine) (py "example.com"))
             (example_world (Some failing_wget))).2
     else example_world (Some failing_wget))
    (wget_command (WgetEngine.base_dir example_engine) (py "https://example.com:8080/x"))
    = Some failing_wget)
    by reflexivity.
  split; [exact H1|]. split; [exact H2|]. split; [exact H3|].
  pose proof (download_verdict (L := basic_library) (py "https://example.com:8080/x") example_engine
                (example_world (Some failing_wget)) (py "example.com") failing_wget H1 H2 H3) as Hrun.
  cbv zeta in Hrun. destruct Hrun as [_ Hrun].
  match type of Hrun with
  | _ = if ?c then _ else _ =>
      replace c with false in Hrun by (vm_compute; reflexivity)
  end.
  match type of Hrun with
  | _ = (?i ++ _, _, (?s, ?w)) => exists i, s, w
  end.
  split; [|split].
  - rewrite Hrun. reflexivity.
  - reflexivity.
  - vm_compute. reflexivity.
Defined.

(** * Further properties *)

(** ** utils/parser.py *)

Section ParserExtras.
Context {U : UnicodeData}.

Local Abbreviation dc := LogParser.downloaded_count.
Local Abbreviation ec := LogParser.error_count.

(** X1. [reset] brings a parser of the program back to the state in which
    [LogParser()] builds it: the counters are zero and the patterns are the
    compiled ones, which no method replaces. *)
Theorem reset_restores_initial (self : LogParser.t) :
  parser_reachable self → LogParser.reset self = LogParser.__init__.
Proof.
  intros Hreach. rewrite (parser_reachable_patterns self Hreach). reflexivity.
Qed.

(** X2. The display text is empty for a blank line and for no other: a
    blank line (one that is empty once stripped) leaves the parser as it
    is, and the text of any other line ends with a line feed. *)
Theorem process_line_blank_iff (self : LogParser.t) (line : pystr) :
  ∃ text st self',
    LogParser.process_line self line = Ok ((text, st), self') ∧
    (text = [] ↔ Str.strip line = []) ∧
    (Str.strip line = [] → self' = self ∧ st = LogParser._get_stats self) ∧
    (Str.strip line ≠ [] → last text = Some LF).
Proof.
  destruct (decide (Str.strip line = [])) as [Hblank|Hline].
  { unfold LogParser.process_line. rewrite bool_decide_eq_true_2 by done.
    eexists _, _, _. split; [reflexivity|]. split; [done|]. split; done. }
  destruct (process_line_cases self line Hline) as (text & self' & Hrun & _).
  eexists _, _, _. split; [exact Hrun|]. split; [|split; [done|]].
  - split; [|done]. intros Habs. by destruct text.
  - intros _. by rewrite last_snoc.
Qed.

(** X3. Counting from a new parser, the counters are never negative and
    their sum is at most the number of calls made: a line adds at most one
    to one of them. *)
Theorem counters_bounded (calls : list parser_call) :
  ∃ self, parser_run LogParser.__init__ calls = Ok self ∧
    (0 <= dc self)%Z ∧ (0 <= ec self)%Z ∧
    (dc self + ec self <= Z.of_nat (length calls))%Z.
Proof.
  assert (Hgen : ∀ calls (p : LogParser.t), (0 <= dc p)%Z → (0 <= ec p)%Z →
            ∃ self, parser_run p calls = Ok self ∧
              (0 <= dc self)%Z ∧ (0 <= ec self)%Z ∧
              (dc self + ec self <= dc p + ec p + Z.of_nat (length calls))%Z).
  { clear calls. induction calls as [|c calls IH]; intros p Hd He.
    { exists p. split; [done|]. simpl. lia. }
    destruct c as [line|].
    - destruct (decide (Str.strip line = [])) as [Hblank|Hline].
      + destruct (IH p Hd He) as (self & Hrun & ? & ? & ?).
        exists self. cbn [parser_run parser_step].
        unfold LogParser.process_line. rewrite bool_decide_eq_true_2 by done.
        cbn. rewrite Hrun. split; [done|]. cbn [length]. lia.
      + destruct (process_line_cases p line Hline) as (text & p' & Hrun1 & Hone & _).
        destruct (process_line_returns p line) as (? & q & Hq & _ & _ & _ & Hdc & Hec).
        assert (q = p') as -> by congruence.
        destruct (IH p') as (self & Hrun & ? & ? & ?); [lia|lia|].
        exists self. cbn [parser_run parser_step]. rewrite Hrun1. cbn. rewrite Hrun.
        split; [done|]. cbn [length]. lia.
    - destruct (IH (LogParser.reset p)) as (self & Hrun & ? & ? & ?); [done|done|].
      exists self. cbn [parser_run parser_step]. cbn. rewrite Hrun.
      split; [done|]. cbn [length]. simpl in *. lia. }
  destruct (Hgen calls LogParser.__init__) as (self & Hrun & ? & ? & ?); [done|done|].
  exists self. split; [done|]. simpl in *. lia.
Qed.

End ParserExtras.

Section StripFacts.

Lemma lstrip_head (s : pystr) :
  match Str.lstrip s with
  | [] => True
  | c :: _ => Str.isspace c = false
  end.
Proof.
  induction s as [|c s IH]; [done|]. cbn [Str.lstrip].
  destruct (Str.isspace c) eqn:Hc; [done|]. by rewrite Hc.
Qed.

Lemma lstrip_fixed (c : codepoint) (s : pystr) :
  Str.isspace c = false → Str.lstrip (c :: s) = c :: s.
Proof. intros Hc. cbn [Str.lstrip]. by rewrite Hc. Qed.

Lemma lstrip_lstrip (s : pystr) : Str.lstrip (Str.lstrip s) = Str.lstrip s.
Proof.
  pose proof (lstrip_head s) as H. destruct (Str.lstrip s) as [|c t]; [done|].
  by apply lstrip_fixed.
Qed.

Lemma lstrip_snoc (s : pystr) (h : codepoint) :
  Str.isspace h = false → ∃ t, Str.lstrip (s ++ [h]) = t ++ [h].
Proof.
  intros Hh. induction s as [|c s IH].
  - exists []. cbn. by rewrite Hh.
  - cbn [app Str.lstrip]. destruct (Str.isspace c); [done|]. by exists (c :: s).
Qed.

Lemma rstrip_rstrip (s : pystr) : Str.rstrip (Str.rstrip s) = Str.rstrip s.
Proof. unfold Str.rstrip. by rewrite rev_involutive, lstrip_lstrip. Qed.

Lemma lstrip_rstrip_lstrip (s : pystr) :
  Str.lstrip (Str.rstrip (Str.lstrip s)) = Str.rstrip (Str.lstrip s).
Proof.
  pose proof (lstrip_head s) as H. destruct (Str.lstrip s) as [|h t]; [done|].
  unfold Str.rstrip. cbn [rev].
  destruct (lstrip_snoc (rev t) h H) as [y ->].
  rewrite rev_app_distr. cbn [rev app]. by apply lstrip_fixed.
Qed.

(** [strip] of a stripped string changes nothing. *)
Lemma strip_strip (s : pystr) : Str.strip (Str.strip s) = Str.strip s.
Proof. unfold Str.strip. by rewrite lstrip_rstrip_lstrip, rstrip_rstrip. Qed.

End StripFacts.

Section ParserExtras.
Context {U : UnicodeData}.

(** X4. The white space around a line does not count: a line and its
    stripped form get the same display text and move the counters alike. *)
Theorem process_line_strip (self : LogParser.t) (line : pystr) :
  LogParser.process_line self (Str.strip line) = LogParser.process_line self line.
Proof. unfold LogParser.process_line. by rewrite strip_strip. Qed.

(** What [_extract_filename] returns holds no [/]. *)
Lemma extract_filename_no_slash (self : LogParser.t) (line : pystr) :
  ∃ name, LogParser._extract_filename self line = Ok name ∧ SLASH ∉ name.
Proof.
  destruct (extract_filename_body_spec line) as (name & Hbody & Habsent & Hboth).
  exists name. split.
  { unfold LogParser._extract_filename. by rewrite Hbody. }
  destruct (decide (LQUOTE ∈ line)) as [Hl|Hl]; cycle 1.
  { rewrite Habsent by by left. apply (bool_decide_unpack _). by vm_compute. }
  destruct (decide (RQUOTE ∈ line)) as [Hr|Hr]; cycle 1.
  { rewrite Habsent by by right. apply (bool_decide_unpack _). by vm_compute. }
  destruct (first_index_exists _ _ Hl) as [i Hi].
  destruct (first_index_exists _ _ Hr) as [j Hj].
  by destruct (Hboth i j Hi Hj) as [Hno _].
Qed.

(** X5. The display text of a saved file shows the name of the file and
    no directory: whatever the line, it holds no [/]. *)
Theorem saved_display_no_slash (self : LogParser.t) (line : pystr) :
  Str.strip line ≠ [] →
  Re.search (LogParser.saved_pattern self) (Str.strip line) = true →
  ∃ name st self',
    LogParser.process_line self line
      = Ok ((py "✅ FILE SAVED: " ++ name ++ [LF], st), self') ∧
    SLASH ∉ py "✅ FILE SAVED: " ++ name ++ [LF].
Proof.
  intros Hline Hsaved.
  destruct (process_line_cases self line Hline) as (text & self' & Hrun & _ & Hcase).
  rewrite Hsaved in Hcase. destruct Hcase as ((name & Hname & ->) & _).
  destruct (extract_filename_no_slash self (Str.strip line)) as (name' & Hname' & Hno).
  assert (name' = name) as -> by congruence.
  exists name, (LogParser._get_stats self'), self'. split.
  { rewrite Hrun. by rewrite <- app_assoc. }
  rewrite !not_elem_of_app. split; [|split; [done|]].
  - apply (bool_decide_unpack _). by vm_compute.
  - apply (bool_decide_unpack _). by vm_compute.
Qed.

End ParserExtras.

(** ** utils/file_manager.py *)

Section PathStrings.

Lemma split_loop_pieces (c : codepoint) (s cur : pystr) :
  c ∉ cur → Forall (fun piece => c ∉ piece) (Str.split_loop [c] 0 cur s).
Proof.
  revert cur. induction s as [|b s IH]; intros cur Hcur.
  - cbn. constructor; [|constructor].
    intros Hin. apply Hcur. by apply list_elem_of_In, in_rev, list_elem_of_In.
  - cbn [Str.split_loop]. rewrite startswith_single.
    destruct (N.eqb_spec c b) as [->|Hne].
    + cbn [length Nat.sub]. constructor.
      { intros Hin. apply Hcur. by apply list_elem_of_In, in_rev, list_elem_of_In. }
      apply IH. apply not_elem_of_nil.
    + apply IH. rewrite not_elem_of_cons. done.
Qed.

Lemma of_str_parts_valid (s : pystr) :
  Forall (fun c => Path.is_trivial c = false ∧ SLASH ∉ c) (Path.parts (Path.of_str s)).
Proof.
  unfold Path.of_str. cbn [Path.parts]. apply Forall_forall. intros c Hc.
  apply list_elem_of_In, filter_In in Hc as [Hin Htriv].
  split; [by destruct (Path.is_trivial c)|].
  pose proof (split_loop_pieces SLASH s [] (not_elem_of_nil _)) as Hall.
  rewrite Forall_forall in Hall. apply Hall. apply list_elem_of_In. exact Hin.
Qed.

End PathStrings.

Section LookupFacts.

Lemma walk_strict_loose (fs : gmap (list pystr) inode) (rest : list pystr) :
  ∀ cur, match FS.walk true fs cur rest with
         | FS.Broken _ => True
         | r => FS.walk false fs cur rest = r
         end.
Proof.
  induction rest as [|x rest IH]; intros cur; [done|].
  cbn [FS.walk].
  destruct (Path.is_trivial x); [apply IH|].
  destruct (bool_decide (x = py "..")); [apply IH|].
  destruct (fs !! (cur ++ [x])) as [[[| |t] mx]|]; try done.
  - cbn [andb]. destruct (negb _); [done|apply IH].
  - apply IH.
Qed.

Lemma follow_strict_loose (fs : gmap (list pystr) inode) (p : list pystr) :
  ∀ fuel cur rest, FS.follow fuel true fs cur rest = Ok p →
                   FS.follow fuel false fs cur rest = Ok p.
Proof.
  induction fuel as [|fuel IH]; intros cur rest Hfollow; cbn [FS.follow] in *.
  - pose proof (walk_strict_loose fs rest cur) as Hw.
    destruct (FS.walk true fs cur rest); try done. by rewrite Hw.
  - pose proof (walk_strict_loose fs rest cur) as Hw.
    destruct (FS.walk true fs cur rest); try done; rewrite Hw; [done|].
    by apply IH.
Qed.

(** What [locate] answers. *)
Lemma locate_inv (w : World) (p : Path.t) (d k : list pystr) :
  FS.locate w p = Ok (d, k) →
  ∃ name m, Path.parts p = removelast (Path.parts p) ++ [name] ∧
    name ≠ [] ∧ name ≠ py ".." ∧ k = d ++ [name] ∧
    FS.follow FS.MAXSYMLINKS true (w_fs w) (FS.start w p) (removelast (Path.parts p)) = Ok d ∧
    FS.entry (w_fs w) d = Some (Inode Dir m).
Proof.
  unfold FS.locate. intros H.
  destruct (Path.parts p) as [|x l] eqn:Hparts using rev_ind; [done|]. clear IHl.
  rewrite last_last, removelast_last in H. rewrite removelast_last.
  destruct x as [|c x]; [done|].
  case_bool_decide as Hdd; [done|].
  destruct (FS.follow _ _ _ _ _) as [d'| |] eqn:Hf; try done.
  cbn [mbind result_bind] in H.
  destruct (FS.entry (w_fs w) d') as [[[| |t] m]|] eqn:He; try done.
  injection H as <- <-. exists (c :: x), m. done.
Qed.

(** A directory that [locate] finds is where the path leads, with and
    without strictness. *)
Lemma locate_dir (w : World) (s : pystr) (d k : list pystr) (m : Z) :
  FS.locate w (Path.of_str s) = Ok (d, k) →
  w_fs w !! k = Some (Inode Dir m) →
  FS.lookup_path w (Path.of_str s) = Ok k ∧ FS.realpath w (Path.of_str s) = Ok k ∧
  FS.stat_at w (Path.of_str s) = Ok (Inode Dir m).
Proof.
  intros Hloc Hk.
  destruct (locate_inv _ _ _ _ Hloc) as (name & md & Hparts & Hne & Hdd & -> & Hf & Hd).
  assert (Hvalid : valid_name name).
  { pose proof (of_str_parts_valid s) as Hall. rewrite Hparts, Forall_app in Hall.
    destruct Hall as [_ Hlast]. apply Forall_singleton in Hlast as [Htriv Hslash].
    unfold Path.is_trivial in Htriv. apply orb_false_iff in Htriv as [_ Hdot].
    apply bool_decide_eq_false in Hdot. done. }
  assert (Hlook : FS.lookup_path w (Path.of_str s) = Ok (d ++ [name])).
  { unfold FS.lookup_path. rewrite Hparts.
    eapply follow_snoc; [done|exact Hd|exact Hk|done|exact Hf]. }
  split; [done|]. split.
  - unfold FS.realpath. by apply follow_strict_loose.
  - unfold FS.stat_at. rewrite Hlook. cbn [mbind result_bind].
    unfold FS.entry. destruct (d ++ [name]) eqn:Heq; [by destruct d|]. by rewrite Hk.
Qed.

End LookupFacts.

Section ClearFacts.

Lemma clear_temp_folder_cases (self : FileManager.t) (s : pystr) (w : World) :
  ∃ w', FileManager.clear_temp_folder self s w = ([], Ok tt, w') ∧
    same_but_fs_log w w' ∧
    (w_fs w' = w_fs w ∨
     ∃ temp d k m,
       FS.realpath w (FileManager.temp_dir self) = Ok temp ∧
       (∃ below, below ≠ [] ∧ k = temp ++ below) ∧
       FS.locate w (Path.of_str s) = Ok (d, k) ∧
       w_fs w !! k = Some (Inode Dir m) ∧
       w_fs w' = rmtree_fs w k).
Proof.
  unfold FileManager.clear_temp_folder, FS.resolve, FS.exists_, FS.is_dir, FS.rmtree,
    FS.log, FS.stat.
  gen_eval.
  destruct (FS.realpath w (FileManager.temp_dir self)) as [temp| |] eqn:Htemp;
    gen_eval; try (eexists; split; [reflexivity|]; split; [done|by left]).
  destruct (FS.realpath w (Path.of_str s)) as [q| |] eqn:Hq;
    gen_eval; try (eexists; split; [reflexivity|]; split; [done|by left]).
  destruct (Path.member _ _) eqn:Hmem; gen_eval;
    [|eexists; split; [reflexivity|]; split; [done|by left]].
  apply member_parents in Hmem.
  destruct (FS.stat_at w (Path.of_str s)) as [[[| |t] m]| |] eqn:Hstat;
    repeat progress (gen_eval; rewrite ?Hstat);
    try (eexists; split; [reflexivity|]; split; [done|by left]).
  pose proof (locate_comes_back w (Path.of_str s)) as Hback.
  destruct (FS.locate w (Path.of_str s)) as [[d k]| |] eqn:Hloc; [| |done];
    gen_eval; try (eexists; split; [reflexivity|]; split; [done|by left]).
  destruct (w_fs w !! k) as [[[| |t] mk]|] eqn:Hk;
    gen_eval; try (eexists; split; [reflexivity|]; split; [done|by left]).
  destruct (locate_dir w s d k mk Hloc Hk) as (_ & Hreal & _).
  assert (q = k) as -> by congruence.
  fold (rmtree_fs w k).
  destruct (FS.blocked w k); gen_eval.
  all: eexists; split; [reflexivity|]; split; [done|]; right.
  all: exists temp, d, k, mk; done.
Qed.

End ClearFacts.

Section ClearTheorems.

Lemma rmtree_fs_lookup (w : World) (k k' : list pystr) :
  rmtree_fs w k !! k' = w_fs w !! k' ∨
  (rmtree_fs w k !! k' = None ∧ k `prefix_of` k').
Proof.
  unfold rmtree_fs.
  destruct (w_fs w !! k') as [i|] eqn:Hfs.
  - destruct (decide (k `prefix_of` k')) as [Hpre|Hpre].
    + destruct (filter _ (w_fs w) !! k') as [x|] eqn:Hf; [|by right].
      apply map_lookup_filter_Some in Hf as [Hx _]. left. congruence.
    + left. apply map_lookup_filter_Some. split; [done|]. by left.
  - left. apply map_lookup_filter_None. by left.
Qed.

Lemma blocked_below (w : World) (k k' : list pystr) :
  k `prefix_of` k' → FS.blocked w k = false → FS.blocked w k' = false.
Proof.
  intros Hpre Hk. apply not_true_is_false. intros Hk'.
  apply not_true_iff_false in Hk. apply Hk.
  unfold FS.blocked in *. apply existsb_exists in Hk' as (kv & Hin & Hkv).
  apply existsb_exists. exists kv. split; [done|].
  apply andb_true_iff in Hkv as [Hp Hi]. apply bool_decide_eq_true in Hp.
  rewrite Hi, andb_true_r. apply bool_decide_eq_true. by etrans.
Qed.

(** X6. Whatever path it is given and whatever the state of the file system,
    [clear_temp_folder] returns normally, and the only entries it changes
    are entries strictly below the resolved temp directory, which it
    removes; the clock, the processes, the signals and the standard output
    are left alone. *)
Theorem clear_temp_folder_confined (self : FileManager.t) (s : pystr) (w : World) :
  ∃ w', FileManager.clear_temp_folder self s w = ([], Ok tt, w') ∧
    same_but_fs_log w w' ∧
    ∀ k, w_fs w' !! k ≠ w_fs w !! k →
      w_fs w' !! k = None ∧
      ∃ temp below, FS.realpath w (FileManager.temp_dir self) = Ok temp ∧
                    below ≠ [] ∧ k = temp ++ below.
Proof.
  destruct (clear_temp_folder_cases self s w) as (w' & Hrun & Hframe & Hfs).
  exists w'. split; [done|]. split; [done|]. intros k' Hdiff.
  destruct Hfs as [Hsame|(temp & d & k & m & Htemp & (below & Hne & ->) & _ & _ & Hfs)].
  { by rewrite Hsame in Hdiff. }
  rewrite Hfs in *.
  destruct (rmtree_fs_lookup w (temp ++ below) k') as [Heq|[Hnone [x ->]]]; [done|].
  split; [done|]. exists temp, (below ++ x). split; [done|].
  split; [by destruct below|]. by rewrite app_assoc.
Qed.

(** X7. Given a path that names a directory strictly below the resolved
    temp directory, with nothing write-protected in it, [clear_temp_folder]
    removes the directory and everything below it, keeps every other entry
    and logs the removal. *)
Theorem clear_temp_folder_inside (self : FileManager.t) (s : pystr) (w : World)
    (temp below d : list pystr) (m : Z) :
  FS.realpath w (FileManager.temp_dir self) = Ok temp →
  below ≠ [] →
  FS.locate w (Path.of_str s) = Ok (d, temp ++ below) →
  w_fs w !! (temp ++ below) = Some (Inode Dir m) →
  FS.blocked w (temp ++ below) = false →
  ∃ fs',
    FileManager.clear_temp_folder self s w =
      ([], Ok tt,
       set_log (set_fs w fs')
         (w_log w ++ [(FileManager.logger self, INFO,
                       py "Removed temp folder: " ++ Path.name (Path.of_str s))])) ∧
    ∀ k, fs' !! k = if bool_decide ((temp ++ below) `prefix_of` k) then None
                    else w_fs w !! k.
Proof.
  intros Htemp Hne Hloc Hk Hfree.
  destruct (locate_dir w s d _ m Hloc Hk) as (_ & Hreal & Hstat).
  exists (rmtree_fs w (temp ++ below)). split.
  - unfold FileManager.clear_temp_folder, FS.resolve, FS.exists_, FS.is_dir,
      FS.rmtree, FS.log.
    repeat progress (gen_eval; rewrite ?Htemp, ?Hreal, ?Hstat, ?Hloc, ?Hk, ?Hfree).
    assert (Hmem : Path.member (Path.Build (py "/") temp)
                     (Path.parents (Path.Build (py "/") (temp ++ below))) = true).
    { apply member_parents. by exists below. }
    rewrite Hmem.
    repeat progress (gen_eval; rewrite ?Htemp, ?Hreal, ?Hstat, ?Hloc, ?Hk, ?Hfree).
    reflexivity.
  - intros k. unfold rmtree_fs. case_bool_decide as Hpre.
    + apply map_lookup_filter_None. right. intros i Hi [Hno|Hb]; [done|].
      cbn [fst] in Hb. by rewrite (blocked_below w _ k Hpre Hfree) in Hb.
    + destruct (w_fs w !! k) as [i|] eqn:Hi.
      * apply map_lookup_filter_Some. split; [done|]. by left.
      * apply map_lookup_filter_None. by left.
Qed.

End ClearTheorems.

Section SweepSafety.

Lemma only_zip_removed_refl (w : World) : only_zip_removed w w.
Proof. repeat split; done. Qed.

Lemma only_zip_removed_trans (w1 w2 w3 : World) :
  only_zip_removed w1 w2 → only_zip_removed w2 w3 → only_zip_removed w1 w3.
Proof.
  intros (? & ? & ? & ? & ? & ? & H12) (? & ? & ? & ? & ? & ? & H23).
  do 6 (split; [congruence|]). intros k Hdiff.
  destruct (decide (w_fs w2 !! k = w_fs w1 !! k)) as [Heq|Hne].
  - rewrite <- Heq in *. by apply H23.
  - destruct (H12 k Hne) as [Hnone Hwas]. split; [|done].
    destruct (decide (w_fs w3 !! k = w_fs w2 !! k)) as [Heq|Hne2]; [congruence|].
    by destruct (H23 k Hne2).
Qed.

Lemma only_zip_removed_log (w : World) lg : only_zip_removed w (set_log w lg).
Proof. repeat split; done. Qed.

Lemma only_zip_removed_stdout (w : World) out : only_zip_removed w (set_stdout w out).
Proof. repeat split; done. Qed.

Lemma startswith_before (c : codepoint) (p a b : pystr) :
  c ∉ p → Str.startswith (a ++ c :: b) p = true → Str.startswith a p = true.
Proof.
  revert a. induction p as [|x p IH]; intros a Hc H; [done|].
  apply not_elem_of_cons in Hc as [Hne Hc].
  destruct a as [|y a]; cbn in *.
  - apply andb_true_iff in H as [Hx _]. apply N.eqb_eq in Hx. congruence.
  - apply andb_true_iff in H as [Hx H]. rewrite Hx. cbn. by apply IH.
Qed.

(** The name of [p / n] ends in [.zip] when [n] does. *)
Lemma joinpath_zip_name (p : Path.t) (n : pystr) :
  Str.endswith n (py ".zip") = true →
  Str.endswith (Path.name (Path.joinpath p n)) (py ".zip") = true.
Proof.
  intros Hzip.
  assert (Hlast : ∃ name, last (Path.components n) = Some name ∧
                          Str.endswith name (py ".zip") = true).
  { unfold Path.components. rewrite py_slash.
    destruct (split_loop_last SLASH n []) as (name & Hl & [[_ ->]|[Hno [pre ->]]]).
    - exists n. done.
    - exists name. split; [done|]. unfold Str.endswith in *.
      rewrite rev_app_distr in Hzip. cbn [rev] in Hzip. rewrite <- app_assoc in Hzip.
      cbn [app] in Hzip. eapply startswith_before; [|exact Hzip].
      apply (bool_decide_unpack _). by vm_compute. }
  destruct Hlast as (name & Hl & Hname).
  assert (Hparts : ∃ l, Path.parts (Path.of_str n) = l ++ [name]).
  { unfold Path.of_str. cbn [Path.parts].
    destruct (Path.components n) as [|x l] using rev_ind; [done|]. clear IHl.
    rewrite last_snoc in Hl. injection Hl as ->.
    rewrite List.filter_app. cbn [List.filter].
    destruct (endswith_zip_name name Hname) as (Hne & Hdot & _).
    unfold Path.is_trivial. rewrite !bool_decide_eq_false_2 by done. cbn.
    by eexists. }
  destruct Hparts as [l Hparts].
  unfold Path.name, Path.joinpath.
  destruct (Path.root (Path.of_str n)); cbn [Path.parts]; rewrite Hparts.
  - by rewrite app_assoc, last_last.
  - by rewrite last_last.
Qed.


Lemma unlink_effect (p : Path.t) (w : World) :
  Str.endswith (Path.name p) (py ".zip") = true →
  ∃ r w', FS.unlink (Y := void) p w = ([], r, w') ∧ r ≠ Diverge ∧ only_zip_removed w w'.
Proof.
  intros Hzip. unfold FS.unlink. gen_eval.
  pose proof (locate_comes_back w p) as Hback.
  destruct (FS.locate w p) as [[d k]| |] eqn:Hloc; [| |done]; gen_eval;
    [|eexists _, _; split; [done|]; split; [done|apply only_zip_removed_refl]].
  destruct (w_fs w !! k) as [[kd mk]|] eqn:Hk; gen_eval;
    [|eexists _, _; split; [done|]; split; [done|apply only_zip_removed_refl]].
  assert (Hname : List.last k [] = Path.name p).
  { unfold FS.locate in Hloc. unfold Path.name.
    destruct (List.last (Path.parts p) []) as [|c x] eqn:Hl; [done|].
    case_bool_decide; [done|].
    destruct (FS.follow _ _ _ _ _) as [d'| |]; try done.
    cbn [mbind result_bind] in Hloc.
    destruct (FS.entry (w_fs w) d') as [[[| |t] m]|]; try done.
    injection Hloc as <- <-. by rewrite last_last. }
  destruct kd as [| |t]; gen_eval.
  2: eexists _, _; split; [done|]; split; [done|apply only_zip_removed_refl].
  all: case_bool_decide; gen_eval;
    [eexists _, _; split; [done|]; split; [done|apply only_zip_removed_refl]|].
  all: eexists _, _; split; [done|]; split; [done|].
  all: do 6 (split; [done|]); intros k' Hdiff; cbn [w_fs set_fs] in *.
  all: destruct (decide (k' = k)) as [->|Hne];
    [|by rewrite lookup_delete_ne in Hdiff].
  all: rewrite lookup_delete_eq; split; [done|].
  all: eexists; split; [done|]; split; [done|]; rewrite <- Hname in Hzip; exact Hzip.
Qed.

Lemma sweep_effect (self : FileManager.t) (now age : Z) (files : list Path.t) :
  Forall (fun p => Str.endswith (Path.name p) (py ".zip") = true) files →
  ∀ (count : Z) (w : World),
  ∃ r w', FileManager.sweep self now age files count w = ([], r, w') ∧
          r ≠ Diverge ∧ only_zip_removed w w'.
Proof.
  induction 1 as [|p files Hp _ IH]; intros count w.
  { eexists _, _. split; [done|]. split; [done|apply only_zip_removed_refl]. }
  cbn [FileManager.sweep]. unfold FS.stat, FS.log. gen_eval.
  assert (Hstat : FS.stat_at w p ≠ Diverge).
  { unfold FS.stat_at, FS.lookup_path.
    pose proof (follow_comes_back FS.MAXSYMLINKS true (w_fs w) (FS.start w p)
                  (Path.parts p)) as Hf.
    destruct (FS.follow _ _ _ _ _); try done. cbn [mbind result_bind].
    by destruct (FS.entry _ _). }
  destruct (FS.stat_at w p) as [st| |]; [| |done]; gen_eval;
    [|eexists _, _; split; [done|]; split; [done|apply only_zip_removed_refl]].
  destruct (age <? now - st_mtime st)%Z; cycle 1.
  { destruct (IH count w) as (r & w' & Hrun & Hr & Hrel). rewrite Hrun.
    by exists r, w'. }
  destruct (unlink_effect p w Hp) as (r1 & w1 & Hun & Hr1 & Hrel1).
  rewrite Hun. destruct r1 as [[]|e|]; [| |done]; gen_eval.
  - match goal with |- context [FileManager.sweep _ _ _ _ ?c1 ?w2] =>
      destruct (IH c1 w2) as (r & w' & Hrun & Hr & Hrel) end.
    rewrite Hrun. exists r, w'. split; [by destruct r|]. split; [done|].
    eapply only_zip_removed_trans; [|exact Hrel].
    eapply only_zip_removed_trans; [exact Hrel1|apply only_zip_removed_log].
  - match goal with |- context [FileManager.sweep _ _ _ _ ?c1 ?w2] =>
      destruct (IH c1 w2) as (r & w' & Hrun & Hr & Hrel) end.
    rewrite Hrun. exists r, w'. split; [by destruct r|]. split; [done|].
    eapply only_zip_removed_trans; [|exact Hrel].
    eapply only_zip_removed_trans; [exact Hrel1|apply only_zip_removed_log].
Qed.

Lemma glob_star_zip (p : Path.t) (w : World) :
  ∃ files, FS.glob_star (Y := void) p (py ".zip") w = ([], Ok files, w) ∧
    Forall (fun q => Str.endswith (Path.name q) (py ".zip") = true) files.
Proof.
  unfold FS.glob_star. gen_eval.
  destruct (FS.stat_at w p) as [[[| |t] m]| |];
    try (exists []; split; [done|constructor]).
  destruct (FS.lookup_path w p) as [d| |];
    try (exists []; split; [done|constructor]).
  eexists. split; [reflexivity|].
  apply Forall_forall. intros q Hq. apply list_elem_of_omap in Hq as (kv & _ & Hkv).
  destruct (FS.matches_star d (py ".zip") kv.1) eqn:Hm; [|done].
  injection Hkv as <-. apply joinpath_zip_name.
  unfold FS.matches_star in Hm. by apply andb_true_iff in Hm as [_ Hm].
Qed.

(** How the sweep ends. *)
Lemma cleanup_old_files_effect
    (self : FileManager.t) (max_age_minutes : Z) (w : World) :
  ∃ w', FileManager.cleanup_old_files self max_age_minutes w = ([], Ok tt, w') ∧
        only_zip_removed w w'.
Proof.
  unfold FileManager.cleanup_old_files, FS.exists_, FS.time, FS.print, FS.log.
  gen_eval.
  destruct (match FS.stat_at w (FileManager.zip_dir self) with Ok _ => true | _ => false end);
    cbn [negb]; gen_eval;
    [|eexists; split; [done|apply only_zip_removed_refl]].
  destruct (glob_star_zip (FileManager.zip_dir self) w) as (files & Hglob & Hfiles).
  rewrite Hglob. gen_eval.
  destruct (sweep_effect self (w_clock w) (max_age_minutes * 60)%Z files Hfiles 0%Z w)
    as (r & w1 & Hrun & Hr & Hrel).
  rewrite Hrun.
  destruct r as [count|e|]; [| |done]; gen_eval.
  - destruct (0 <? count)%Z; gen_eval; eexists; (split; [done|]); [|done].
    eapply only_zip_removed_trans; [exact Hrel|apply only_zip_removed_stdout].
  - eexists; split; [done|].
    eapply only_zip_removed_trans; [exact Hrel|apply only_zip_removed_log].
Qed.


End SweepSafety.

(** ** core/engine.py *)

Section DomainFacts.
Context {L : Library}.




End DomainFacts.

Section StopFacts.
Context {Y : Type}.

(** X10. [stop] on a running process asks it to terminate first and kills it
    only when it has not exited in time: one SIGTERM is sent, followed by
    one SIGKILL exactly for a child that ignores the first; the child has
    exited afterwards, the handle is dropped, the partial mirror is cleared
    through [cleanup_partial_files], and no exception comes out. *)
Theorem stop_running (self : WgetEngine.t) (w : World) (pid : nat)
    (c : child (gmap (list pystr) inode)) :
  WgetEngine.process self = Some pid →
  Subprocess.child_at w pid = Some c →
  c_status c = Running →
  ∃ wk w',
    WgetEngine.stop (Y := Y) (self, w) = ([], Ok tt, (WgetEngine.set_process self None, w')) ∧
    w_signals wk =
      w_signals w ++ (pid, SIGTERM) ::
        match c_on_term c with Some _ => [] | None => [(pid, SIGKILL)] end ∧
    Subprocess.child_at wk pid =
      Some (Subprocess.exited c (default (-9)%Z (c_on_term c))) ∧
    w_fs wk = w_fs w ∧ w_log wk = w_log w ∧
    WgetEngine.cleanup_partial_files (Y := Y) (WgetEngine.set_process self None, wk)
      = ([], Ok tt, (WgetEngine.set_process self None, w')).
Proof.
  intros Hproc Hc Hrun.
  assert (Hfin : ∀ w1, ∃ w2,
    WgetEngine.cleanup_partial_files (Y := Y) (WgetEngine.set_process self None, w1)
    = ([], Ok tt, (WgetEngine.set_process self None, w2))).
  { intros w1.
    destruct (cleanup_partial_files_returns (Y := Y) (WgetEngine.set_process self None) w1)
      as (w2 & Hw2 & _). by exists w2. }
  pose proof (lookup_lt_Some _ _ _ Hc) as Hlt.
  unfold Subprocess.child_at in Hc.
  destruct c as [st out rest code wr ot]. cbn [c_status] in Hrun. subst st.
  engine_unfold. gen_eval. rewrite Hproc. gen_eval. rewrite Hc. gen_eval.
  destruct ot as [rc|].
  - repeat progress (gen_eval; rewrite ?Hproc, ?Hc;
                     cbn [is_timeout_expired exn_type]).
    match goal with |- context [WgetEngine.cleanup_partial_files (_, ?w1)] =>
      destruct (Hfin w1) as [w2 Hw2]; exists w1, w2; rewrite Hw2 end.
    gen_eval. split; [done|]. rec_simpl. split; [done|].
    split; [by rewrite list_lookup_insert_eq|]. done.
  - repeat progress (gen_eval; rewrite ?Hproc, ?Hc, ?list_lookup_insert_eq by done;
                     cbn [is_timeout_expired exn_type]).
    match goal with |- context [WgetEngine.cleanup_partial_files (_, ?w1)] =>
      destruct (Hfin w1) as [w2 Hw2]; exists w1, w2; rewrite Hw2 end.
    gen_eval. split; [done|]. rec_simpl. split; [by rewrite <- app_assoc|].
    split; [by rewrite list_lookup_insert_eq|]. done.
Qed.

End StopFacts.

Section DownloadMore.
Context {L : Library}.

(** [download] when the command cannot be started. *)
Lemma download_unlaunched (url : pystr) (self : WgetEngine.t) (w : World)
    (domain : pystr) :
  WgetEngine._get_domain_from_url url = Ok domain →
  WgetEngine.base_dir self ≠ [] →
  let dir := os_path_join (WgetEngine.base_dir self) domain in
  let w1 := if FS.path_exists w dir
            then (FileManager.clear_temp_folder (WgetEngine.fm self) dir w).2
            else w in
  w_launch w1 (wget_command (WgetEngine.base_dir self) url) = None →
  let self' := WgetEngine.set_process
                 (WgetEngine.set_current_website_dir self (Some dir)) None in
  let items :=
    (if FS.path_exists w dir
     then [(py "[Engine] Cleaning old directory: " ++ domain ++ py "..." ++ [LF], None)]
     else [])
    ++ [(py "[Engine] Starting download for: " ++ domain ++ [LF], None);
        (py "[Engine] Command: "
           ++ Str.join (py " ") (wget_command (WgetEngine.base_dir self) url) ++ [LF],
         None)] in
  WgetEngine.download url (self, w) =
    (items ++ [(LF :: py "[Engine] Critical Exception: "
                   ++ py "No such file or directory: wget" ++ [LF], None)],
     Ok tt,
     (self', (FileManager.clear_temp_folder (WgetEngine.fm self) dir w1).2)).
Proof.
  intros Hdom Hbase dir w1 Hlaunch self' items.
  assert (Hw1 : ∃ w1', w1 = w1' ∧
            (FS.path_exists w dir = true →
             FileManager.clear_temp_folder (WgetEngine.fm self) dir w = ([], Ok tt, w1')) ∧
            (FS.path_exists w dir = false → w1' = w)).
  { unfold w1. destruct (FS.path_exists w dir).
    - destruct (clear_temp_folder_returns (WgetEngine.fm self) dir w) as [w1' Hw1'].
      exists w1'. rewrite Hw1'. done.
    - by exists w. }
  destruct Hw1 as (w1' & Hw1 & Hclean & Hkeep). clearbody w1. subst w1.
  unfold wget_command in Hlaunch.
  destruct (clear_temp_folder_returns (WgetEngine.fm self) dir w1') as [w3 Hw3].
  rewrite Hw3. cbn [snd].
  unfold WgetEngine.download.
  unfold lift_result at 1. gen_simpl. rewrite Hdom. gen_simpl.
  unfold WgetEngine.self_ at 1, WgetEngine.set_self at 1, WgetEngine.os at 1,
    FS.os_path_exists at 1.
  gen_eval. fold dir.
  assert (Hdir : ∃ ch d, dir = ch :: d) by apply (os_path_join_nonempty _ domain Hbase).
  unfold self', items. clear self' items. clearbody dir.
  destruct Hdir as (ch & d & ->).
  destruct (FS.path_exists w (ch :: d)) eqn:Hex.
  1: specialize (Hclean eq_refl); unfold WgetEngine.os at 1; gen_eval; rewrite Hclean.
  2: specialize (Hkeep eq_refl); subst w1'.
  all: gen_eval.
  all: unfold WgetEngine.os at 1, Subprocess.Popen; gen_eval; rewrite Hlaunch; gen_eval.
  all: unfold WgetEngine.cleanup_partial_files, WgetEngine.self_, WgetEngine.os,
         WgetEngine.set_self; gen_eval.
  all: rewrite Hw3; gen_eval.
  all: reflexivity.
Qed.



(** X11. When wget cannot be started, [download] reports it in its last
    item, which carries no directory, clears the target directory through
    [clear_temp_folder], drops the handle and returns normally. *)
Theorem download_launch_failure (url : pystr) (self : WgetEngine.t) (w : World)
    (domain : pystr) :
  WgetEngine._get_domain_from_url url = Ok domain →
  WgetEngine.base_dir self ≠ [] →
  let dir := os_path_join (WgetEngine.base_dir self) domain in
  let w1 := if FS.path_exists w dir
            then (FileManager.clear_temp_folder (WgetEngine.fm self) dir w).2
            else w in
  w_launch w1 (wget_command (WgetEngine.base_dir self) url) = None →
  ∃ e items,
    exn_type e = FileNotFoundError ∧
    Forall (λ it : WgetEngine.item, it.2 = None) items ∧
    WgetEngine.download url (self, w) =
      (items ++ [(LF :: py "[Engine] Critical Exception: " ++ exn_str e ++ [LF], None)],
       Ok tt,
       (WgetEngine.set_process (WgetEngine.set_current_website_dir self (Some dir)) None,
        (FileManager.clear_temp_folder (WgetEngine.fm self) dir w1).2)).
Proof.
  intros Hdom Hbase dir w1 Hlaunch.
  exists (Exn FileNotFoundError (py "No such file or directory: wget")).
  pose proof (download_unlaunched url self w domain Hdom Hbase Hlaunch) as Hrun.
  cbv zeta in Hrun. fold dir in Hrun. fold w1 in Hrun.
  eexists. split; [done|]. split; [|exact Hrun].
  rewrite Forall_app. split; [|repeat constructor].
  destruct (FS.path_exists w dir); repeat constructor.
Qed.



End DownloadMore.

(** ** core/zipper.py *)

Section OsPathFacts.

Lemma until_slash_app (a b : pystr) :
  SLASH ∉ a → (b = [] ∨ ∃ b', b = SLASH :: b') → until_slash (a ++ b) = a.
Proof.
  intros Ha Hb. induction a as [|c a IH]; cbn [app until_slash].
  - by destruct Hb as [->|[b' ->]].
  - apply not_elem_of_cons in Ha as [Hc Ha].
    destruct (N.eqb_spec c SLASH); [congruence|]. by rewrite IH.
Qed.

(** [os.path.basename] of a string that ends with a slash-free name after
    a slash, or that is such a name. *)
Lemma basename_last (pre name : pystr) :
  SLASH ∉ name → (pre = [] ∨ ∃ p, pre = p ++ [SLASH]) →
  os_path_basename (pre ++ name) = name.
Proof.
  intros Hname Hpre. unfold os_path_basename. rewrite rev_app_distr.
  rewrite until_slash_app; [apply rev_involutive| |].
  - intros Hin. apply Hname. by apply list_elem_of_In, in_rev, list_elem_of_In.
  - destruct Hpre as [->|[p ->]]; [by left|right].
    rewrite rev_app_distr. by eexists.
Qed.

Lemma split_loop_snoc (c : codepoint) (s t cur : pystr) :
  c ∉ t →
  Str.split_loop [c] 0 cur (s ++ c :: t) = Str.split_loop [c] 0 cur s ++ [t].
Proof.
  intros Ht. revert cur. induction s as [|b s IH]; intros cur.
  - cbn [app Str.split_loop]. rewrite startswith_single, N.eqb_refl.
    cbn [length Nat.sub]. by rewrite split_loop_no_sep.
  - cbn [app Str.split_loop]. rewrite !startswith_single.
    destruct (c =? b); cbn [length Nat.sub]; by rewrite IH.
Qed.

Lemma normpath_loop_snoc (rooted : bool) (name : pystr) (comps : list pystr) :
  Path.is_trivial name = false → name ≠ py ".." →
  ∀ acc, normpath_loop rooted acc (comps ++ [name])
         = normpath_loop rooted acc comps ++ [name].
Proof.
  intros Htriv Hdd. induction comps as [|x comps IH]; intros acc.
  - cbn [app normpath_loop]. rewrite Htriv, bool_decide_eq_false_2 by done. done.
  - cbn [app normpath_loop]. destruct (Path.is_trivial x); [apply IH|].
    destruct (_ || _); apply IH.
Qed.

Lemma join_snoc (sep d : pystr) (xs : list pystr) :
  xs ≠ [] → Str.join sep (xs ++ [d]) = Str.join sep xs ++ sep ++ d.
Proof.
  induction xs as [|x xs IH]; [done|]. intros _.
  destruct xs as [|y xs]; [done|].
  change (Str.join sep ((x :: y :: xs) ++ [d]))
    with (x ++ sep ++ Str.join sep ((y :: xs) ++ [d])).
  rewrite IH by done.
  change (Str.join sep (x :: y :: xs)) with (x ++ sep ++ Str.join sep (y :: xs)).
  by rewrite <- !app_assoc.
Qed.

Lemma root_of_slashes (s : pystr) :
  Path.root_of s = [] ∨ ∃ p, Path.root_of s = p ++ [SLASH].
Proof.
  unfold Path.root_of. destruct (_ && _); [right; by exists [SLASH]|].
  destruct (Str.startswith s (py "/")); [right; by exists []|by left].
Qed.

(** [os.path.join(base, name)] for a name without a slash. *)
Lemma os_path_join_name (base name : pystr) :
  SLASH ∉ name → base ≠ [] → ∃ pre, os_path_join base name = pre ++ SLASH :: name.
Proof.
  intros Hname Hbase. unfold os_path_join.
  assert (Str.startswith name (py "/") = false) as ->.
  { rewrite py_slash, startswith_single. destruct name as [|b name]; [done|].
    apply N.eqb_neq. intros <-. apply Hname. left. }
  rewrite bool_decide_eq_false_2 by done. cbn [orb].
  rewrite py_slash, startswith_single.
  destruct (rev base) as [|b r] eqn:Hrev.
  { apply (f_equal (@rev _)) in Hrev. rewrite rev_involutive in Hrev. done. }
  destruct (N.eqb_spec SLASH b) as [<-|Hne].
  - exists (rev r). apply (f_equal (@rev _)) in Hrev. rewrite rev_involutive in Hrev.
    rewrite Hrev. cbn [rev]. by rewrite <- app_assoc.
  - by exists base.
Qed.

(** The two names [compress] derives from the path of a mirror. *)
Lemma mirror_names (base name : pystr) :
  valid_name name → base ≠ [] →
  os_path_basename (os_path_normpath (os_path_join base name)) = name ∧
  os_path_basename (os_path_join base name) = name.
Proof.
  intros Hvalid Hbase. destruct (valid_name_not_trivial name Hvalid) as [Htriv Hdd].
  apply bool_decide_eq_false in Hdd. destruct Hvalid as (Hne & _ & _ & Hslash).
  destruct (os_path_join_name base name Hslash Hbase) as [pre ->]. split.
  - unfold os_path_normpath, Path.components. rewrite py_slash.
    rewrite split_loop_snoc by done.
    rewrite normpath_loop_snoc by done.
    set (rooted := negb _). set (xs := normpath_loop rooted [] _).
    set (slashes := Path.root_of _).
    assert (Hbody : ∃ p, (p = [] ∨ ∃ q, p = q ++ [SLASH]) ∧
                         slashes ++ Str.join [SLASH] (xs ++ [name]) = p ++ name).
    { destruct xs as [|x xs'] eqn:Hxs.
      - exists slashes. split; [apply root_of_slashes|done].
      - rewrite join_snoc by done. exists (slashes ++ Str.join [SLASH] (x :: xs') ++ [SLASH]).
        split; [right; eexists; by rewrite app_assoc|]. by rewrite <- !app_assoc. }
    destruct Hbody as (p & Hp & ->).
    destruct (p ++ name) as [|c r] eqn:Hpn.
    { destruct p, name; done. }
    rewrite <- Hpn. by apply basename_last.
  - change (pre ++ SLASH :: name) with (pre ++ [SLASH] ++ name). rewrite app_assoc.
    apply basename_last; [done|]. right. by eexists.
Qed.

End OsPathFacts.

Section ZipFacts.
Context {L : Library}.

(** X13. [compress] raises in two ways only: [FileNotFoundError] when the
    source does not exist, and then nothing has happened; otherwise an
    [Exception] whose text is [Compression failed: ] followed by the
    text of what [make_archive] raised. *)
Theorem compress_errors (self : ZipEngine.t) (source_dir : pystr) (w w' : World)
    (ys : list void) (e : exn) :
  ZipEngine.compress self source_dir w = (ys, Raise e, w') →
  (FS.path_exists w source_dir = false ∧ w' = w ∧
   e = Exn FileNotFoundError (py "Source directory not found: " ++ source_dir)) ∨
  (FS.path_exists w source_dir = true ∧ exn_type e = Exception ∧
   ∃ cause, exn_str e = py "Compression failed: " ++ exn_str cause).
Proof.
  unfold ZipEngine.compress, FS.os_path_exists, FS.time. gen_eval.
  destruct (FS.path_exists w source_dir); cbn [negb]; gen_eval.
  2: { intros [= <- <- <-]. by left. }
  destruct (FS.path_exists w _); gen_eval.
  all: match goal with |- context [make_archive ?a ?b ?c ?w0] =>
         destruct (make_archive a b c w0) as [[ys0 [z|cause|]] w0'] end.
  all: gen_eval; intros Hrun; try done.
  all: injection Hrun as <- <- <-; right; split; [done|]; split; [done|by exists cause].
Qed.

(** X14. The archive of the mirror [base/name] is named after the mirror:
    [compress] has [make_archive] write [output_dir/name], or
    [output_dir/name_<time>] when [output_dir/name.zip] exists already, and
    put the folder [name] into it. *)
Theorem compress_archive_name (self : ZipEngine.t) (base name : pystr) (w : World) :
  valid_name name → base ≠ [] →
  FS.path_exists w (os_path_join base name) = true →
  ZipEngine.compress self (os_path_join base name) w =
    try_catch any_exception
      (make_archive
         (if FS.path_exists w (os_path_join (ZipEngine.output_dir self) name ++ py ".zip")
          then os_path_join (ZipEngine.output_dir self) name ++ py "_"
                 ++ str_of_int (w_clock w)
          else os_path_join (ZipEngine.output_dir self) name)
         (os_path_dirname (os_path_join base name)) name)
      (fun e => raise (Exn Exception (py "Compression failed: " ++ exn_str e))) w.
Proof.
  intros Hvalid Hbase Hexists.
  destruct (mirror_names base name Hvalid Hbase) as [Hnorm Hbasename].
  unfold ZipEngine.compress, FS.os_path_exists, FS.time.
  gen_eval. rewrite Hexists. cbn [negb]. gen_eval. rewrite Hnorm, Hbasename.
  destruct (FS.path_exists w (os_path_join (ZipEngine.output_dir self) name ++ py ".zip"));
    gen_eval.
  all: match goal with |- context [make_archive ?a ?b ?c ?w0] =>
         destruct (make_archive a b c w0) as [[ys0 [z|cause|]] w0'] end.
  all: gen_eval; by rewrite ?app_nil_r.
Qed.

End ZipFacts.

(** ** app.py *)

Section JobFacts.
Context {U : UnicodeData} {L : Library}.














Section WithLibrary.
Hypothesis urlparse_returns : ∀ url, urlparse url ≠ Diverge.
Hypothesis make_archive_returns : ∀ a b c, comes_back (make_archive a b c).












End WithLibrary.


End JobFacts.

Section GuardFacts.
Context {U : UnicodeData} {L : Library}.

(** X16. The guard of [process_download] looks at the first four characters
    of the input and at nothing else.  An input that does not begin with
    [http] gets the one update that reports it, and the world is left as it
    is; for an input that begins with [http], whatever follows, the job
    starts: its first update is the one that announces the engine. *)
Theorem process_download_guard (url : pystr) (w : World) :
  (take 4 url ≠ py "http" →
   App.process_download url w =
     ([(py "❌ Error: Please enter a valid URL (http/https).", 0%Z, 0%Z, None,
        py "Invalid URL")],
      Ok tt, w)) ∧
  (take 4 url = py "http" →
   ∃ ys r w',
     App.process_download url w =
       ((py "🚀 Initializing download engine..." ++ [LF], 0%Z, 0%Z, None,
         py "Starting...") :: ys, r, w')).
Proof.
  split.
  - intros Hprefix. apply process_download_rejects.
    apply not_true_is_false. intros Hstarts. apply Hprefix.
    by apply (startswith_take url (py "http")).
  - intros Hprefix. apply (startswith_take url (py "http")) in Hprefix.
    unfold App.process_download. rewrite Hprefix. cbn [negb].
    assert (Hengine : ∃ engine, WgetEngine.__init__ FileManager.default = Ok engine)
      by (eexists; reflexivity).
    assert (Hzipper : ∃ zipper, ZipEngine.__init__ FileManager.default = Ok zipper)
      by (eexists; reflexivity).
    destruct Hengine as (engine & ->). destruct Hzipper as (zipper & ->).
    unfold lift_result, zoom, App.run_job.
    unfold mbind, gen_bind, gbind, yield at 1. cbv beta iota.
    match goal with |- context [try_finally ?b ?f ?s] =>
      destruct (try_finally b f s) as [[ys r] s'] end.
    by eexists _, _, _.
Qed.

End GuardFacts.

(** ** Start-up: FileManager.initialize *)

Section MkdirFacts.

Lemma only_dirs_added_refl (w : World) : only_dirs_added w w.
Proof. do 7 (split; [done|]). split; [done|]. intros k i Hk. by left. Qed.

Lemma only_dirs_added_trans (w1 w2 w3 : World) :
  only_dirs_added w1 w2 → only_dirs_added w2 w3 → only_dirs_added w1 w3.
Proof.
  intros (? & ? & Hc & ? & ? & ? & ? & Hk12 & Hn12) (? & ? & ? & ? & ? & ? & ? & Hk23 & Hn23).
  do 7 (split; [congruence|]). split.
  - intros k i Hk. by apply Hk23, Hk12.
  - intros k i Hk. destruct (Hn23 k i Hk) as [Hold|[Hnone ->]].
    + by apply Hn12.
    + right. rewrite Hc. split; [|done].
      destruct (w_fs w1 !! k) as [j|] eqn:Hwas; [|done].
      apply Hk12 in Hwas. congruence.
Qed.

Lemma only_dirs_added_log (w : World) lg : only_dirs_added w (set_log w lg).
Proof. do 7 (split; [done|]). split; [done|]. intros k i Hk. by left. Qed.

Lemma mkdir_effect (p : Path.t) (w : World) :
  ∃ r w', FS.mkdir (Y := void) p w = ([], r, w') ∧ r ≠ Diverge ∧
    match r with
    | Ok _ =>
        ∃ name d m, Path.parts p = removelast (Path.parts p) ++ [name] ∧
          Path.is_trivial name = false ∧ name ≠ py ".." ∧
          FS.follow FS.MAXSYMLINKS true (w_fs w) (FS.start w p)
            (removelast (Path.parts p)) = Ok d ∧
          FS.entry (w_fs w) d = Some (Inode Dir m) ∧
          w_fs w !! (d ++ [name]) = None ∧
          w' = set_fs w (<[d ++ [name] := Inode Dir (w_clock w)]> (w_fs w))
    | _ => w' = w
    end.
Proof.
  unfold FS.mkdir. gen_eval.
  destruct (Path.parts p) as [|x l] eqn:Hparts using rev_ind.
  { cbn. by eexists _, _. }
  clear IHl. rewrite last_last, removelast_last.
  destruct x as [|c x]; [by eexists _, _|].
  pose proof (follow_comes_back FS.MAXSYMLINKS true (w_fs w) (FS.start w p) l) as Hf.
  destruct (FS.follow _ _ _ _ _) as [d| |] eqn:Hfollow; [| |done]; gen_eval;
    [|by eexists _, _].
  destruct (FS.entry (w_fs w) d) as [[[| |t] m]|] eqn:Hd; gen_eval;
    try by eexists _, _.
  destruct (Path.is_trivial (c :: x)) eqn:Htriv; cbn [orb]; [by eexists _, _|].
  case_bool_decide as Hdd; [by eexists _, _|].
  destruct (w_fs w !! (d ++ [c :: x])) as [i|] eqn:Hk; gen_eval; [by eexists _, _|].
  eexists _, _. split; [reflexivity|]. split; [done|].
  exists (c :: x), d, m. done.
Qed.

Lemma mkdir_adds (p : Path.t) (w : World) :
  ∃ r w', FS.mkdir (Y := void) p w = ([], r, w') ∧ r ≠ Diverge ∧ only_dirs_added w w'.
Proof.
  destruct (mkdir_effect p w) as (r & w' & Hrun & Hr & Heff).
  exists r, w'. split; [done|]. split; [done|].
  destruct r as [[]|e|]; [|subst; apply only_dirs_added_refl|done].
  destruct Heff as (name & d & m & _ & _ & _ & _ & _ & Hnone & ->).
  do 7 (split; [done|]). cbn [w_fs set_fs]. split.
  - intros k i Hk. rewrite lookup_insert_ne; [done|]. intros <-. congruence.
  - intros k i Hk. destruct (decide (d ++ [name] = k)) as [<-|Hne].
    + rewrite lookup_insert_eq in Hk. injection Hk as <-. by right.
    + rewrite lookup_insert_ne in Hk by done. by left.
Qed.


Lemma walk_more (fs fs' : gmap (list pystr) inode) (rest : list pystr) :
  (∀ k i, fs !! k = Some i → fs' !! k = Some i) →
  ∀ cur, match FS.walk true fs cur rest with
         | FS.Broken _ => True
         | r => FS.walk true fs' cur rest = r
         end.
Proof.
  intros Hsub. induction rest as [|x rest IH]; intros cur; [done|].
  cbn [FS.walk].
  destruct (Path.is_trivial x); [apply IH|].
  destruct (bool_decide (x = py "..")); [apply IH|].
  destruct (fs !! (cur ++ [x])) as [[[| |t] mx]|] eqn:Hx; [| | |done].
  - rewrite (Hsub _ _ Hx). destruct (true && _); [done|apply IH].
  - rewrite (Hsub _ _ Hx). apply IH.
  - by rewrite (Hsub _ _ Hx).
Qed.

Lemma follow_more (fs fs' : gmap (list pystr) inode) (p : list pystr) :
  (∀ k i, fs !! k = Some i → fs' !! k = Some i) →
  ∀ fuel cur rest, FS.follow fuel true fs cur rest = Ok p →
                   FS.follow fuel true fs' cur rest = Ok p.
Proof.
  intros Hsub. induction fuel as [|fuel IH]; intros cur rest Hfollow;
    cbn [FS.follow] in *.
  - pose proof (walk_more fs fs' rest Hsub cur) as Hw.
    destruct (FS.walk true fs cur rest); try done. by rewrite Hw.
  - pose proof (walk_more fs fs' rest Hsub cur) as Hw.
    destruct (FS.walk true fs cur rest); try done; rewrite Hw; [done|].
    by apply IH.
Qed.

Lemma entry_more (fs fs' : gmap (list pystr) inode) (d : list pystr) (i : inode) :
  (∀ k i, fs !! k = Some i → fs' !! k = Some i) →
  FS.entry fs d = Some i → FS.entry fs' d = Some i.
Proof. intros Hsub. destruct d; [done|]. apply Hsub. Qed.

Lemma is_directory_more (w w' : World) (p : Path.t) :
  only_dirs_added w w' → is_directory w p → is_directory w' p.
Proof.
  intros (_ & Hcwd & _ & _ & _ & _ & _ & Hsub & _) [m Hstat]. exists m.
  unfold FS.stat_at, FS.lookup_path, FS.start in *. rewrite Hcwd.
  destruct (FS.follow _ true (w_fs w) _ _) as [q| |] eqn:Hf; try done.
  rewrite (follow_more _ _ _ Hsub _ _ _ Hf). cbn [mbind result_bind] in *.
  destruct (FS.entry (w_fs w) q) as [i|] eqn:He; [|done].
  by rewrite (entry_more _ _ _ _ Hsub He).
Qed.

(** One more component, a directory, after a lookup that ended in a
    directory. *)
Lemma walk_snoc_dir (fs : gmap (list pystr) inode) (n : pystr) (d : list pystr)
    (m m' : Z) (rest : list pystr) :
  Path.is_trivial n = false → n ≠ py ".." →
  FS.entry fs d = Some (Inode Dir m) →
  fs !! (d ++ [n]) = Some (Inode Dir m') →
  ∀ cur, FS.walk true fs cur rest = FS.Done d →
         FS.walk true fs cur (rest ++ [n]) = FS.Done (d ++ [n]).
Proof.
  intros Ht Hdd Hd Hk.
  induction rest as [|x rest IH]; intros cur Hwalk.
  - simpl in Hwalk. injection Hwalk as ->. cbn [app FS.walk].
    by rewrite Ht, bool_decide_eq_false_2, Hk.
  - cbn [app FS.walk] in *.
    destruct (Path.is_trivial x); [by apply IH|].
    destruct (bool_decide (x = py "..")); [by apply IH|].
    destruct (fs !! (cur ++ [x])) as [[[| |t] mx]|] eqn:Hx; try done.
    + cbn [andb] in *. destruct rest as [|y rest]; cbn [app] in *.
      * simpl in Hwalk. injection Hwalk as <-.
        destruct cur; simpl in *; congruence.
      * by rewrite bool_decide_eq_false_2 in Hwalk.
    + by apply IH.
Qed.

Lemma follow_snoc_dir (fs : gmap (list pystr) inode) (n : pystr) (d : list pystr)
    (m m' : Z) :
  Path.is_trivial n = false → n ≠ py ".." →
  FS.entry fs d = Some (Inode Dir m) →
  fs !! (d ++ [n]) = Some (Inode Dir m') →
  ∀ fuel cur rest, FS.follow fuel true fs cur rest = Ok d →
                   FS.follow fuel true fs cur (rest ++ [n]) = Ok (d ++ [n]).
Proof.
  intros Ht Hdd Hd Hk.
  induction fuel as [|fuel IH]; intros cur rest Hfollow; cbn [FS.follow] in *.
  - destruct (FS.walk true fs cur rest) as [p|dir t rest'|e] eqn:Hwalk; try done.
    injection Hfollow as ->. by erewrite walk_snoc_dir.
  - destruct (FS.walk true fs cur rest) as [p|dir t rest'|e] eqn:Hwalk; try done.
    + injection Hfollow as ->. by erewrite walk_snoc_dir.
    + erewrite walk_snoc_link by done. rewrite app_assoc. by apply IH.
Qed.

(** What a [mkdir] that succeeds has made is a directory. *)
Lemma mkdir_ok_directory (p : Path.t) (w w' : World) :
  FS.mkdir (Y := void) p w = ([], Ok tt, w') → is_directory w' p.
Proof.
  intros Hrun. destruct (mkdir_effect p w) as (r & w1 & Hrun' & _ & Heff).
  rewrite Hrun in Hrun'. injection Hrun' as <- <-.
  destruct Heff as (name & d & m & Hparts & Htriv & Hdd & Hf & Hd & Hnone & ->).
  assert (Hsub : ∀ k i, w_fs w !! k = Some i →
                        (<[d ++ [name] := Inode Dir (w_clock w)]> (w_fs w)) !! k = Some i).
  { intros k i Hk. rewrite lookup_insert_ne; [done|]. intros <-. congruence. }
  exists (w_clock w). unfold FS.stat_at, FS.lookup_path.
  cbn [w_fs set_fs]. change (FS.start (set_fs w _) p) with (FS.start w p).
  rewrite Hparts.
  erewrite follow_snoc_dir;
    [|done|done|by eapply entry_more|apply lookup_insert_eq|by eapply follow_more].
  cbn [mbind result_bind]. unfold FS.entry.
  destruct (d ++ [name]) eqn:Heq; [by destruct d|]. rewrite <- Heq.
  by rewrite lookup_insert_eq.
Qed.


Lemma unless_is_dir_effect (p : Path.t) (e : exn) (w : World) :
  ∃ r, FS.unless_is_dir (Y := void) p e w = ([], r, w) ∧ r ≠ Diverge ∧
       (r = Ok tt → is_directory w p).
Proof.
  unfold FS.unless_is_dir, FS.is_dir. gen_eval.
  destruct (FS.stat_at w p) as [[[| |t] m]| |] eqn:Hstat; gen_eval;
    eexists; (split; [reflexivity|]); (split; [done|]); intros H; try done.
  by exists m.
Qed.

Lemma mkdir_exist_ok_effect (p : Path.t) (w : World) :
  ∃ r w', FS.mkdir_exist_ok (Y := void) p w = ([], r, w') ∧ r ≠ Diverge ∧
          only_dirs_added w w' ∧ (r = Ok tt → is_directory w' p).
Proof.
  unfold FS.mkdir_exist_ok, try_catch.
  destruct (mkdir_adds p w) as (r & w1 & Hrun & Hr & Hadd).
  pose proof (mkdir_effect p w) as (r' & w1' & Hrun' & _ & Heff).
  rewrite Hrun in Hrun'. injection Hrun' as <- <-. rewrite Hrun.
  destruct r as [[]|e|]; [| |done].
  - exists (Ok tt), w1. split; [done|]. split; [done|]. split; [done|].
    intros _. by eapply mkdir_ok_directory.
  - subst w1. cbn [any_exception].
    destruct (FS.is_file_not_found e).
    + unfold raise. eexists _, _. split; [reflexivity|]. split; [done|].
      split; [apply only_dirs_added_refl|done].
    + destruct (unless_is_dir_effect p e w) as (r2 & -> & Hr2 & Hdir).
      exists r2, w. by rewrite app_nil_r.
Qed.

Lemma mkdir_parents_effect (depth : nat) :
  ∀ (p : Path.t) (w : World),
  ∃ r w', FS.mkdir_parents (Y := void) depth p w = ([], r, w') ∧ r ≠ Diverge ∧
          only_dirs_added w w' ∧ (r = Ok tt → is_directory w' p).
Proof.
  induction depth as [|depth IH]; intros p w.
  all: cbn [FS.mkdir_parents]; unfold try_catch.
  all: destruct (mkdir_adds p w) as (r & w1 & Hrun & Hr & Hadd).
  all: pose proof (mkdir_effect p w) as (r' & w1' & Hrun' & _ & Heff).
  all: rewrite Hrun in Hrun'; injection Hrun' as <- <-; rewrite Hrun.
  all: destruct r as [[]|e|]; [| |done].
  all: try (exists (Ok tt), w1; split; [done|]; split; [done|]; split; [done|];
            intros _; by eapply mkdir_ok_directory).
  all: subst w1; cbn [any_exception]; destruct (FS.is_file_not_found e).
  all: try (destruct (unless_is_dir_effect p e w) as (r2 & -> & Hr2 & Hdir);
            exists r2, w; by rewrite app_nil_r).
  - unfold raise. eexists _, _. split; [reflexivity|]. split; [done|].
    split; [apply only_dirs_added_refl|done].
  - destruct (Path.parts p) as [|x l] eqn:Hparts.
    { unfold raise. eexists _, _. split; [reflexivity|]. split; [done|].
      split; [apply only_dirs_added_refl|done]. }
    gen_simpl.
    destruct (IH (Path.parent p) w) as (r1 & w1 & Hrun1 & Hr1 & Hadd1 & _).
    rewrite Hrun1. destruct r1 as [[]|e1|]; [| |done].
    + destruct (mkdir_exist_ok_effect p w1) as (r2 & w2 & Hrun2 & Hr2 & Hadd2 & Hdir2).
      rewrite Hrun2. exists r2, w2. split; [done|]. split; [done|].
      split; [by eapply only_dirs_added_trans|done].
    + eexists _, _. split; [reflexivity|]. split; [done|]. split; [done|done].
Qed.

(** How [initialize] ends. *)
Lemma initialize_effect (self : FileManager.t) (w : World) :
  ∃ r w', FileManager.initialize self w = ([], r, w') ∧ r ≠ Diverge ∧
    only_dirs_added w w' ∧
    (r = Ok tt →
     is_directory w' (FileManager.temp_dir self) ∧
     is_directory w' (FileManager.zip_dir self)).
Proof.
  unfold FileManager.initialize. gen_simpl.
  destruct (mkdir_parents_effect (length (Path.parts (FileManager.temp_dir self)))
              (FileManager.temp_dir self) w) as (r1 & w1 & Hrun1 & Hr1 & Hadd1 & Hdir1).
  rewrite Hrun1. destruct r1 as [[]|e1|]; [| |done]; cycle 1.
  { eexists _, _. split; [reflexivity|]. split; [done|]. split; [done|done]. }
  destruct (mkdir_parents_effect (length (Path.parts (FileManager.zip_dir self)))
              (FileManager.zip_dir self) w1) as (r2 & w2 & Hrun2 & Hr2 & Hadd2 & Hdir2).
  rewrite Hrun2. destruct r2 as [[]|e2|]; [| |done]; cycle 1.
  { eexists _, _. split; [reflexivity|]. split; [done|].
    split; [by eapply only_dirs_added_trans|done]. }
  unfold FS.log. gen_eval. eexists _, _. split; [reflexivity|]. split; [done|].
  assert (Hadd : only_dirs_added w w2) by by eapply only_dirs_added_trans.
  split.
  - eapply only_dirs_added_trans; [exact Hadd|apply only_dirs_added_log].
  - intros _. split.
    + eapply is_directory_more; [apply only_dirs_added_log|].
      eapply is_directory_more; [exact Hadd2|]. by apply Hdir1.
    + eapply is_directory_more; [apply only_dirs_added_log|]. by apply Hdir2.
Qed.


(** X18. When [initialize] returns normally, the temp directory and the
    output directory exist and are directories. *)
Theorem initialize_creates_directories (self : FileManager.t) (w w' : World) :
  FileManager.initialize self w = ([], Ok tt, w') →
  is_directory w' (FileManager.temp_dir self) ∧
  is_directory w' (FileManager.zip_dir self).
Proof.
  intros Hrun. destruct (initialize_effect self w) as (r & w1 & Hrun' & _ & _ & Hdirs).
  rewrite Hrun in Hrun'. injection Hrun' as <- <-. by apply Hdirs.
Qed.


End MkdirFacts.

Section StartupFacts.

(** X19. Loading the application module never removes anything but old
    archives: whatever the state of the file system, the start-up code
    comes back, and every entry that differs afterwards is either a new
    directory or a removed entry that was no directory and whose name ends
    in [.zip].  The clock, the processes and the signals are left alone. *)
Theorem startup_effect (w : World) :
  ∃ r w', App.startup w = ([], r, w') ∧ r ≠ Diverge ∧
    w_clock w' = w_clock w ∧ w_children w' = w_children w ∧
    w_signals w' = w_signals w ∧
    ∀ k, w_fs w' !! k ≠ w_fs w !! k →
      (w_fs w !! k = None ∧ w_fs w' !! k = Some (Inode Dir (w_clock w))) ∨
      (w_fs w' !! k = None ∧
       ∃ i, w_fs w !! k = Some i ∧ i_kind i ≠ Dir ∧
            Str.endswith (List.last k []) (py ".zip") = true).
Proof.
  unfold App.startup. gen_simpl.
  destruct (initialize_effect FileManager.default w) as (r1 & w1 & Hrun1 & Hr1 & Hadd & _).
  rewrite Hrun1.
  destruct Hadd as (_ & _ & Hclock & _ & _ & Hchildren & Hsignals & Hkeep & Hnew).
  destruct r1 as [[]|e|]; [| |done]; cycle 1.
  { eexists _, _. split; [reflexivity|]. split; [done|]. do 3 (split; [done|]).
    intros k Hdiff. left.
    destruct (w_fs w1 !! k) as [i|] eqn:Hk.
    - destruct (Hnew k i Hk) as [Hold|[Hnone ->]]; [exfalso; apply Hdiff; symmetry; exact Hold|done].
    - destruct (w_fs w !! k) as [i|] eqn:Hk0; [|done]. apply Hkeep in Hk0.
      exfalso. pose proof (eq_trans (eq_sym Hk) Hk0) as Hclash. discriminate Hclash. }
  destruct (cleanup_old_files_effect FileManager.default 60 w1) as (w2 & Hrun2 & Hzip).
  rewrite Hrun2.
  destruct Hzip as (_ & _ & Hclock2 & _ & Hchildren2 & Hsignals2 & Hgone).
  eexists _, _. split; [reflexivity|]. split; [done|].
  do 3 (split; [congruence|]). intros k Hdiff.
  destruct (decide (w_fs w2 !! k = w_fs w1 !! k)) as [Hsame|Hchanged].
  - left. rewrite Hsame in *.
    destruct (w_fs w1 !! k) as [i|] eqn:Hk.
    + destruct (Hnew k i Hk) as [Hold|[Hnone ->]]; [exfalso; apply Hdiff; symmetry; exact Hold|done].
    + destruct (w_fs w !! k) as [i|] eqn:Hk0; [|done]. apply Hkeep in Hk0.
      exfalso. pose proof (eq_trans (eq_sym Hk) Hk0) as Hclash. discriminate Hclash.
  - destruct (Hgone k Hchanged) as (Hnone & i & Hk1 & Hkind & Hname).
    destruct (Hnew k i Hk1) as [Hold|[_ ->]]; [|done].
    right. split; [done|]. by exists i.
Qed.

End StartupFacts.

(** ** utils/parser.py: the file-saved pattern *)

Section RegexFacts.
Context {U : UnicodeData}.






End RegexFacts.

(** ** The further properties on concrete inputs *)

Section ExtraExamples.

(** A parser that has counted a file goes back to the state of a new one. *)
Lemma reset_restores_initial_witness :
  parser_reachable (U := ascii_unicode)
    (LogParser.Build 1 0 LogParser.saved_re LogParser.ok_re LogParser.error_re) ∧
  LogParser.reset (LogParser.Build 1 0 LogParser.saved_re LogParser.ok_re LogParser.error_re)
    = LogParser.__init__.
Proof.
  assert (H : parser_reachable (U := ascii_unicode)
                (LogParser.Build 1 0 LogParser.saved_re LogParser.ok_re LogParser.error_re))
    by (exists [ProcessLine (py "‘x’ saved [1/1]")]; vm_compute; reflexivity).
  split; [exact H|]. exact (reset_restores_initial (U := ascii_unicode) _ H).
Defined.

(** The directories of a saved file are not shown. *)
Lemma saved_display_no_slash_witness :
  Str.strip (py "‘site/css/main.css’ saved [10/10]") ≠ [] ∧
  Re.search (U := ascii_unicode) (LogParser.saved_pattern LogParser.__init__)
    (Str.strip (py "‘site/css/main.css’ saved [10/10]")) = true ∧
  ∃ name st self',
    LogParser.process_line (U := ascii_unicode) LogParser.__init__
      (py "‘site/css/main.css’ saved [10/10]")
      = Ok ((py "✅ FILE SAVED: " ++ name ++ [LF], st), self') ∧
    SLASH ∉ py "✅ FILE SAVED: " ++ name ++ [LF].
Proof.
  assert (H1 : Str.strip (py "‘site/css/main.css’ saved [10/10]") ≠ [])
    by (vm_compute; discriminate).
  assert (H2 : Re.search (U := ascii_unicode) (LogParser.saved_pattern LogParser.__init__)
                 (Str.strip (py "‘site/css/main.css’ saved [10/10]")) = true)
    by (vm_compute; reflexivity).
  split; [exact H1|]. split; [exact H2|].
  exact (saved_display_no_slash (U := ascii_unicode) LogParser.__init__ _ H1 H2).
Defined.

(** The mirror of an earlier job is removed with its page; the rest of the
    storage stays. *)
Lemma clear_temp_folder_inside_witness :
  FS.realpath (example_world None) (FileManager.temp_dir FileManager.default)
    = Ok [py "app"; py "storage"; py "temp_sites"] ∧
  FS.locate (example_world None) (Path.of_str (py "storage/temp_sites/httpbin.org"))
    = Ok ([py "app"; py "storage"; py "temp_sites"],
          [py "app"; py "storage"; py "temp_sites"] ++ [py "httpbin.org"]) ∧
  example_fs !! ([py "app"; py "storage"; py "temp_sites"] ++ [py "httpbin.org"])
    = Some (Inode Dir 0) ∧
  FS.blocked (example_world None)
    ([py "app"; py "storage"; py "temp_sites"] ++ [py "httpbin.org"]) = false ∧
  ∃ fs',
    FileManager.clear_temp_folder FileManager.default
      (py "storage/temp_sites/httpbin.org") (example_world None) =
      ([], Ok tt,
       set_log (set_fs (example_world None) fs')
         [(py "FileManager", INFO, py "Removed temp folder: httpbin.org")]) ∧
    fs' !! [py "app"; py "storage"; py "temp_sites"; py "httpbin.org"; py "index.html"]
      = None ∧
    fs' !! [py "app"; py "storage"; py "output_zips"; py "new.zip"]
      = Some (Inode File 8200).
Proof.
  assert (H1 : FS.realpath (example_world None) (FileManager.temp_dir FileManager.default)
               = Ok [py "app"; py "storage"; py "temp_sites"])
    by (vm_compute; reflexivity).
  assert (H2 : FS.locate (example_world None)
                 (Path.of_str (py "storage/temp_sites/httpbin.org"))
               = Ok ([py "app"; py "storage"; py "temp_sites"],
                     [py "app"; py "storage"; py "temp_sites"] ++ [py "httpbin.org"]))
    by (vm_compute; reflexivity).
  assert (H3 : w_fs (example_world None)
                 !! ([py "app"; py "storage"; py "temp_sites"] ++ [py "httpbin.org"])
               = Some (Inode Dir 0))
    by (vm_compute; reflexivity).
  assert (H4 : FS.blocked (example_world None)
                 ([py "app"; py "storage"; py "temp_sites"] ++ [py "httpbin.org"]) = false)
    by (vm_compute; reflexivity).
  split; [exact H1|]. split; [exact H2|]. split; [exact H3|]. split; [exact H4|].
  destruct (clear_temp_folder_inside FileManager.default
              (py "storage/temp_sites/httpbin.org") (example_world None)
              [py "app"; py "storage"; py "temp_sites"] [py "httpbin.org"]
              [py "app"; py "storage"; py "temp_sites"] 0 H1 ltac:(discriminate) H2 H3 H4)
    as (fs' & Hrun & Hfs).
  exists fs'. split; [exact Hrun|].
  split; rewrite Hfs; vm_compute; reflexivity.
Defined.


(** A child that heeds SIGTERM gets that signal and no other. *)
Lemma stop_running_witness :
  WgetEngine.process running_engine = Some 0%nat ∧
  Subprocess.child_at running_world 0 = Some failing_wget ∧
  c_status failing_wget = Running ∧
  ∃ wk w',
    WgetEngine.stop (Y := void) (running_engine, running_world)
      = ([], Ok tt, (WgetEngine.set_process running_engine None, w')) ∧
    w_signals wk = [(0%nat, SIGTERM)] ∧
    Subprocess.child_at wk 0 = Some (Subprocess.exited failing_wget (-15)%Z).
Proof.
  split; [reflexivity|]. split; [reflexivity|]. split; [reflexivity|].
  destruct (stop_running (Y := void) running_engine running_world 0 failing_wget
              eq_refl eq_refl eq_refl) as (wk & w' & Hrun & Hsig & Hchild & _).
  exists wk, w'. split; [exact Hrun|]. split; [exact Hsig|exact Hchild].
Defined.

(** Without a wget to start, the download ends with the exception in its
    last item. *)
Lemma download_launch_failure_witness :
  WgetEngine._get_domain_from_url (L := basic_library) (py "https://example.com/")
    = Ok (py "example.com") ∧
  WgetEngine.base_dir example_engine ≠ [] ∧
  w_launch
    (if FS.path_exists (example_world None)
          (os_path_join (WgetEngine.base_dir example_engine) (py "example.com"))
     then (FileManager.clear_temp_folder (WgetEngine.fm example_engine)
             (os_path_join (WgetEngine.base_dir example_engine) (py "example.com"))
             (example_world None)).2
     else example_world None)
    (wget_command (WgetEngine.base_dir example_engine) (py "https://example.com/")) = None ∧
  ∃ e items w',
    exn_type e = FileNotFoundError ∧
    WgetEngine.download (L := basic_library) (py "https://example.com/")
      (example_engine, example_world None)
    = (items ++ [(LF :: py "[Engine] Critical Exception: " ++ exn_str e ++ [LF], None)],
       Ok tt,
       (WgetEngine.set_process
          (WgetEngine.set_current_website_dir example_engine
             (Some (os_path_join (WgetEngine.base_dir example_engine) (py "example.com"))))
          None, w')).
Proof.
  assert (H1 : WgetEngine._get_domain_from_url (L := basic_library)
                 (py "https://example.com/") = Ok (py "example.com"))
    by (vm_compute; reflexivity).
  assert (H2 : WgetEngine.base_dir example_engine ≠ []) by discriminate.
  assert (H3 : w_launch
    (if FS.path_exists (example_world None)
          (os_path_join (WgetEngine.base_dir example_engine) (py "example.com"))
     then (FileManager.clear_temp_folder (WgetEngine.fm example_engine)
             (os_path_join (WgetEngine.base_dir example_engine) (py "example.com"))
             (example_world None)).2
     else example_world None)
    (wget_command (WgetEngine.base_dir example_engine) (py "https://example.com/")) = None)
    by reflexivity.
  split; [exact H1|]. split; [exact H2|]. split; [exact H3|].
  destruct (download_launch_failure (L := basic_library) (py "https://example.com/")
              example_engine (example_world None) (py "example.com") H1 H2 H3)
    as (e & items & He & _ & Hrun).
  exists e, items. eexists. split; [exact He|exact Hrun].
Defined.


(** A mirror that does not exist cannot be archived. *)
Lemma compress_errors_witness :
  ZipEngine.compress (L := basic_library) example_zipper
    (py "storage/temp_sites/missing") (example_world None)
  = ([], Raise (Exn FileNotFoundError
                  (py "Source directory not found: storage/temp_sites/missing")),
     example_world None) ∧
  FS.path_exists (example_world None) (py "storage/temp_sites/missing") = false.
Proof.
  assert (H : ZipEngine.compress (L := basic_library) example_zipper
                (py "storage/temp_sites/missing") (example_world None)
              = ([], Raise (Exn FileNotFoundError
                              (py "Source directory not found: storage/temp_sites/missing")),
                 example_world None))
    by reflexivity.
  split; [exact H|].
  destruct (compress_errors (L := basic_library) _ _ _ _ _ _ H)
    as [(Hmissing & _)|(Hthere & Hexn & _)]; [exact Hmissing|discriminate Hexn].
Defined.

(** The archive of the mirror of [httpbin.org] is named after it. *)
Lemma compress_archive_name_witness :
  valid_name (py "httpbin.org") ∧
  py "storage/temp_sites" ≠ [] ∧
  FS.path_exists (example_world None)
    (os_path_join (py "storage/temp_sites") (py "httpbin.org")) = true ∧
  ZipEngine.compress (L := basic_library) example_zipper
    (os_path_join (py "storage/temp_sites") (py "httpbin.org")) (example_world None) =
    try_catch any_exception
      (make_archive (Library := basic_library)
         (py "storage/output_zips/httpbin.org") (py "storage/temp_sites") (py "httpbin.org"))
      (fun e => raise (Exn Exception (py "Compression failed: " ++ exn_str e)))
      (example_world None).
Proof.
  assert (H1 : valid_name (py "httpbin.org")).
  { repeat split; try discriminate. apply (bool_decide_unpack _). by vm_compute. }
  assert (H2 : py "storage/temp_sites" ≠ []) by discriminate.
  assert (H3 : FS.path_exists (example_world None)
                 (os_path_join (py "storage/temp_sites") (py "httpbin.org")) = true)
    by (vm_compute; reflexivity).
  split; [exact H1|]. split; [exact H2|]. split; [exact H3|].
  rewrite (compress_archive_name (L := basic_library) example_zipper
             (py "storage/temp_sites") (py "httpbin.org") (example_world None) H1 H2 H3).
  replace (FS.path_exists (example_world None)
             (os_path_join (ZipEngine.output_dir example_zipper) (py "httpbin.org")
                ++ py ".zip")) with false by (vm_compute; reflexivity).
  reflexivity.
Defined.

(** A URL with another scheme is turned away and nothing happens. *)
Lemma process_download_guard_witness :
  take 4 (py "ftp://example.com") ≠ py "http" ∧
  App.process_download (U := ascii_unicode) (L := basic_library)
    (py "ftp://example.com") (example_world (Some working_wget)) =
    ([(py "❌ Error: Please enter a valid URL (http/https).", 0%Z, 0%Z, None,
       py "Invalid URL")],
     Ok tt, example_world (Some working_wget)).
Proof.
  assert (H : take 4 (py "ftp://example.com") ≠ py "http") by discriminate.
  split; [exact H|].
  exact (proj1 (process_download_guard (U := ascii_unicode) (L := basic_library)
                  (py "ftp://example.com") (example_world (Some working_wget))) H).
Defined.


(** On a bare machine the storage is created. *)
Lemma initialize_creates_directories_witness :
  FileManager.initialize FileManager.default bare_world
    = ([], Ok tt, (FileManager.initialize FileManager.default bare_world).2) ∧
  is_directory (FileManager.initialize FileManager.default bare_world).2
    (FileManager.temp_dir FileManager.default) ∧
  is_directory (FileManager.initialize FileManager.default bare_world).2
    (FileManager.zip_dir FileManager.default).
Proof.
  assert (H : FileManager.initialize FileManager.default bare_world
              = ([], Ok tt, (FileManager.initialize FileManager.default bare_world).2)).
  { assert (Hfst : (FileManager.initialize FileManager.default bare_world).1 = ([], Ok tt))
      by (vm_compute; reflexivity).
    destruct (FileManager.initialize FileManager.default bare_world) as [p w'].
    cbn [fst snd] in *. by rewrite Hfst. }
  split; [exact H|].
  exact (initialize_creates_directories FileManager.default bare_world _ H).
Defined.


End ExtraExamples.
